(** * nlpc-attendance: the handlers' store logic, embedded and verified

    The repository is a set of stateless HTTP handlers over a PostgreSQL
    store.  This development embeds the handlers that record attendance,
    compute a member's absences, issue and verify stream access codes and
    rotate the livestream password, together with the fragment of SQL
    semantics their statements rely on, and proves the properties the
    specification states about them.

    Part I holds the model, one module per source file.  Part II holds the
    theorems. *)

From Stdlib Require Import ZArith List String Ascii Bool Lia Arith Permutation.
From Stdlib Require Import SpecFloat.
Import ListNotations.

Local Open Scope string_scope.
Local Open Scope list_scope.

(* ================================================================== *)
(** * Part I: the model *)
(* ================================================================== *)

(** ** JavaScript string operations used by the handlers

    Strings are byte strings; every string the handlers inspect (dates,
    phone numbers, access codes) is ASCII. *)
Module Js.

(** [s.split(sep)[0]]: the part of [s] before the first [sep]. *)
Fixpoint split_head (sep : ascii) (s : string) : string :=
  match s with
  | EmptyString => EmptyString
  | String c s' =>
      if Ascii.eqb c sep then EmptyString else String c (split_head sep s')
  end.

(** The character class [[0-9]]; [\D] is its complement. *)
Definition is_digit (c : ascii) : bool :=
  let n := nat_of_ascii c in (48 <=? n)%nat && (n <=? 57)%nat.

(** [s.replace(/\D/g, '')], and PostgreSQL's
    [REGEXP_REPLACE(s, '[^0-9]', '', 'g')]. *)
Fixpoint strip_non_digits (s : string) : string :=
  match s with
  | EmptyString => EmptyString
  | String c s' =>
      if is_digit c then String c (strip_non_digits s') else strip_non_digits s'
  end.

(** [s.slice(-n)], and PostgreSQL's [RIGHT(s, n)] for a positive [n]: the
    last [n] characters, the whole string when it is shorter. *)
Definition slice_last (n : nat) (s : string) : string :=
  substring (String.length s - n) n s.

(** White space as [String.prototype.trim] sees it in ASCII. *)
Definition is_space (c : ascii) : bool :=
  let n := nat_of_ascii c in
  ((9 <=? n)%nat && (n <=? 13)%nat) || (n =? 32)%nat.

(** [!s.trim()]: the string is empty or white space only. *)
Fixpoint is_blank (s : string) : bool :=
  match s with
  | EmptyString => true
  | String c s' => is_space c && is_blank s'
  end.

Fixpoint trim_start (s : string) : string :=
  match s with
  | EmptyString => EmptyString
  | String c s' => if is_space c then trim_start s' else s
  end.

Fixpoint rev_string (s : string) (acc : string) : string :=
  match s with
  | EmptyString => acc
  | String c s' => rev_string s' (String c acc)
  end.

(** [s.trim()]. *)
Definition trim (s : string) : string :=
  rev_string (trim_start (rev_string (trim_start s) EmptyString)) EmptyString.

(** [c.toUpperCase()] on one ASCII character. *)
Definition upper_char (c : ascii) : ascii :=
  let n := nat_of_ascii c in
  if (97 <=? n)%nat && (n <=? 122)%nat then ascii_of_nat (n - 32) else c.

(** [s.toUpperCase()]. *)
Fixpoint toUpperCase (s : string) : string :=
  match s with
  | EmptyString => EmptyString
  | String c s' => String (upper_char c) (toUpperCase s')
  end.

(** [s.includes(c)] for a one-character needle. *)
Fixpoint mem_char (c : ascii) (s : string) : bool :=
  match s with
  | EmptyString => false
  | String d s' => Ascii.eqb c d || mem_char c s'
  end.

(** [s.charAt(i)] and [s[i]] for an index inside the string.  Outside it
    [charAt] gives the empty string and [s[i]] gives [undefined]; both are
    [None] here and the callers say what they do with it. *)
Definition char_at (s : string) (i : nat) : option ascii := String.get i s.

End Js.

(** ** The tables the handlers read and write

    A row keeps the columns some handler names in a statement.  Surrogate
    keys of type UUID are integers; a TIMESTAMP is a number of milliseconds;
    a DATE is its canonical ISO-8601 text [YYYY-MM-DD], the text the
    handlers send and the text [toISOString().split('T')[0]] gives back, so
    that equality and order of dates are equality and lexicographic order
    of the texts. *)
Module Schema.

Definition uuid := Z.
Definition timestamp := Z.
Definition pg_date := string.

(** [members]: [id TEXT PRIMARY KEY], [phone VARCHAR(50)] (nullable). *)
Record member_row := mkMember {
  m_id : string;
  m_first_name : string;
  m_last_name : string;
  m_phone : option string
}.

(** [attendance], with [UNIQUE(date, service_type, member_id)]. *)
Record attendance_row := mkAttendance {
  a_date : pg_date;
  a_service_type : string;
  a_member_id : string;
  a_present : bool;
  a_checked_in_at : timestamp
}.

(** [absentee_checkins]. *)
Record checkin_row := mkCheckin {
  k_id : uuid;
  k_name : string;
  k_phone : string;
  k_reason : string;
  k_prayer_request : option string;
  k_service_date : pg_date;
  k_livestream_sent : bool;
  k_livestream_sent_at : option timestamp;
  k_created_at : timestamp
}.

(** [vimeo_passwords]. *)
Record vimeo_row := mkVimeo {
  v_id : uuid;
  v_video_id : string;
  v_password : string;
  v_video_url : option string;
  v_active : bool;
  v_rotation_type : string;
  v_created_at : timestamp
}.

(** [stream_access_codes], with [code VARCHAR(8) UNIQUE NOT NULL] and
    [use_count INTEGER DEFAULT 0]. *)
Record code_row := mkCode {
  c_id : uuid;
  c_code : string;
  c_member_name : string;
  c_phone : string;
  c_absentee_checkin_id : uuid;
  c_expires_at : timestamp;
  c_first_used_at : option timestamp;
  c_last_used_at : option timestamp;
  c_use_count : Z;
  c_revoked : bool
}.

(** The largest value of an INTEGER column. *)
Definition int4_max : Z := 2147483647.

(** The shape [YYYY-MM-DD] of the text of a date. *)
Definition is_iso_date (s : string) : bool :=
  match list_ascii_of_string s with
  | [y1; y2; y3; y4; d1; m1; m2; d2; a1; a2] =>
      forallb Js.is_digit [y1; y2; y3; y4; m1; m2; a1; a2]
      && Ascii.eqb d1 "-" && Ascii.eqb d2 "-"
  | _ => false
  end.

End Schema.

(** ** [POST /attendance]: the attendance recorder (src/unnamed/part_001) *)
Module RecordAttendance.
Import Schema.

Definition table := list attendance_row.

(** Errors the server reports for the statements of this handler. *)
Inductive pg_error :=
| invalid_datetime_format       (* 22007: the text is no date *)
| string_data_right_truncation  (* 22001: service_type is VARCHAR(100) *)
| foreign_key_violation         (* 23503: member_id REFERENCES members(id) *)
| cardinality_violation         (* 21000: ON CONFLICT DO UPDATE command
                                   cannot affect row a second time *)
| server_failure.               (* any other error of the statement *)

Definition error_message (e : pg_error) : string :=
  match e with
  | invalid_datetime_format => "invalid input syntax for type date"
  | string_data_right_truncation => "value too long for type character varying(100)"
  | foreign_key_violation => "insert or update on table attendance violates foreign key constraint"
  | cardinality_violation => "ON CONFLICT DO UPDATE command cannot affect row a second time"
  | server_failure => "server error"
  end.

(** The four statements of the [try] block, in program order. *)
Inductive statement := BEGIN | DELETE | INSERT | COMMIT.

(** A pooled client.  [committed] is the attendance table as every other
    session reads it; [open_txn] is this session's uncommitted copy while a
    transaction block is open.  [visible_log] records, newest first, what
    other sessions could read after each statement the client ran. *)
Record client := mkClient {
  committed : table;
  open_txn : option table;
  visible_log : list table
}.

Definition idle (c : client) : Prop := open_txn c = None.

(** The table the session's own statements read. *)
Definition current (c : client) : table :=
  match open_txn c with
  | Some t => t
  | None => committed c
  end.

(** A write goes to the open transaction, or straight to the committed
    table when no block is open (autocommit). *)
Definition write (t : table) (c : client) : client :=
  match open_txn c with
  | Some _ => mkClient (committed c) (Some t) (visible_log c)
  | None => mkClient t None (visible_log c)
  end.

Definition observe (c : client) : client :=
  mkClient (committed c) (open_txn c) (committed c :: visible_log c).

(** Statements run in a state-and-error monad over the client. *)
Definition M (A : Type) : Type := client -> (pg_error + A) * client.

Definition ret {A} (a : A) : M A := fun c => (inr a, c).

Definition bind {A B} (m : M A) (k : A -> M B) : M B :=
  fun c =>
    match m c with
    | (inr a, c') => k a c'
    | (inl e, c') => (inl e, c')
    end.

Notation "x <- m ;; k" := (bind m (fun x => k))
  (at level 61, m at next level, right associativity).

Definition same_service (d : pg_date) (st : string) (r : attendance_row) : bool :=
  String.eqb (a_date r) d && String.eqb (a_service_type r) st.

Definition same_key (d : pg_date) (st m : string) (r : attendance_row) : bool :=
  same_service d st r && String.eqb (a_member_id r) m.

(** The key [(d, st, m)] is one of [touched]. *)
Definition key_in (d : pg_date) (st m : string)
    (touched : list (pg_date * string * string)) : bool :=
  existsb (fun k => let '(d', st', m') := k in
             String.eqb d' d && String.eqb st' st && String.eqb m' m) touched.

(** The row the INSERT proposes for a member. *)
Definition present_row (now : timestamp) (d : pg_date) (st m : string)
    : attendance_row :=
  mkAttendance d st m true now.

(** The rows of one service occurrence. *)
Definition rows_for (d : pg_date) (st : string) (t : table) : table :=
  filter (same_service d st) t.

(** The rows of every other service occurrence. *)
Definition rows_outside (d : pg_date) (st : string) (t : table) : table :=
  filter (fun r => negb (same_service d st r)) t.

Section Handler.

(** PostgreSQL's conversion of a text parameter to DATE: [None] when the
    text is no date, otherwise the canonical text of the date. *)
Variable date_in : string -> option pg_date.
(** The statements that fail for a reason the model does not derive from
    the data (lock timeout, serialization failure, ...). *)
Variable fails : statement -> bool.
(** The ids of the [members] table, which this handler never writes. *)
Variable members : list string.
(** [CURRENT_TIMESTAMP] of the transaction. *)
Variable now : timestamp.

(** Runs after every statement: the statement is over and other sessions
    read [committed]. *)
Definition guarded {A} (s : statement) (m : M A) : M A :=
  fun c =>
    if fails s then (inl server_failure, observe c)
    else let '(r, c') := m c in (r, observe c').

(** [BEGIN]: opens a block on a copy of the committed table. *)
Definition query_begin : M unit :=
  guarded BEGIN (fun c =>
    match open_txn c with
    | Some _ => (inr tt, c)
    | None => (inr tt, mkClient (committed c) (Some (committed c)) (visible_log c))
    end).

(** [DELETE FROM attendance WHERE date = $1 AND service_type = $2];
    the result is [rowCount]. *)
Definition query_delete (date_text st : string) : M nat :=
  guarded DELETE (fun c =>
    match date_in date_text with
    | None => (inl invalid_datetime_format, c)
    | Some d =>
        (inr (List.length (rows_for d st (current c))),
         write (rows_outside d st (current c)) c)
    end).

(** One proposed row of
    [INSERT ... ON CONFLICT (date, service_type, member_id)
     DO UPDATE SET present = TRUE, checked_in_at = CURRENT_TIMESTAMP]:
    a row with the same key that the table holds is updated, otherwise the
    proposed row is appended. *)
Definition upsert_one (d : pg_date) (st m : string) (t : table) : table :=
  if existsb (same_key d st m) t
  then map (fun r =>
              if same_key d st m r
              then mkAttendance (a_date r) (a_service_type r) (a_member_id r) true now
              else r) t
  else t ++ [present_row now d st m].

(** The proposed rows in order.  [touched] holds the keys this statement
    has inserted or updated already: a second proposal for one of them is
    the cardinality violation. *)
Fixpoint upsert_rows (proposed : list (pg_date * string * string))
    (touched : list (pg_date * string * string)) (t : table) : pg_error + table :=
  match proposed with
  | [] => inr t
  | (d, st, m) :: rest =>
      if (100 <? String.length st)%nat then inl string_data_right_truncation
      else if key_in d st m touched then inl cardinality_violation
      else if negb (existsb (String.eqb m) members) then inl foreign_key_violation
      else upsert_rows rest ((d, st, m) :: touched) (upsert_one d st m t)
  end.

(** The text parameters of the rows converted to their column types. *)
Fixpoint cast_rows (params : list (string * string * string))
    : option (list (pg_date * string * string)) :=
  match params with
  | [] => Some []
  | (dt, st, m) :: rest =>
      match date_in dt, cast_rows rest with
      | Some d, Some rows => Some ((d, st, m) :: rows)
      | _, _ => None
      end
  end.

(** The multi-row [INSERT]; the result is [rowCount]. *)
Definition query_insert (params : list (string * string * string)) : M nat :=
  guarded INSERT (fun c =>
    match cast_rows params with
    | None => (inl invalid_datetime_format, c)
    | Some rows =>
        match upsert_rows rows [] (current c) with
        | inl e => (inl e, c)
        | inr t => (inr (List.length rows), write t c)
        end
    end).

(** [COMMIT]: the block's copy becomes the committed table. *)
Definition query_commit : M unit :=
  guarded COMMIT (fun c =>
    match open_txn c with
    | Some t => (inr tt, mkClient t None (visible_log c))
    | None => (inr tt, c)
    end).

(** [ROLLBACK] in the [catch] block: the block's copy is dropped.  Outside
    a block the server answers with a warning and changes nothing. *)
Definition query_rollback (c : client) : client :=
  observe (mkClient (committed c) None (visible_log c)).

(** The parsed body; [attendeeIds] is [None] when it is no array. *)
Record request := mkRequest {
  date : string;
  serviceType : string;
  attendeeIds : option (list string)
}.

Inductive body :=
| Recorded (date serviceType : string) (count deletedPrevious : nat)
| Failure (error : string) (details : option string).

Record response := respond { statusCode : Z; resp_body : body }.

(** Lines 53 to 89: the statements between [BEGIN] and [COMMIT]. *)
Definition transaction (normalizedDate st : string) (ids : list string)
    : M (nat * nat) :=
  _ <- query_begin ;;
  deleted <- query_delete normalizedDate st ;;
  insertedCount <-
    (if (0 <? List.length ids)%nat
     then query_insert (map (fun id => (normalizedDate, st, id)) ids)
     else ret 0%nat) ;;
  _ <- query_commit ;;
  ret (insertedCount, deleted).

(** The handler from [JSON.parse] on: the method and pool guards are
    passed and [pool.connect()] gave the client [c]. *)
Definition handler (req : request) (c : client) : response * client :=
  match attendeeIds req with
  | Some ids =>
      if String.eqb (date req) "" || String.eqb (serviceType req) ""
      then (respond 400 (Failure "Missing required fields: date, serviceType, attendeeIds" None), c)
      else
        let normalizedDate := Js.split_head "T" (date req) in
        match transaction normalizedDate (serviceType req) ids c with
        | (inr (insertedCount, deleted), c') =>
            (respond 200 (Recorded normalizedDate (serviceType req) insertedCount deleted), c')
        | (inl e, c') =>
            (respond 500 (Failure "Failed to record attendance" (Some (error_message e))),
             query_rollback c')
        end
  | None =>
      (respond 400 (Failure "Missing required fields: date, serviceType, attendeeIds" None), c)
  end.

End Handler.

End RecordAttendance.

(** ** [GET /member-absence-report]: the absence engine (src/unnamed/part_006)

    The model covers the computation of the occurred services, the
    attended services, the absences and the summary numbers.  The join of
    the absences with the self-reported check-ins (lines 89 to 150) reads
    other tables and changes none of these values; it is left out. *)
Module MemberAbsenceReport.
Import Schema.

(** A service occurrence: the columns [date, service_type]. *)
Definition service := (pg_date * string)%type.

Definition service_eq_dec : forall a b : service, {a = b} + {a <> b}.
Proof. decide equality; apply string_dec. Defined.

Definition service_of (r : attendance_row) : service :=
  (a_date r, a_service_type r).

(** [date >= $from AND date <= $to]. *)
Definition in_range (from to d : pg_date) : bool :=
  String.leb from d && String.leb d to.

(** [ORDER BY date DESC, service_type]. *)
Definition order_services (a b : service) : bool :=
  if String.eqb (fst a) (fst b)
  then String.leb (snd a) (snd b)
  else String.ltb (fst b) (fst a).

Fixpoint insert_by {A} (le : A -> A -> bool) (x : A) (l : list A) : list A :=
  match l with
  | [] => [x]
  | y :: l' => if le x y then x :: l else y :: insert_by le x l'
  end.

Definition sort_by {A} (le : A -> A -> bool) (l : list A) : list A :=
  fold_right (insert_by le) [] l.

(** [SELECT DISTINCT date, service_type FROM attendance
     WHERE date >= $1 AND date <= $2 ORDER BY date DESC, service_type]. *)
Definition select_services (from to : pg_date) (attendance : list attendance_row)
    : list service :=
  sort_by order_services
    (nodup service_eq_dec
       (map service_of (filter (fun r => in_range from to (a_date r)) attendance))).

(** [SELECT date, service_type FROM attendance
     WHERE member_id = $1 AND date >= $2 AND date <= $3 AND present = true]. *)
Definition select_attended (memberId : string) (from to : pg_date)
    (attendance : list attendance_row) : list service :=
  map service_of
    (filter (fun r => String.eqb (a_member_id r) memberId
                      && in_range from to (a_date r) && a_present r) attendance).

(** The key [`${date.toISOString().split('T')[0]}|${service_type}`]. *)
Definition service_key (s : service) : string :=
  (fst s ++ "|" ++ snd s)%string.

(** [new Set(keys).has(k)]. *)
Definition set_has (keys : list string) (k : string) : bool :=
  existsb (String.eqb k) keys.

(** [allServices.filter(service => !attendedSet.has(key))]. *)
Definition find_absences (allServices attended : list service) : list service :=
  let attendedSet := map service_key attended in
  filter (fun s => negb (set_has attendedSet (service_key s))) allServices.

(** A JavaScript Number: an IEEE 754 binary64 value. *)
Definition number := spec_float.

Definition number_of_Z (z : Z) : number := binary_normalize 53 1024 z 0 false.

Definition number_div (x y : number) : number := SFdiv 53 1024 x y.

Definition number_mul (x y : number) : number := SFmul 53 1024 x y.

(** [Math.round(x)]: the integer nearest to [x], the one toward plus
    infinity when two are equally near; [None] when [x] is NaN or
    infinite, which [JSON.stringify] writes as [null]. *)
Definition Math_round (x : number) : option Z :=
  match x with
  | S754_zero _ => Some 0%Z
  | S754_finite s m e =>
      let v := (if s then Z.neg m else Z.pos m) in
      Some (if (0 <=? e)%Z then (v * 2 ^ e)%Z
            else ((2 * v + 2 ^ (- e)) / 2 ^ (1 - e))%Z)
  | S754_infinity _ | S754_nan => None
  end.

(** [total > 0 ? Math.round((attended / total) * 100) : 0]. *)
Definition attendance_rate (totalAttended totalServicesInPeriod : Z) : option Z :=
  if (0 <? totalServicesInPeriod)%Z
  then Math_round
         (number_mul
            (number_div (number_of_Z totalAttended) (number_of_Z totalServicesInPeriod))
            (number_of_Z 100))
  else Some 0%Z.

(** The rate as the specification words it, "round(100 x attended /
    occurred)", on exact rationals, a tie going up as [Math.round] has
    it; 0 when nothing occurred. *)
Definition specified_rate (attended occurred : Z) : Z :=
  if (0 <? occurred)%Z
  then ((200 * attended + occurred) / (2 * occurred))%Z
  else 0%Z.

Record summary := mkSummary {
  totalServicesInPeriod : Z;
  totalAttended : Z;
  totalAbsences : Z;
  attendanceRate : option Z
}.

(** Lines 153 to 158. *)
Definition summarize (allServices absences : list service) : summary :=
  let total := Z.of_nat (List.length allServices) in
  let absent := Z.of_nat (List.length absences) in
  let attended := (total - absent)%Z in
  mkSummary total attended absent (attendance_rate attended total).

Inductive response :=
| Report (member : member_row) (s : summary) (absences : list service)
| Failure (statusCode : Z) (error : string).

Section Handler.

(** PostgreSQL's conversion of a text parameter to DATE. *)
Variable date_in : string -> option pg_date.
Variable members : list member_row.
Variable attendance : list attendance_row.

(** The handler from the query parameters on; a missing parameter is the
    empty string. *)
Definition handler (memberId fromDate toDate : string) : response :=
  if String.eqb memberId "" then Failure 400 "memberId is required"
  else if String.eqb fromDate "" || String.eqb toDate ""
  then Failure 400 "fromDate and toDate are required"
  else
    match filter (fun m => String.eqb (m_id m) memberId) members with
    | [] => Failure 404 "Member not found"
    | member :: _ =>
        match date_in fromDate, date_in toDate with
        | Some from, Some to =>
            let allServices := select_services from to attendance in
            let attended := select_attended memberId from to attendance in
            let absences := find_absences allServices attended in
            Report member (summarize allServices absences) absences
        | _, _ => Failure 500 "Failed to generate report"
        end
    end.

End Handler.

End MemberAbsenceReport.

(** ** The active livestream password

    Three handlers read it with the same statement. *)
Module ActivePassword.
Import Schema.

(** The first row of [l] with the largest [created_at]. *)
Fixpoint newest (l : list vimeo_row) : option vimeo_row :=
  match l with
  | [] => None
  | v :: l' =>
      match newest l' with
      | Some w => if (v_created_at v <? v_created_at w)%Z then Some w else Some v
      | None => Some v
      end
  end.

(** [SELECT ... FROM vimeo_passwords WHERE active = true
     ORDER BY created_at DESC LIMIT 1]. *)
Definition select_active (vimeo_passwords : list vimeo_row) : option vimeo_row :=
  newest (filter v_active vimeo_passwords).

End ActivePassword.

(** ** [POST /verify-stream-code]: access-code validation
    (src/unnamed/part_007, second handler) *)
Module VerifyStreamCode.
Import Schema.

Inductive body :=
| Denied (error : string) (revoked expired : bool)
| Granted (memberName videoId : string) (videoUrl : option string)
    (password : string) (expiresAt : timestamp).

Record response := respond { statusCode : Z; resp_body : body }.

(** [SELECT ... FROM stream_access_codes WHERE code = $1]. *)
Definition select_code (normalizedCode : string) (codes : list code_row)
    : list code_row :=
  filter (fun r => String.eqb (c_code r) normalizedCode) codes.

(** [codeResult.rows[0]]. *)
Definition find_code (normalizedCode : string) (codes : list code_row)
    : option code_row :=
  hd_error (select_code normalizedCode codes).

(** The [SET] clause of the usage update, on one row:
    [first_used_at = COALESCE(first_used_at, CURRENT_TIMESTAMP),
     last_used_at = CURRENT_TIMESTAMP, use_count = use_count + 1]. *)
Definition record_use (db_now : timestamp) (r : code_row) : code_row :=
  mkCode (c_id r) (c_code r) (c_member_name r) (c_phone r)
    (c_absentee_checkin_id r) (c_expires_at r)
    (match c_first_used_at r with Some t => Some t | None => Some db_now end)
    (Some db_now)
    (c_use_count r + 1)
    (c_revoked r).

(** [UPDATE stream_access_codes SET ... WHERE id = $1].  The statement
    fails as a whole, with "integer out of range", when a row it updates
    would leave the INTEGER range. *)
Definition update_usage (db_now : timestamp) (id : uuid) (codes : list code_row)
    : option (list code_row) :=
  if existsb (fun r => Z.eqb (c_id r) id && (int4_max <? c_use_count r + 1)%Z) codes
  then None
  else Some (map (fun r => if Z.eqb (c_id r) id then record_use db_now r else r) codes).

(** The handler from the parsed body on.  [js_now] is [new Date()] of the
    handler, [db_now] is [CURRENT_TIMESTAMP] of the update; a missing
    [code] is the empty string. *)
Definition handler (js_now db_now : timestamp) (vimeo_passwords : list vimeo_row)
    (code : string) (codes : list code_row) : response * list code_row :=
  if String.eqb code "" || negb (String.length code =? 6)%nat
  then (respond 400 (Denied "Invalid code format" false false), codes)
  else
    let normalizedCode := Js.toUpperCase code in
    match select_code normalizedCode codes with
    | [] => (respond 404 (Denied "Access code not found" false false), codes)
    | accessCode :: _ =>
        if c_revoked accessCode
        then (respond 403 (Denied "This access code has been revoked" true false), codes)
        else if (c_expires_at accessCode <? js_now)%Z
        then (respond 403 (Denied "This access code has expired" false true), codes)
        else
          match ActivePassword.select_active vimeo_passwords with
          | None => (respond 503 (Denied "No active stream configured" false false), codes)
          | Some vimeo =>
              match update_usage db_now (c_id accessCode) codes with
              | None => (respond 500 (Denied "Failed to verify access code" false false), codes)
              | Some codes' =>
                  (respond 200
                     (Granted (c_member_name accessCode) (v_video_id vimeo)
                        (v_video_url vimeo) (v_password vimeo)
                        (c_expires_at accessCode)),
                   codes')
              end
          end
    end.

(** A row after the usage updates at the times [ts], oldest first. *)
Definition after_uses (ts : list timestamp) (r : code_row) : code_row :=
  fold_left (fun r t => record_use t r) ts r.

(** One validation request, with what it finds when it runs. *)
Record call := mkCall {
  call_code : string;
  call_js_now : timestamp;
  call_db_now : timestamp;
  call_vimeo_passwords : list vimeo_row
}.

Definition run_call (k : call) (codes : list code_row) : response * list code_row :=
  handler (call_js_now k) (call_db_now k) (call_vimeo_passwords k) (call_code k) codes.

(** A sequence of validation requests, one after the other: the table
    after the last one, and the [CURRENT_TIMESTAMP]s of the requests that
    were answered 200, oldest first. *)
Fixpoint run_calls (ks : list call) (codes : list code_row)
    : list timestamp * list code_row :=
  match ks with
  | [] => ([], codes)
  | k :: ks' =>
      let '(resp, codes1) := run_call k codes in
      let '(times, codes2) := run_calls ks' codes1 in
      (if (statusCode resp =? 200)%Z then call_db_now k :: times else times, codes2)
  end.

End VerifyStreamCode.

(** ** [POST /absence]: self check-in and access-code issuance
    (src/unnamed/part_005) *)
Module SubmitAbsence.
Import Schema.

(** The alphabet of [generateAccessCode]. *)
Definition chars : string := "ABCDEFGHJKMNPQRSTUVWXYZ23456789".

(** The characters the comment of [generateAccessCode] calls confusing. *)
Definition confusing : string := "0OI1L".

(** An error of the server, as the driver throws it: [err.code] and
    [err.message]. *)
Record pg_error := mkError { sqlstate : string; message : string }.

Definition unique_violation : pg_error :=
  mkError "23505" "duplicate key value violates unique constraint".

Definition value_too_long : pg_error :=
  mkError "22001" "value too long for type character varying".

(** The store as this handler sees it. *)
Record db := mkDb {
  members : list member_row;
  absentee_checkins : list checkin_row;
  vimeo_passwords : list vimeo_row;
  stream_access_codes : list code_row
}.

(** The parsed body; a missing field is the empty string. *)
Record request := mkRequest {
  name : string;
  phone : string;
  reason : string;
  prayerRequest : string;
  serviceDate : string
}.

Inductive response :=
| Failure (statusCode : Z) (error : string) (notMember : bool)
| Recorded (checkin : checkin_row) (smsSent : bool) (smsError : option string).

Definition status_of (r : response) : Z :=
  match r with
  | Failure s _ _ => s
  | Recorded _ _ _ => 200
  end.

Definition validReasons : list string := ["sick"; "vacation"; "business"; "other"].

(** [phone.replace(/\D/g, '').slice(-10)], which is also
    [RIGHT(REGEXP_REPLACE(phone, '[^0-9]', '', 'g'), 10)]. *)
Definition last10Digits (phone : string) : string :=
  Js.slice_last 10 (Js.strip_non_digits phone).

(** [SELECT ... FROM members WHERE RIGHT(REGEXP_REPLACE(phone, ...), 10) = $1]
    before its [LIMIT 1]; a NULL phone matches nothing. *)
Definition select_members (digits : string) (ms : list member_row) : list member_row :=
  filter (fun m => match m_phone m with
                   | Some p => String.eqb (last10Digits p) digits
                   | None => false
                   end) ms.

(** [formatPhone], for a phone that is not empty. *)
Definition formatPhone (phone : string) : string :=
  let cleaned := Js.strip_non_digits phone in
  if (String.length cleaned =? 10)%nat then ("+1" ++ cleaned)%string
  else if (String.length cleaned =? 11)%nat && String.prefix "1" cleaned
  then ("+" ++ cleaned)%string
  else if negb (String.prefix "+" cleaned) then ("+" ++ cleaned)%string
  else cleaned.

(** How the code loop ends. [attempts] is the variable of that name. *)
Inductive loop_result :=
| Generated (accessCode : string) (attempts : nat) (codes : list code_row)
| Exhausted (attempts : nat)
| Thrown (e : pg_error) (attempts : nat).

Section Handler.

(** PostgreSQL's conversion of a text parameter to DATE. *)
Variable date_in : string -> option pg_date.
(** [new Date().toISOString().split('T')[0]]. *)
Variable today : string.
(** [new Date()] in milliseconds, and [CURRENT_TIMESTAMP]. *)
Variables js_now db_now : timestamp.
(** [gen_random_uuid()] for the check-in and for the code of an attempt. *)
Variable new_checkin_id : uuid.
Variable new_code_id : nat -> uuid.
(** [twilioClient && TWILIO_PHONE]. *)
Variable twilio_configured : bool.
(** [crypto.randomInt(max)]: the result of the call number [k]. *)
Variable randomInt : nat -> nat -> nat.
(** An error of the code INSERT of an attempt that does not come from the
    data (the connection, a timeout). *)
Variable insert_fault : nat -> option pg_error.
(** [twilioClient.messages.create]: the message of the error it throws. *)
Variable twilio_send : string -> string -> option string.

(** [n] more characters, drawn by the calls [k], [k + 1], ...;
    [charAt] outside the string is the empty string. *)
Fixpoint draw_chars (n k : nat) : string :=
  match n with
  | O => ""
  | S n' =>
      match Js.char_at chars (randomInt k (String.length chars)) with
      | Some c => String c (draw_chars n' (S k))
      | None => draw_chars n' (S k)
      end
  end.

(** [generateAccessCode()], the call number [a] of the handler: it makes
    the draws [6 * a] to [6 * a + 5]. *)
Definition generateAccessCode (a : nat) : string := draw_chars 6 (6 * a).

(** [INSERT INTO stream_access_codes (code, member_name, phone,
    absentee_checkin_id, expires_at)] in attempt [a]. [code] is UNIQUE,
    [member_name] is VARCHAR(100). *)
Definition insert_code (a : nat) (code member_name phone10 : string)
    (checkin_id : uuid) (codes : list code_row) : pg_error + list code_row :=
  match insert_fault a with
  | Some e => inl e
  | None =>
      if (100 <? String.length member_name)%nat then inl value_too_long
      else if existsb (fun r => String.eqb (c_code r) code) codes
      then inl unique_violation
      else inr (codes ++ [mkCode (new_code_id a) code member_name phone10 checkin_id
                            (js_now + 24 * 3600 * 1000)%Z None None 0%Z false])
  end.

(** The body of the loop up to the INSERT, when [attempts] is [a]. *)
Definition attempt (a : nat) (member_name phone10 : string)
    (checkin_id : uuid) (codes : list code_row) : pg_error + list code_row :=
  insert_code a (generateAccessCode a) member_name phone10 checkin_id codes.

(** The INSERT of attempt [a] is refused as a unique violation. *)
Definition collides (a : nat) (member_name phone10 : string)
    (checkin_id : uuid) (codes : list code_row) : Prop :=
  exists e, attempt a member_name phone10 checkin_id codes = inl e
            /\ sqlstate e = "23505".

(** [while (!codeGenerated && attempts < 10)], by the number of attempts
    left, [10 - attempts]. *)
Fixpoint code_loop (left attempts : nat) (member_name phone10 : string)
    (checkin_id : uuid) (codes : list code_row) : loop_result :=
  match left with
  | O => Exhausted attempts
  | S left' =>
      let accessCode := generateAccessCode attempts in
      match attempt attempts member_name phone10 checkin_id codes with
      | inr codes' => Generated accessCode attempts codes'
      | inl e =>
          if String.eqb (sqlstate e) "23505"
          then code_loop left' (S attempts) member_name phone10 checkin_id codes
          else Thrown e attempts
      end
  end.

(** [UPDATE absentee_checkins SET livestream_sent = true,
    livestream_sent_at = CURRENT_TIMESTAMP WHERE id = $1]. *)
Definition mark_sent (id : uuid) (l : list checkin_row) : list checkin_row :=
  map (fun k => if Z.eqb (k_id k) id
                then mkCheckin (k_id k) (k_name k) (k_phone k) (k_reason k)
                       (k_prayer_request k) (k_service_date k) true (Some db_now)
                       (k_created_at k)
                else k) l.

(** Lines 141 to 217: the inner [try] with its [catch]; the result is
    [(smsSent, smsError)] and the store. *)
Definition send_link (req : request) (checkin : checkin_row) (s : db)
    : bool * option string * db :=
  match ActivePassword.select_active (vimeo_passwords s), twilio_configured with
  | Some _, true =>
      match code_loop 10 0 (Js.trim (name req)) (k_phone checkin) (k_id checkin)
              (stream_access_codes s) with
      | Generated accessCode _ codes' =>
          let s1 := mkDb (members s) (absentee_checkins s) (vimeo_passwords s) codes' in
          match twilio_send (formatPhone (phone req)) accessCode with
          | None =>
              (true, None,
               mkDb (members s1) (mark_sent (k_id checkin) (absentee_checkins s1))
                 (vimeo_passwords s1) (stream_access_codes s1))
          | Some msg => (false, Some msg, s1)
          end
      | Exhausted _ => (false, Some "Unable to generate access code", s)
      | Thrown e _ => (false, Some (message e), s)
      end
  | _, false => (false, Some "SMS service not configured", s)
  | None, true => (false, Some "No active live stream password configured", s)
  end.

(** The handler from the parsed body on. *)
Definition handler (req : request) (s : db) : response * db :=
  if Js.is_blank (name req) then (Failure 400 "Name is required" false, s)
  else if Js.is_blank (phone req)
  then (Failure 400 "Phone number is required for receiving live stream link" false, s)
  else if String.eqb (reason req) "" then (Failure 400 "Reason for absence is required" false, s)
  else if negb (existsb (String.eqb (reason req)) validReasons)
  then (Failure 400 "Invalid reason. Must be: sick, vacation, business, or other" false, s)
  else
    let digits := last10Digits (phone req) in
    match select_members digits (members s) with
    | [] =>
        (Failure 403 "Phone number not found in member directory. Please contact the church office if you believe this is an error." true, s)
    | member :: _ =>
        let effectiveDate := if String.eqb (serviceDate req) "" then today else serviceDate req in
        match date_in effectiveDate with
        | None => (Failure 500 "Failed to submit absence" false, s)
        | Some d =>
            if (255 <? String.length (Js.trim (name req)))%nat
            then (Failure 500 "Failed to submit absence" false, s)
            else
              let prayer := Js.trim (prayerRequest req) in
              let checkin :=
                mkCheckin new_checkin_id (Js.trim (name req)) digits (reason req)
                  (if String.eqb prayer "" then None else Some prayer)
                  d false None db_now in
              let s1 := mkDb (members s) (absentee_checkins s ++ [checkin])
                          (vimeo_passwords s) (stream_access_codes s) in
              let '(smsSent, smsError, s2) := send_link req checkin s1 in
              (Recorded checkin smsSent (if smsSent then None else smsError), s2)
        end
    end.

End Handler.

End SubmitAbsence.

(** ** Livestream password rotation
    (src/netlify/functions/vimeo-password.js and
     src/netlify/functions/scheduled-password-rotation.js) *)
Module PasswordRotation.
Import Schema.

(** The alphabet of [generatePassword]; both files have the same text. *)
Definition chars : string :=
  "ABCDEFGHJKLMNPQRSTUVWXYZabcdefghjkmnpqrstuvwxyz23456789".

(** A letter of either case or a digit. *)
Definition alphanumeric (c : ascii) : bool :=
  let n := nat_of_ascii c in
  ((65 <=? n) && (n <=? 90) || (97 <=? n) && (n <=? 122)
   || (48 <=? n) && (n <=? 57))%nat.

(** [password_rotation_schedule]. *)
Record schedule_row := mkSchedule {
  s_enabled : bool;
  s_last_run : option timestamp
}.

(** [Rotated] is the answer 200 of a rotation that ran to its end;
    [Disabled] is the answer 200 of the scheduled job when no schedule
    row is enabled. *)
Inductive response :=
| Rotated (vimeoUpdated : bool) (vimeoError : option string)
| Disabled
| Failure (statusCode : Z) (error : string).

Definition status_of (r : response) : Z :=
  match r with
  | Rotated _ _ => 200
  | Disabled => 200
  | Failure s _ => s
  end.

(** [UPDATE vimeo_passwords SET active = false WHERE active = true]. *)
Definition deactivate_all (l : list vimeo_row) : list vimeo_row :=
  map (fun v => if v_active v
                then mkVimeo (v_id v) (v_video_id v) (v_password v) (v_video_url v)
                       false (v_rotation_type v) (v_created_at v)
                else v) l.

(** [INSERT INTO vimeo_passwords (video_id, password, video_url, active,
    rotation_type) VALUES ($1, $2, $3, true, $4)]; [video_id] and
    [password] are VARCHAR(100), [rotation_type] is VARCHAR(20), and a
    longer value is an error of the statement. *)
Definition insert_password (id : uuid) (db_now : timestamp)
    (video_id password : string) (video_url : option string)
    (rotation_type : string) (l : list vimeo_row) : option (list vimeo_row) :=
  if (100 <? String.length video_id)%nat || (100 <? String.length password)%nat
     || (20 <? String.length rotation_type)%nat
  then None
  else Some (l ++ [mkVimeo id video_id password video_url true rotation_type db_now]).

Section Handlers.

(** [crypto.randomBytes(length)[i]]. *)
Variable randomBytes : nat -> nat.
(** The environment: [VIMEO_VIDEO_ID] (empty when unset) and whether
    [VIMEO_ACCESS_TOKEN] is set. *)
Variable VIMEO_VIDEO_ID : string.
Variable VIMEO_ACCESS_TOKEN : bool.
(** [updateVimeoPassword(videoId, newPassword)]: the message of the error
    it throws, [None] when the provider accepted the password. *)
Variable updateVimeoPassword : string -> string -> option string.
(** [gen_random_uuid()] and [CURRENT_TIMESTAMP] of the INSERT. *)
Variable new_id : uuid.
Variable db_now : timestamp.

(** The loop of [generatePassword] from index [i], [n] characters to go:
    [password += chars[randomBytes[i] % chars.length]]. *)
Fixpoint password_from (n i : nat) : string :=
  match n with
  | O => ""
  | S n' =>
      match Js.char_at chars (randomBytes i mod String.length chars) with
      | Some c => String c (password_from n' (S i))
      | None => ("undefined" ++ password_from n' (S i))%string
      end
  end.

(** [generatePassword(length)]. *)
Definition generatePassword (length : nat) : string := password_from length 0.

(** Lines 180 to 195 of vimeo-password.js: the push to the provider;
    the result is [(vimeoUpdated, vimeoError)]. *)
Definition push_manual (videoId newPassword : string) : bool * option string :=
  if VIMEO_ACCESS_TOKEN
  then match updateVimeoPassword videoId newPassword with
       | None => (true, None)
       | Some msg => (false, Some msg)
       end
  else (false, Some "VIMEO_ACCESS_TOKEN not configured - password saved locally only").

(** The parsed body of [POST /vimeo-password]; a missing field is the
    empty string. *)
Record request := mkRequest {
  password : string;
  videoId : string;
  videoUrl : string;
  rotationType : string
}.

(** vimeo-password.js, the POST branch. *)
Definition manual_rotation (req : request) (l : list vimeo_row)
    : response * list vimeo_row :=
  let effectiveVideoId := if String.eqb (videoId req) "" then VIMEO_VIDEO_ID else videoId req in
  if String.eqb effectiveVideoId ""
  then (Failure 400 "Video ID is required. Either provide it or set VIMEO_VIDEO_ID environment variable.", l)
  else
    let newPassword := if String.eqb (password req) "" then generatePassword 8 else password req in
    let effectiveRotationType := if String.eqb (rotationType req) "" then "manual" else rotationType req in
    let '(vimeoUpdated, vimeoError) := push_manual effectiveVideoId newPassword in
    let l1 := deactivate_all l in
    let effectiveUrl :=
      if String.eqb (videoUrl req) ""
      then (if String.eqb VIMEO_VIDEO_ID "" then None
            else Some ("https://vimeo.com/event/" ++ effectiveVideoId)%string)
      else Some (videoUrl req) in
    match insert_password new_id db_now effectiveVideoId newPassword effectiveUrl
            effectiveRotationType l1 with
    | Some l2 => (Rotated vimeoUpdated vimeoError, l2)
    | None => (Failure 500 "Failed to manage password", l1)
    end.

(** [UPDATE password_rotation_schedule SET last_run = CURRENT_TIMESTAMP
    WHERE enabled = true]. *)
Definition touch_schedule (sch : list schedule_row) : list schedule_row :=
  map (fun s => if s_enabled s then mkSchedule true (Some db_now) else s) sch.

(** scheduled-password-rotation.js. *)
Definition scheduled_rotation (sch : list schedule_row) (l : list vimeo_row)
    : response * list schedule_row * list vimeo_row :=
  match filter s_enabled sch with
  | [] => (Disabled, sch, l)
  | _ :: _ =>
      let current := ActivePassword.select_active l in
      let videoId := match current with Some v => v_video_id v | None => VIMEO_VIDEO_ID end in
      let videoUrl := match current with Some v => v_video_url v | None => None end in
      if String.eqb videoId "" then (Failure 400 "No video ID configured", sch, l)
      else
        let newPassword := generatePassword 8 in
        let vimeoUpdated :=
          if VIMEO_ACCESS_TOKEN
          then match updateVimeoPassword videoId newPassword with
               | None => true
               | Some _ => false
               end
          else false in
        let l1 := deactivate_all l in
        match insert_password new_id db_now videoId newPassword videoUrl "scheduled" l1 with
        | Some l2 => (Rotated vimeoUpdated None, touch_schedule sch, l2)
        | None => (Failure 500 "Failed to rotate password", sch, l1)
        end
  end.

End Handlers.

End PasswordRotation.

(** ** Sample data for the worked examples *)
Module Examples.
Import Schema.
Local Open Scope Z_scope.

(** A date parser for the examples: a text of the shape [YYYY-MM-DD] is
    its own canonical text, any other text is no date. *)
Definition date_in (s : string) : option pg_date :=
  if is_iso_date s then Some s else None.

(** *** The recorder *)

Definition member_ids : list string := ["m1"; "m2"; "m3"].

(** Sunday Morning of 2024-05-05 was recorded with m1 and m2, the evening
    service with m3. *)
Definition recorded : RecordAttendance.table :=
  [ mkAttendance "2024-05-05" "Sunday Morning" "m1" true 1000;
    mkAttendance "2024-05-05" "Sunday Morning" "m2" true 1000;
    mkAttendance "2024-05-05" "Sunday Evening" "m3" true 1500 ].

Definition pooled_client : RecordAttendance.client :=
  RecordAttendance.mkClient recorded None [].

Definition no_failure (_ : RecordAttendance.statement) : bool := false.

(** The morning service is submitted again with m1 alone. *)
Definition resubmission : RecordAttendance.request :=
  RecordAttendance.mkRequest "2024-05-05T09:30:00.000Z" "Sunday Morning" (Some ["m1"]).

(** A submission that names m1 twice. *)
Definition doubled : RecordAttendance.request :=
  RecordAttendance.mkRequest "2024-05-05" "Sunday Morning" (Some ["m1"; "m1"]).

(** *** The absence engine *)

Definition directory : list member_row :=
  [ mkMember "m1" "Ann" "Lee" (Some "(555) 010-2000");
    mkMember "m2" "Bo" "Ray" None ].

(** The first twenty Sundays of 2024. *)
Definition sundays : list pg_date :=
  [ "2024-01-07"; "2024-01-14"; "2024-01-21"; "2024-01-28";
    "2024-02-04"; "2024-02-11"; "2024-02-18"; "2024-02-25";
    "2024-03-03"; "2024-03-10"; "2024-03-17"; "2024-03-24"; "2024-03-31";
    "2024-04-07"; "2024-04-14"; "2024-04-21"; "2024-04-28";
    "2024-05-05"; "2024-05-12"; "2024-05-19" ].

(** Two services each Sunday: forty service occurrences. *)
Definition forty_services : list MemberAbsenceReport.service :=
  flat_map (fun d => [(d, "Sunday Morning"); (d, "Sunday Evening")]) sundays.

(** m2 was present at all forty, m1 at the first twenty-three. *)
Definition attendance_2024 : list attendance_row :=
  map (fun s => mkAttendance (fst s) (snd s) "m2" true 0) forty_services
  ++ map (fun s => mkAttendance (fst s) (snd s) "m1" true 0) (firstn 23 forty_services).

(** *** Access codes *)

(** A code that was issued and never used. *)
Definition fresh_code : code_row :=
  mkCode 7 "K7M2QX" "Ann Lee" "5550102000" 11 100000 None None 0 false.

Definition issued_codes : list code_row := [fresh_code].

(** One active livestream password. *)
Definition live_row : vimeo_row :=
  mkVimeo 1 "987654" "Hq7kPm2x" (Some "https://vimeo.com/event/987654")
    true "manual" 10.

Definition live : list vimeo_row := [live_row].

(** An earlier password that was deactivated and none after it. *)
Definition off_air : list vimeo_row :=
  [ mkVimeo 1 "987654" "Hq7kPm2x" (Some "https://vimeo.com/event/987654")
      false "manual" 10 ].

(** Three validations of the code, typed in different cases. *)
Definition three_calls : list VerifyStreamCode.call :=
  [ VerifyStreamCode.mkCall "k7m2qx" 2000 2001 live;
    VerifyStreamCode.mkCall "K7M2QX" 3000 3001 live;
    VerifyStreamCode.mkCall "K7m2qX" 4000 4001 live ].

(** *** Absence check-in and code issuance *)

(** A random source for the examples; its results are below [max]. *)
Definition sample_randomInt (k max : nat) : nat := ((7 * k + 3) mod max)%nat.

Definition no_fault (_ : nat) : option SubmitAbsence.pg_error := None.

Definition code_ids (a : nat) : uuid := 100 + Z.of_nat a.

(** The table already holds the code the first attempt will draw. *)
Definition taken : list code_row :=
  [ mkCode 7 (SubmitAbsence.generateAccessCode sample_randomInt 0)
      "Ann Lee" "5550102000" 11 100000 None None 0 false ].

(** The check-in of the specification's scenario: the phone is the one
    of no member of [directory]. *)
Definition stranger : SubmitAbsence.request :=
  SubmitAbsence.mkRequest "Cy Doe" "555-123-4567" "sick" "" "".

(** The same phone and no name. *)
Definition nameless : SubmitAbsence.request :=
  SubmitAbsence.mkRequest "" "555-123-4567" "sick" "" "".

Definition store : SubmitAbsence.db :=
  SubmitAbsence.mkDb directory [] live issued_codes.

Definition twilio_accepts (_ _ : string) : option string := None.

(** *** Password rotation *)

(** A source of random bytes for the examples. *)
Definition sample_bytes (i : nat) : nat := (37 * i + 200)%nat.

Definition provider_down (_ _ : string) : option string :=
  Some "Vimeo API error: 503 - unavailable".

Definition provider_up (_ _ : string) : option string := None.

(** A manual rotation that leaves the password to the generator. *)
Definition rotate_now : PasswordRotation.request :=
  PasswordRotation.mkRequest "" "987654" "" "".

Definition weekly : list PasswordRotation.schedule_row :=
  [ PasswordRotation.mkSchedule true None ].

(** The table after the manual rotation of [live] at time 20, while the
    provider is down. *)
Definition after_manual : list vimeo_row :=
  snd (PasswordRotation.manual_rotation sample_bytes "987654" true provider_down
         2 20 rotate_now live).

End Examples.

(* ================================================================== *)
(** * Sign-in and first-admin setup (the auth function) *)

Module Auth.
Import Schema.

(** [users]: [username VARCHAR(50) UNIQUE NOT NULL],
    [password_hash VARCHAR(255) NOT NULL], [display_name VARCHAR(100)],
    [is_admin BOOLEAN DEFAULT FALSE]. *)
Record user_row := mkUser {
  u_id : uuid;
  u_username : string;
  u_password_hash : string;
  u_display_name : option string;
  u_is_admin : bool;
  u_created_at : timestamp
}.

(** [c.toLowerCase()] on one ASCII character. *)
Definition lower_char (c : ascii) : ascii :=
  let n := nat_of_ascii c in
  if (65 <=? n)%nat && (n <=? 90)%nat then ascii_of_nat (n + 32) else c.

(** [s.toLowerCase()]. *)
Fixpoint toLowerCase (s : string) : string :=
  match s with
  | EmptyString => EmptyString
  | String c s' => String (lower_char c) (toLowerCase s')
  end.

(** The parsed body; a missing field is the empty string, which every
    test of the handler treats as it treats [undefined]. *)
Record request := mkRequest {
  action : string;
  username : string;
  password : string;
  displayName : string;
  newPassword : string
}.

(** The columns of a user that the answers show. *)
Record user_info := mkInfo {
  i_id : uuid;
  i_username : string;
  i_display_name : option string;
  i_is_admin : bool
}.

Definition info_of (u : user_row) : user_info :=
  mkInfo (u_id u) (u_username u) (u_display_name u) (u_is_admin u).

Inductive response :=
| Failure (statusCode : Z) (error : string)
| Created (user : user_info)
| NeedsSetup
| Rejected
| LoggedIn (user : user_info)
| Status (hasUsers needsSetup : bool).

Definition status_of (r : response) : Z :=
  match r with
  | Failure s _ => s
  | Created _ => 201
  | NeedsSetup => 200
  | Rejected => 401
  | LoggedIn _ => 200
  | Status _ _ => 200
  end.

(** [SELECT * FROM users WHERE username = $1]. *)
Definition select_user (name : string) (users : list user_row) : list user_row :=
  filter (fun u => String.eqb (u_username u) name) users.

(** [INSERT INTO users (username, password_hash, display_name, is_admin)
    VALUES ($1, $2, $3, $4)]: a value longer than its column or a
    username that a row already has is an error of the statement. *)
Definition insert_user (id : uuid) (db_now : timestamp)
    (name hash display : string) (admin : bool) (users : list user_row)
    : option (list user_row) :=
  if (50 <? String.length name)%nat || (255 <? String.length hash)%nat
     || (100 <? String.length display)%nat
  then None
  else if existsb (fun u => String.eqb (u_username u) name) users then None
  else Some (users ++ [mkUser id name hash (Some display) admin db_now]).

Section Handler.

(** [process.env.APP_PASSWORD], empty when unset. *)
Variable APP_PASSWORD : string.
(** [bcrypt.hash(password, 10)] of this call and [bcrypt.compare]. *)
Variable bcrypt_hash : string -> string.
Variable bcrypt_compare : string -> string -> bool.
(** [gen_random_uuid()] and [CURRENT_TIMESTAMP] of the INSERT. *)
Variable new_id : uuid.
Variable db_now : timestamp.

(** The handler of a POST from the parsed body on. *)
Definition handler (req : request) (users : list user_row)
    : response * list user_row :=
  let hasUsers := (0 <? List.length users)%nat in
  if String.eqb (action req) "setup" then
    if hasUsers then (Failure 400 "Setup already complete. Users exist.", users)
    else if String.eqb APP_PASSWORD ""
    then (Failure 500 "APP_PASSWORD not configured", users)
    else if negb (String.eqb (password req) APP_PASSWORD)
    then (Failure 401 "Invalid setup password", users)
    else if String.eqb (username req) "" || (String.length (username req) <? 3)%nat
    then (Failure 400 "Username must be at least 3 characters", users)
    else if String.eqb (newPassword req) "" || (String.length (newPassword req) <? 6)%nat
    then (Failure 400 "Password must be at least 6 characters", users)
    else
      let passwordHash := bcrypt_hash (newPassword req) in
      let name := toLowerCase (username req) in
      let display := if String.eqb (displayName req) "" then username req
                     else displayName req in
      match insert_user new_id db_now name passwordHash display true users with
      | Some users' => (Created (mkInfo new_id name (Some display) true), users')
      | None => (Failure 500 "Internal server error", users)
      end
  else if String.eqb (action req) "login" then
    if negb hasUsers then (NeedsSetup, users)
    else if String.eqb (username req) "" || String.eqb (password req) ""
    then (Failure 400 "Username and password required", users)
    else
      match select_user (toLowerCase (username req)) users with
      | [] => (Rejected, users)
      | user :: _ =>
          if bcrypt_compare (password req) (u_password_hash user)
          then (LoggedIn (info_of user), users)
          else (Rejected, users)
      end
  else if String.eqb (action req) "check"
  then (Status hasUsers (negb hasUsers), users)
  else (Failure 400 "Invalid action. Use: login, setup, or check", users).

End Handler.

End Auth.

Module AuthExamples.

(** Stand-ins for bcrypt in the examples: the hash is the password behind
    a fixed prefix, and the comparison recomputes it. *)
Definition sample_hash (pw : string) : string := ("$2a$10$" ++ pw)%string.

Definition sample_compare (pw hash : string) : bool :=
  String.eqb hash (sample_hash pw).

(** The body of the first setup. *)
Definition first_setup : Auth.request :=
  Auth.mkRequest "setup" "Pastor" "bootstrap-secret" "" "open-sesame".

End AuthExamples.

(* ================================================================== *)
(** * The absentee dashboard *)

Module AbsenteeDashboard.
Import Schema.

(** The query string; a missing parameter is the empty string. *)
Record request := mkRequest {
  fromDate : string;
  toDate : string;
  reason : string
}.

(** The names every JavaScript object inherits from [Object.prototype].
    [grouped[name]] is for each of them a function or an object, so it
    passes the test [if (grouped[reasonKey])], and none has [push]. *)
Definition inherited : list string :=
  [ "constructor"; "__defineGetter__"; "__defineSetter__"; "hasOwnProperty";
    "__lookupGetter__"; "__lookupSetter__"; "isPrototypeOf";
    "propertyIsEnumerable"; "toString"; "valueOf"; "__proto__";
    "toLocaleString" ].

(** The object [grouped]. *)
Record groups := mkGroups {
  sick : list checkin_row;
  vacation : list checkin_row;
  business : list checkin_row;
  other : list checkin_row
}.

Definition no_groups : groups := mkGroups [] [] [] [].

(** [row.reason || 'other']. *)
Definition reason_key (row : checkin_row) : string :=
  if String.eqb (k_reason row) "" then "other" else k_reason row.

(** The body of the [forEach] on one row; [None] is the TypeError of
    calling [push] on a value that has none. *)
Definition group_row (g : groups) (row : checkin_row) : option groups :=
  let reasonKey := reason_key row in
  if String.eqb reasonKey "sick"
  then Some (mkGroups (sick g ++ [row]) (vacation g) (business g) (other g))
  else if String.eqb reasonKey "vacation"
  then Some (mkGroups (sick g) (vacation g ++ [row]) (business g) (other g))
  else if String.eqb reasonKey "business"
  then Some (mkGroups (sick g) (vacation g) (business g ++ [row]) (other g))
  else if String.eqb reasonKey "other"
  then Some (mkGroups (sick g) (vacation g) (business g) (other g ++ [row]))
  else if existsb (String.eqb reasonKey) inherited then None
  else Some (mkGroups (sick g) (vacation g) (business g) (other g ++ [row])).

(** [result.rows.forEach(...)]. *)
Fixpoint group_rows (g : groups) (rows : list checkin_row) : option groups :=
  match rows with
  | [] => Some g
  | row :: rows' =>
      match group_row g row with
      | Some g' => group_rows g' rows'
      | None => None
      end
  end.

Record summary := mkSummary {
  total : nat;
  n_sick : nat;
  n_vacation : nat;
  n_business : nat;
  n_other : nat;
  prayerRequests : nat;
  livestreamSent : nat
}.

(** [r.prayer_request] as a condition: not NULL and not empty. *)
Definition has_prayer (r : checkin_row) : bool :=
  match k_prayer_request r with
  | Some p => negb (String.eqb p "")
  | None => false
  end.

Definition summarize (rows : list checkin_row) (g : groups) : summary :=
  mkSummary (List.length rows) (List.length (sick g)) (List.length (vacation g))
    (List.length (business g)) (List.length (other g))
    (List.length (filter has_prayer rows))
    (List.length (filter k_livestream_sent rows)).

(** [ORDER BY created_at DESC]; rows of the same instant stay in the
    order of the table. *)
Definition newer_first (a b : checkin_row) : bool :=
  (k_created_at b <=? k_created_at a)%Z.

(** [WHERE service_date >= $1 AND service_date <= $2], with
    [AND reason = $3] when a reason other than "all" is asked for. *)
Definition select_checkins (from to : pg_date) (reason : string)
    (checkins : list checkin_row) : list checkin_row :=
  MemberAbsenceReport.sort_by newer_first
    (filter (fun r => MemberAbsenceReport.in_range from to (k_service_date r)
                      && (if String.eqb reason "" || String.eqb reason "all" then true
                          else String.eqb (k_reason r) reason))
            checkins).

Inductive response :=
| Report (from to : string) (s : summary) (grouped : groups)
    (checkins : list checkin_row)
| Failure (statusCode : Z) (error : string).

Definition status_of (r : response) : Z :=
  match r with
  | Report _ _ _ _ _ => 200
  | Failure s _ => s
  end.

Section Handler.

(** PostgreSQL's conversion of a text parameter to DATE. *)
Variable date_in : string -> option pg_date.
(** The first and the last day of the current week, as
    [toISOString().split('T')[0]] writes them. *)
Variables startOfWeek endOfWeek : string.

(** The handler of a GET from the query string on. *)
Definition handler (req : request) (checkins : list checkin_row) : response :=
  let effectiveFromDate := if String.eqb (fromDate req) "" then startOfWeek
                           else fromDate req in
  let effectiveToDate := if String.eqb (toDate req) "" then endOfWeek
                         else toDate req in
  match date_in effectiveFromDate, date_in effectiveToDate with
  | Some from, Some to =>
      let rows := select_checkins from to (reason req) checkins in
      match group_rows no_groups rows with
      | Some grouped =>
          Report effectiveFromDate effectiveToDate (summarize rows grouped) grouped rows
      | None => Failure 500 "Failed to fetch dashboard data"
      end
  | _, _ => Failure 500 "Failed to fetch dashboard data"
  end.

End Handler.

End AbsenteeDashboard.

Module DashboardExamples.
Import Schema.
Local Open Scope Z_scope.

(** Three check-ins of one week; the third has an empty reason. *)
Definition week : list checkin_row :=
  [ mkCheckin 1 "Ann Lee" "5550102000" "sick" (Some "My knee") "2024-05-05"
      true (Some 900) 800;
    mkCheckin 2 "Bo Ray" "5550103000" "vacation" None "2024-05-05" false None 850;
    mkCheckin 3 "Cy Doe" "5550104000" "" None "2024-05-08" false None 900 ].

(** The same week with a row whose reason was written past the API. *)
Definition spoiled : list checkin_row :=
  week ++ [ mkCheckin 4 "Di Fox" "5550105000" "constructor" None "2024-05-05"
              false None 950 ].

(** The dashboard of the current week. *)
Definition this_week : AbsenteeDashboard.request :=
  AbsenteeDashboard.mkRequest "" "" "all".

End DashboardExamples.

(* ================================================================== *)
(** * The absence report with the member's check-ins *)

Module MemberAbsenceDetail.
Import Schema.

(** A value of [labels[reason] || reason]: a text, or one of the members
    every object inherits, which is no text. *)
Inductive label :=
| Text (s : string)
| Inherited (name : string).

(** [formatReason]. *)
Definition formatReason (reason : string) : label :=
  if String.eqb reason "sick" then Text "Sick / Prayer Request"
  else if String.eqb reason "vacation" then Text "Vacation"
  else if String.eqb reason "business" then Text "Business Travel"
  else if String.eqb reason "other" then Text "Other"
  else if existsb (String.eqb reason) AbsenteeDashboard.inherited then Inherited reason
  else Text reason.

(** [(member.phone || '').replace(/\D/g, '').slice(-10)]. *)
Definition member_digits (member : member_row) : string :=
  SubmitAbsence.last10Digits (match m_phone member with Some p => p | None => "" end).

(** [ORDER BY service_date DESC]; rows of the same date stay in the
    order of the table. *)
Definition later_first (a b : checkin_row) : bool :=
  String.leb (k_service_date b) (k_service_date a).

(** Lines 91 to 105: the check-ins under the member's ten digits in the
    period, none when the member has fewer than ten digits. *)
Definition select_member_checkins (digits : string) (from to : pg_date)
    (checkins : list checkin_row) : list checkin_row :=
  if (String.length digits =? 10)%nat
  then MemberAbsenceReport.sort_by later_first
         (filter (fun k => String.eqb (SubmitAbsence.last10Digits (k_phone k)) digits
                           && MemberAbsenceReport.in_range from to (k_service_date k))
                 checkins)
  else [].

(** [absenteeByDate[dateKey] || []]: the check-ins of a date, in the order
    of [absenteeCheckins]. *)
Definition absenteeByDate (absenteeCheckins : list checkin_row) (dateKey : pg_date)
    : list checkin_row :=
  filter (fun k => String.eqb (k_service_date k) dateKey) absenteeCheckins.

Record submission := mkSubmission {
  reason : string;
  reasonLabel : label;
  prayerRequest : option string;
  livestreamSent : bool;
  livestreamSentAt : option timestamp;
  submittedAt : timestamp
}.

Record detailed_absence := mkDetailed {
  date : pg_date;
  serviceType : string;
  absenteeSubmission : option submission
}.

(** The body of [absences.map(...)]. *)
Definition detail (absenteeCheckins : list checkin_row)
    (absence : MemberAbsenceReport.service) : detailed_absence :=
  let dateKey := fst absence in
  mkDetailed dateKey (snd absence)
    (match absenteeByDate absenteeCheckins dateKey with
     | k :: _ =>
         Some (mkSubmission (k_reason k) (formatReason (k_reason k))
                 (k_prayer_request k) (k_livestream_sent k)
                 (k_livestream_sent_at k) (k_created_at k))
     | [] => None
     end).

Definition has_submission (a : detailed_absence) : bool :=
  match absenteeSubmission a with Some _ => true | None => false end.

Record response_detail := mkDetail {
  absencesWithSubmission : nat;
  absencesWithoutSubmission : nat;
  absences : list detailed_absence
}.

Inductive response :=
| Report (member : member_row) (s : MemberAbsenceReport.summary) (d : response_detail)
| Failure (statusCode : Z) (error : string).

Section Handler.

(** PostgreSQL's conversion of a text parameter to DATE. *)
Variable date_in : string -> option pg_date.
Variable members : list member_row.
Variable attendance : list attendance_row.
Variable checkins : list checkin_row.

(** The handler from the query parameters on, with all of its answer but
    [serviceTypeTallies]. *)
Definition handler (memberId fromDate toDate : string) : response :=
  if String.eqb memberId "" then Failure 400 "memberId is required"
  else if String.eqb fromDate "" || String.eqb toDate ""
  then Failure 400 "fromDate and toDate are required"
  else
    match filter (fun m => String.eqb (m_id m) memberId) members with
    | [] => Failure 404 "Member not found"
    | member :: _ =>
        match date_in fromDate, date_in toDate with
        | Some from, Some to =>
            let allServices := MemberAbsenceReport.select_services from to attendance in
            let attended := MemberAbsenceReport.select_attended memberId from to attendance in
            let absences := MemberAbsenceReport.find_absences allServices attended in
            let absenteeCheckins :=
              select_member_checkins (member_digits member) from to checkins in
            let detailedAbsences := map (detail absenteeCheckins) absences in
            let withSubmission := List.length (filter has_submission detailedAbsences) in
            Report member (MemberAbsenceReport.summarize allServices absences)
              (mkDetail withSubmission (List.length absences - withSubmission)
                 detailedAbsences)
        | _, _ => Failure 500 "Failed to generate report"
        end
    end.

End Handler.

End MemberAbsenceDetail.

Module DetailExamples.
Import Schema.
Local Open Scope Z_scope.

(** The directory with a third member, whose phone has seven digits and
    who attended nothing. *)
Definition directory : list member_row :=
  Examples.directory ++ [ mkMember "m3" "Cy" "Doe" (Some "555-1234") ].

(** Ann Lee reported sick for 2024-03-31, Cy Doe for the same day. *)
Definition checkins : list checkin_row :=
  [ mkCheckin 5 "Ann Lee" "5550102000" "sick" None "2024-03-31" false None 700;
    mkCheckin 6 "Cy Doe" "5551234" "other" None "2024-03-31" false None 710 ].

End DetailExamples.

(* ================================================================== *)
(** * Absences recorded by an administrator (manual-absence, the version
      that issues access codes) *)

Module ManualAbsence.
Import Schema.

(** The parsed body; a missing text field is the empty string, and
    [sendLink] is the truth value of the field. *)
Record request := mkRequest {
  memberName : string;
  memberPhone : string;
  reason : string;
  serviceDate : string;
  prayerRequest : string;
  sendLink : bool
}.

Inductive response :=
| Failure (statusCode : Z) (error : string)
| Recorded (checkin : checkin_row) (smsSent : bool) (smsError : option string).

Definition status_of (r : response) : Z :=
  match r with
  | Failure s _ => s
  | Recorded _ _ _ => 200
  end.

Section Handler.

(** PostgreSQL's conversion of a text parameter to DATE. *)
Variable date_in : string -> option pg_date.
(** [new Date()] in milliseconds, and [CURRENT_TIMESTAMP]. *)
Variables js_now db_now : timestamp.
(** [gen_random_uuid()] for the check-in and for the code of an attempt. *)
Variable new_checkin_id : uuid.
Variable new_code_id : nat -> uuid.
(** [twilioClient && TWILIO_PHONE]. *)
Variable twilio_configured : bool.
(** [crypto.randomInt(max)]: the result of the call number [k]. *)
Variable randomInt : nat -> nat -> nat.
(** An error of the code INSERT of an attempt that does not come from the
    data. *)
Variable insert_fault : nat -> option SubmitAbsence.pg_error.
(** [twilioClient.messages.create]: the message of the error it throws. *)
Variable twilio_send : string -> string -> option string.

(** The [try] under [if (sendLink && normalizedPhone)]; the code loop and
    [formatPhone] have the text of the check-in function. *)
Definition send_link (req : request) (checkin : checkin_row) (normalizedPhone : string)
    (s : SubmitAbsence.db) : bool * option string * SubmitAbsence.db :=
  match ActivePassword.select_active (SubmitAbsence.vimeo_passwords s),
        twilio_configured with
  | Some _, true =>
      match SubmitAbsence.code_loop js_now new_code_id randomInt insert_fault 10 0
              (Js.trim (memberName req)) normalizedPhone (k_id checkin)
              (SubmitAbsence.stream_access_codes s) with
      | SubmitAbsence.Generated accessCode _ codes' =>
          let s1 := SubmitAbsence.mkDb (SubmitAbsence.members s)
                      (SubmitAbsence.absentee_checkins s)
                      (SubmitAbsence.vimeo_passwords s) codes' in
          let phoneNumber := SubmitAbsence.formatPhone normalizedPhone in
          if (11 <=? String.length phoneNumber)%nat
          then
            match twilio_send phoneNumber accessCode with
            | None =>
                (true, None,
                 SubmitAbsence.mkDb (SubmitAbsence.members s1)
                   (SubmitAbsence.mark_sent db_now (k_id checkin)
                      (SubmitAbsence.absentee_checkins s1))
                   (SubmitAbsence.vimeo_passwords s1)
                   (SubmitAbsence.stream_access_codes s1))
            | Some msg => (false, Some msg, s1)
            end
          else (false, Some "Invalid phone number format", s1)
      | SubmitAbsence.Exhausted _ => (false, Some "Unable to generate access code", s)
      | SubmitAbsence.Thrown e _ => (false, Some (SubmitAbsence.message e), s)
      end
  | _, false => (false, Some "SMS service not configured", s)
  | None, true => (false, Some "No active live stream password configured", s)
  end.

(** The handler from the parsed body on.  [absentee_checkins.phone] is
    NOT NULL, and the INSERT is given [normalizedPhone || null]. *)
Definition handler (req : request) (s : SubmitAbsence.db)
    : response * SubmitAbsence.db :=
  if String.eqb (memberName req) "" then (Failure 400 "Member name is required", s)
  else if String.eqb (serviceDate req) "" then (Failure 400 "Service date is required", s)
  else if String.eqb (reason req) "" then (Failure 400 "Reason is required", s)
  else if negb (existsb (String.eqb (reason req)) SubmitAbsence.validReasons)
  then (Failure 400 "Invalid reason", s)
  else
    let normalizedPhone := SubmitAbsence.last10Digits (memberPhone req) in
    if String.eqb normalizedPhone "" then (Failure 500 "Failed to record absence", s)
    else
      match date_in (serviceDate req) with
      | None => (Failure 500 "Failed to record absence", s)
      | Some d =>
          if (255 <? String.length (Js.trim (memberName req)))%nat
          then (Failure 500 "Failed to record absence", s)
          else
            let checkin :=
              mkCheckin new_checkin_id (Js.trim (memberName req)) normalizedPhone
                (reason req)
                (if String.eqb (prayerRequest req) "" then None
                 else Some (prayerRequest req))
                d false None db_now in
            let s1 := SubmitAbsence.mkDb (SubmitAbsence.members s)
                        (SubmitAbsence.absentee_checkins s ++ [checkin])
                        (SubmitAbsence.vimeo_passwords s)
                        (SubmitAbsence.stream_access_codes s) in
            if sendLink req
            then
              let '(smsSent, smsError, s2) := send_link req checkin normalizedPhone s1 in
              (Recorded checkin smsSent (if smsSent then None else smsError), s2)
            else (Recorded checkin false None, s1)
      end.

End Handler.

End ManualAbsence.

(* ================================================================== *)
(** * Reading and adjusting the current password (vimeo-password, GET
      and PUT) *)

Module VimeoSettings.
Import Schema.

(** A row of [vimeo_passwords] with its [expires_at]. *)
Record password_row := mkPassword {
  row : vimeo_row;
  expires_at : option timestamp
}.

(** The first row with the largest [created_at], as [ActivePassword.newest]
    has it, with the expiry of the row. *)
Fixpoint newest (l : list password_row) : option password_row :=
  match l with
  | [] => None
  | p :: l' =>
      match newest l' with
      | Some q => if (v_created_at (row p) <? v_created_at (row q))%Z
                  then Some q else Some p
      | None => Some p
      end
  end.

(** [SELECT ... FROM vimeo_passwords WHERE active = true
     ORDER BY created_at DESC LIMIT 1]. *)
Definition select_active (t : list password_row) : option password_row :=
  newest (filter (fun p => v_active (row p)) t).

Inductive get_response :=
| NoPassword
| Current (videoId password videoUrl rotationType : string)
    (createdAt : timestamp) (expiresAt : option timestamp).

(** [current.video_url || `https://vimeo.com/${current.video_id}`]. *)
Definition shown_url (v : vimeo_row) : string :=
  match v_video_url v with
  | Some u => if String.eqb u "" then ("https://vimeo.com/" ++ v_video_id v)%string else u
  | None => ("https://vimeo.com/" ++ v_video_id v)%string
  end.

(** The GET branch. *)
Definition get (t : list password_row) : get_response :=
  match select_active t with
  | None => NoPassword
  | Some current =>
      Current (v_video_id (row current)) (v_password (row current))
        (shown_url (row current)) (v_rotation_type (row current))
        (v_created_at (row current)) (expires_at current)
  end.




Section Put.

(** PostgreSQL's conversion of a text parameter to TIMESTAMP. *)
Variable timestamp_in : string -> option timestamp.





End Put.

End VimeoSettings.

Module SettingsExamples.
Import Schema.
Local Open Scope Z_scope.

(** The password table of the examples with its expiries: one active row,
    stored without a URL. *)
Definition table : list VimeoSettings.password_row :=
  [ VimeoSettings.mkPassword
      (mkVimeo 1 "987654" "OldPass1" (Some "https://vimeo.com/event/987654")
         false "manual" 10) None;
    VimeoSettings.mkPassword
      (mkVimeo 2 "987654" "Hq7kPm2x" None true "scheduled" 20) None ].


End SettingsExamples.

(* ================================================================== *)
(** * Part II: the theorems *)
(* ================================================================== *)

Import Schema.

(** ** The attendance recorder *)

Section RecordAttendanceFacts.
Import RecordAttendance.
Variable date_in : string -> option pg_date.
Variable fails : statement -> bool.
Variable members : list string.
Variable now : timestamp.






Lemma key_in_spec d st m touched :
  key_in d st m touched = true <-> In (d, st, m) touched.
Proof.
  unfold key_in. rewrite existsb_exists. split.
  - intros [[[d' st'] m'] [Hin H]].
    apply andb_true_iff in H as [H Hm]. apply andb_true_iff in H as [Hd Hs].
    apply String.eqb_eq in Hd, Hs, Hm. now subst.
  - intros Hin. exists (d, st, m). split; auto.
    now rewrite !String.eqb_refl.
Qed.

Lemma same_key_spec d st m r :
  same_key d st m r = true <-> same_service d st r = true /\ a_member_id r = m.
Proof.
  unfold same_key. rewrite andb_true_iff, String.eqb_eq. tauto.
Qed.

(** A table in which every row of the service is one this statement has
    written takes each further proposal as a plain insertion. *)
Lemma upsert_rows_fresh d st : forall ids touched t t',
  (forall r, In r t -> same_service d st r = true ->
             In (d, st, a_member_id r) touched) ->
  upsert_rows members now (map (fun id => (d, st, id)) ids) touched t = inr t' ->
  t' = t ++ map (present_row now d st) ids /\
  NoDup ids /\
  (forall id, In id ids -> ~ In (d, st, id) touched) /\
  (forall id, In id ids -> In id members).
Proof.
  induction ids as [|m ids IH]; intros touched t t' Hinv Hrun; simpl in Hrun.
  - inversion Hrun; subst. rewrite app_nil_r. repeat split; try constructor; intros ? [].
  - destruct (100 <? String.length st)%nat; [discriminate|].
    destruct (key_in d st m touched) eqn:Hk; [discriminate|].
    destruct (existsb (String.eqb m) members) eqn:Hm; simpl in Hrun; [|discriminate].
    assert (Hnot : ~ In (d, st, m) touched).
    { intro H. apply key_in_spec in H. congruence. }
    assert (Hfresh : existsb (same_key d st m) t = false).
    { apply not_true_is_false. intro H. apply existsb_exists in H as [r [Hr Hkey]].
      apply same_key_spec in Hkey as [Hs <-]. now apply Hnot, Hinv. }
    unfold upsert_one in Hrun. rewrite Hfresh in Hrun.
    apply IH in Hrun.
    + destruct Hrun as (Ht' & Hnd & Htouched & Hmem).
      split; [|split; [|split]].
      * rewrite Ht', <- app_assoc. reflexivity.
      * constructor; auto. intro Hin. apply (Htouched m Hin). now left.
      * intros id [<-|Hin]; auto. intro H. apply (Htouched id Hin). now right.
      * intros id [<-|Hin]; auto.
        apply existsb_exists in Hm as [x [Hx Heq]]. apply String.eqb_eq in Heq. now subst.
    + intros r Hr Hs. apply in_app_iff in Hr as [Hr|[<-|[]]].
      * right. now apply Hinv.
      * now left.
Qed.

Lemma cast_rows_same d st nd ids :
  date_in nd = Some d ->
  cast_rows date_in (map (fun id => (nd, st, id)) ids) = Some (map (fun id => (d, st, id)) ids).
Proof.
  intros H. induction ids as [|m ids IH]; simpl; auto.
  now rewrite H, IH.
Qed.


Lemma transaction_commits nd st ids c ins del c' :
  idle c ->
  transaction date_in fails members now nd st ids c = (inr (ins, del), c') ->
  exists d,
    date_in nd = Some d /\
    committed c' = rows_outside d st (committed c) ++ map (present_row now d st) ids /\
    open_txn c' = None /\
    NoDup ids /\
    ins = List.length ids /\
    del = List.length (rows_for d st (committed c)) /\
    exists mid, visible_log c' = committed c' :: mid ++ visible_log c /\
                Forall (eq (committed c)) mid.
Proof.
  destruct c as [T0 txn log]. unfold idle; simpl. intros ->.
  unfold transaction, bind, query_begin, query_delete, query_commit, guarded, ret.
  destruct (fails BEGIN); [discriminate|]. simpl.
  destruct (fails DELETE); [discriminate|].
  destruct (date_in nd) as [d|] eqn:Hd; [|discriminate]. simpl.
  destruct (0 <? List.length ids)%nat eqn:Hlen.
  - unfold query_insert, guarded.
    destruct (fails INSERT); [discriminate|].
    rewrite (cast_rows_same d st nd ids Hd). unfold current, write; simpl.
    destruct (upsert_rows members now _ [] _) as [e|t] eqn:Hu; [discriminate|].
    simpl. destruct (fails COMMIT); [discriminate|]. simpl.
    intros H; inversion H; subst; clear H. exists d. simpl.
    apply upsert_rows_fresh in Hu.
    + destruct Hu as (Ht & Hnd & _ & _). repeat split; auto.
      * now rewrite length_map.
      * exists [T0; T0; T0]. split; auto.
    + intros r Hr Hs. unfold rows_outside in Hr. apply filter_In in Hr as [_ Hr].
      rewrite Hs in Hr. discriminate.
  - destruct ids as [|m ids]; [|discriminate]. simpl.
    destruct (fails COMMIT); [discriminate|]. simpl.
    intros H; inversion H; subst; clear H. exists d. simpl.
    rewrite app_nil_r. repeat split; try constructor.
    exists [T0; T0]. split; auto.
Qed.

(** The run stopped with an error after the statements whose snapshots
    are [new]: the committed table and every snapshot are the table [T0]
    of the start. *)
Ltac stopped_after new :=
  let H := fresh in
  intros H; inversion H; subst; simpl; split; [reflexivity|];
  exists new; split; [reflexivity|]; repeat constructor.

Lemma transaction_aborts nd st ids c e c1 :
  idle c ->
  transaction date_in fails members now nd st ids c = (inl e, c1) ->
  committed c1 = committed c /\
  exists new, visible_log c1 = new ++ visible_log c /\
              Forall (eq (committed c)) new.
Proof.
  destruct c as [T0 txn log]. unfold idle; simpl. intros ->.
  unfold transaction, bind, query_begin, query_delete, query_insert,
    query_commit, guarded, ret.
  destruct (fails BEGIN); [stopped_after [T0]|].
  simpl. destruct (fails DELETE); [stopped_after [T0; T0]|].
  destruct (date_in nd) as [d|] eqn:Hd; simpl; [|stopped_after [T0; T0]].
  destruct (0 <? List.length ids)%nat.
  - destruct (fails INSERT); [stopped_after [T0; T0; T0]|].
    destruct (cast_rows date_in _) as [rows|]; simpl; [|stopped_after [T0; T0; T0]].
    destruct (upsert_rows members now rows [] _) as [e'|t]; simpl;
      [stopped_after [T0; T0; T0]|].
    destruct (fails COMMIT); simpl; [|discriminate].
    stopped_after [T0; T0; T0; T0].
  - simpl. destruct (fails COMMIT); simpl; [|discriminate].
    stopped_after [T0; T0; T0].
Qed.




(** Whatever the call does, another session reads during it either the
    table before the call or the table after it. *)
Lemma record_attendance_snapshots req c resp c' :
  idle c ->
  handler date_in fails members now req c = (resp, c') ->
  exists new,
    visible_log c' = new ++ visible_log c /\
    Forall (fun t => t = committed c \/ t = committed c') new /\
    open_txn c' = None.
Proof.
  intros Hidle. unfold handler.
  destruct (attendeeIds req) as [ids|].
  2:{ intros H; inversion H; subst. exists []. repeat split; auto. }
  destruct (String.eqb (date req) "" || String.eqb (serviceType req) "").
  { intros H; inversion H; subst. exists []. repeat split; auto. }
  destruct (transaction _ _ _ _ _ _ _ c) as [[e|[ins del]] c1] eqn:Ht;
    intros H; inversion H; subst; clear H.
  - apply transaction_aborts in Ht as (Hc & new & Hlog & Hall); auto.
    exists (committed c :: new). simpl. rewrite Hc, Hlog. repeat split; auto.
    constructor; auto. eapply Forall_impl; [|exact Hall]. intros t <-. now left.
  - apply transaction_commits in Ht as (d & _ & _ & Hopen & _ & _ & _ & mid & Hlog & Hall);
      auto.
    exists (committed c' :: mid). rewrite Hlog. repeat split; auto.
    constructor; auto. eapply Forall_impl; [|exact Hall]. intros t <-. now left.
Qed.

End RecordAttendanceFacts.

Section RecordAttendanceClaims.
Import RecordAttendance.
Variable date_in : string -> option pg_date.
Variable fails : statement -> bool.
Variable members : list string.
Variable now : timestamp.



(** C3.  When a statement of the transaction fails, the handler answers
    500 "Failed to record attendance", the committed attendance table is
    the one before the call, no transaction stays open, and every state
    another session could read during the call is that same table. *)
Theorem record_attendance_failure_rolls_back :
  forall (req : request) (ids : list string) (c c1 : client) (e : pg_error),
    idle c ->
    attendeeIds req = Some ids ->
    date req <> "" -> serviceType req <> "" ->
    transaction date_in fails members now
      (Js.split_head "T" (date req)) (serviceType req) ids c = (inl e, c1) ->
    exists c' new,
      handler date_in fails members now req c
        = (respond 500 (Failure "Failed to record attendance"
                          (Some (error_message e))), c') /\
      committed c' = committed c /\
      open_txn c' = None /\
      visible_log c' = new ++ visible_log c /\
      Forall (eq (committed c)) new.
Proof.
  intros req ids c c1 e Hidle Hids Hd Hs Ht.
  unfold handler. rewrite Hids.
  apply String.eqb_neq in Hd, Hs. rewrite Hd, Hs. simpl. rewrite Ht.
  apply transaction_aborts in Ht; auto.
  destruct Ht as (Hc & new & Hlog & Hall).
  exists (query_rollback c1), (committed c :: new). repeat split; simpl; auto.
  - now rewrite Hc, Hlog.
Qed.

End RecordAttendanceClaims.


(** The doubled submission of the example: the INSERT fails after the
    DELETE, and the table is the recorded one. *)
Lemma record_attendance_failure_rolls_back_witness :
  exists c' new,
    RecordAttendance.handler Examples.date_in Examples.no_failure
      Examples.member_ids 2000%Z Examples.doubled Examples.pooled_client
    = (RecordAttendance.respond 500
         (RecordAttendance.Failure "Failed to record attendance"
            (Some (RecordAttendance.error_message RecordAttendance.cardinality_violation))),
       c') /\
    RecordAttendance.committed c' = Examples.recorded /\
    RecordAttendance.open_txn c' = None /\
    RecordAttendance.visible_log c' = new ++ [] /\
    Forall (eq Examples.recorded) new.
Proof.
  eapply (record_attendance_failure_rolls_back
            Examples.date_in Examples.no_failure Examples.member_ids 2000%Z
            Examples.doubled ["m1"; "m1"] Examples.pooled_client).
  - reflexivity.
  - reflexivity.
  - discriminate.
  - discriminate.
  - vm_compute. reflexivity.
Defined.

(** ** The absence engine *)

Lemma digit_is_no_bar c : Js.is_digit c = true -> Ascii.eqb "|" c = false.
Proof.
  intros H. destruct (Ascii.eqb_spec "|" c) as [<-|]; auto.
Qed.

Lemma iso_date_has_no_bar d : is_iso_date d = true -> Js.mem_char "|" d = false.
Proof.
  unfold is_iso_date.
  do 11 (destruct d as [|? d]; cbn [list_ascii_of_string]; try discriminate).
  cbn [forallb Js.mem_char]. intros H.
  repeat match goal with
         | H : (_ && _) = true |- _ => apply andb_true_iff in H; destruct H
         end.
  repeat match goal with
         | H : Js.is_digit _ = true |- _ => apply digit_is_no_bar in H; rewrite H; clear H
         | H : Ascii.eqb _ "-" = true |- _ => apply Ascii.eqb_eq in H; subst
         end.
  reflexivity.
Qed.

Lemma service_key_inj (a b : MemberAbsenceReport.service) :
  Js.mem_char "|" (fst a) = false ->
  Js.mem_char "|" (fst b) = false ->
  MemberAbsenceReport.service_key a = MemberAbsenceReport.service_key b -> a = b.
Proof.
  destruct a as [d1 s1], b as [d2 s2]. unfold MemberAbsenceReport.service_key. cbn [fst snd].
  revert d2.
  induction d1 as [|c d1 IH]; intros [|c2 d2]; cbn [Js.mem_char append];
    intros H1 H2 H.
  - now inversion H.
  - inversion H; subst. rewrite Ascii.eqb_refl in H2. discriminate.
  - inversion H; subst. rewrite Ascii.eqb_refl in H1. discriminate.
  - inversion H; subst. apply orb_false_iff in H1 as [_ H1], H2 as [_ H2].
    specialize (IH d2 H1 H2 H4). now inversion IH.
Qed.

Lemma insert_by_perm {A} (le : A -> A -> bool) x l :
  Permutation (MemberAbsenceReport.insert_by le x l) (x :: l).
Proof.
  induction l as [|y l IH]; simpl; auto.
  destruct (le x y); auto.
  rewrite IH. apply perm_swap.
Qed.

Lemma sort_by_perm {A} (le : A -> A -> bool) l :
  Permutation (MemberAbsenceReport.sort_by le l) l.
Proof.
  induction l as [|x l IH]; simpl; auto.
  rewrite insert_by_perm. now constructor.
Qed.

Section Partition.
Import MemberAbsenceReport.
Variables (from to : pg_date) (memberId : string) (attendance : list attendance_row).
Hypothesis dates_wf : Forall (fun r => is_iso_date (a_date r) = true) attendance.

Let occurred := select_services from to attendance.
Let attended := select_attended memberId from to attendance.
Let absences := find_absences occurred attended.

Lemma occurred_spec s :
  In s occurred <->
  exists r, In r attendance /\ in_range from to (a_date r) = true /\ service_of r = s.
Proof.
  unfold occurred, select_services. split.
  - intros H. apply (Permutation_in _ (sort_by_perm _ _)) in H.
    apply nodup_In, in_map_iff in H as [r [Hs Hr]].
    apply filter_In in Hr as [Hr Hin]. now exists r.
  - intros [r (Hr & Hin & Hs)].
    apply (Permutation_in _ (Permutation_sym (sort_by_perm _ _))).
    apply nodup_In, in_map_iff. exists r. split; auto. now apply filter_In.
Qed.

Lemma attended_spec s :
  In s attended <->
  exists r, In r attendance /\ a_member_id r = memberId /\
            in_range from to (a_date r) = true /\ a_present r = true /\
            service_of r = s.
Proof.
  unfold attended, select_attended. rewrite in_map_iff. split.
  - intros [r [Hs Hr]]. apply filter_In in Hr as [Hr H].
    apply andb_true_iff in H as [H Hp]. apply andb_true_iff in H as [Hm Hin].
    apply String.eqb_eq in Hm. now exists r.
  - intros [r (Hr & Hm & Hin & Hp & Hs)]. exists r. split; auto.
    apply filter_In. split; auto. rewrite Hin, Hp. subst. now rewrite String.eqb_refl.
Qed.

Lemma occurred_NoDup : NoDup occurred.
Proof.
  unfold occurred, select_services.
  apply (Permutation_NoDup (Permutation_sym (sort_by_perm _ _))), NoDup_nodup.
Qed.

Lemma attended_occurred s : In s attended -> In s occurred.
Proof.
  rewrite attended_spec, occurred_spec. intros [r H]. exists r. tauto.
Qed.

Lemma service_no_bar s : In s occurred -> Js.mem_char "|" (fst s) = false.
Proof.
  rewrite occurred_spec. intros [r (Hr & _ & <-)]. simpl.
  apply iso_date_has_no_bar. rewrite Forall_forall in dates_wf. now apply dates_wf.
Qed.

Lemma attended_set_has s :
  In s occurred ->
  set_has (map service_key attended) (service_key s) = true <-> In s attended.
Proof.
  intros Hs. unfold set_has. rewrite existsb_exists. split.
  - intros [k [Hk Heq]]. apply String.eqb_eq in Heq.
    apply in_map_iff in Hk as [s' [<- Hs']].
    apply service_key_inj in Heq; [now subst| |]; apply service_no_bar; auto.
    now apply attended_occurred.
  - intros Hin. exists (service_key s). split; [now apply in_map|apply String.eqb_refl].
Qed.

(** The absences are the occurred services the member did not attend. *)
Lemma absences_spec s : In s absences <-> In s occurred /\ ~ In s attended.
Proof.
  unfold absences, find_absences. rewrite filter_In. split.
  - intros [Hs H]. split; auto. intro Hin.
    apply (attended_set_has s Hs) in Hin. rewrite Hin in H. discriminate.
  - intros [Hs Hn]. split; auto. apply negb_true_iff, not_true_is_false.
    intro H. now apply Hn, attended_set_has.
Qed.

Lemma absences_NoDup : NoDup absences.
Proof. apply NoDup_filter, occurred_NoDup. Qed.

Lemma filter_split_length {A} (f : A -> bool) (l : list A) :
  List.length l = (List.length (filter f l) + List.length (filter (fun x => negb (f x)) l))%nat.
Proof.
  induction l as [|x l IH]; simpl; auto.
  destruct (f x); simpl; lia.
Qed.

Lemma attended_count :
  (List.length occurred - List.length absences)%nat
  = List.length (nodup service_eq_dec attended).
Proof.
  set (f := fun s => set_has (map service_key attended) (service_key s)).
  pose proof (filter_split_length f occurred) as Hsplit.
  fold (find_absences occurred attended) in Hsplit. fold absences in Hsplit.
  rewrite Hsplit, Nat.add_sub.
  apply Permutation_length, NoDup_Permutation.
  - apply NoDup_filter, occurred_NoDup.
  - apply NoDup_nodup.
  - intros s. rewrite nodup_In, filter_In. unfold f. split.
    + intros [Hs H]. now apply attended_set_has in H.
    + intros H. split; [now apply attended_occurred|].
      apply attended_set_has; auto. now apply attended_occurred.
Qed.

(** The three numbers of the summary: attended and absent add up to
    occurred, and attended counts the distinct services the member has a
    [present = true] row for. *)
Lemma summary_partition :
  let s := summarize occurred absences in
  (totalAttended s + totalAbsences s = totalServicesInPeriod s)%Z /\
  totalServicesInPeriod s = Z.of_nat (List.length occurred) /\
  totalAbsences s = Z.of_nat (List.length absences) /\
  totalAttended s = Z.of_nat (List.length (nodup service_eq_dec attended)).
Proof.
  simpl. repeat split; try lia.
  rewrite <- attended_count.
  assert (List.length absences <= List.length occurred)%nat by apply filter_length_le.
  lia.
Qed.

End Partition.

(** For every member and date range the handler reports, the absences
    are the occurred services minus the attended ones, without
    repetition, and the numbers of the summary partition the occurred
    services. *)
Lemma member_absence_report_partition :
  forall (date_in : string -> option pg_date) (members : list member_row)
         (attendance : list attendance_row) (memberId fromDate toDate : string)
         (member : member_row) (sm : MemberAbsenceReport.summary)
         (absences : list MemberAbsenceReport.service),
    Forall (fun r => is_iso_date (a_date r) = true) attendance ->
    MemberAbsenceReport.handler date_in members attendance memberId fromDate toDate
    = MemberAbsenceReport.Report member sm absences ->
    exists from to,
      date_in fromDate = Some from /\ date_in toDate = Some to /\
      let occurred := MemberAbsenceReport.select_services from to attendance in
      let attended := MemberAbsenceReport.select_attended memberId from to attendance in
      (forall s, In s absences <-> In s occurred /\ ~ In s attended) /\
      NoDup occurred /\ NoDup absences /\
      (MemberAbsenceReport.totalAttended sm + MemberAbsenceReport.totalAbsences sm
       = MemberAbsenceReport.totalServicesInPeriod sm)%Z /\
      MemberAbsenceReport.totalServicesInPeriod sm = Z.of_nat (List.length occurred) /\
      MemberAbsenceReport.totalAbsences sm = Z.of_nat (List.length absences) /\
      MemberAbsenceReport.totalAttended sm
      = Z.of_nat (List.length (nodup MemberAbsenceReport.service_eq_dec attended)) /\
      MemberAbsenceReport.attendanceRate sm
      = MemberAbsenceReport.attendance_rate
          (MemberAbsenceReport.totalAttended sm)
          (MemberAbsenceReport.totalServicesInPeriod sm).
Proof.
  intros date_in members attendance memberId fromDate toDate member sm absences Hwf.
  unfold MemberAbsenceReport.handler.
  destruct (String.eqb memberId ""); [discriminate|].
  destruct (String.eqb fromDate "" || String.eqb toDate ""); [discriminate|].
  destruct (filter _ members) as [|m ms]; [discriminate|].
  destruct (date_in fromDate) as [from|]; [|discriminate].
  destruct (date_in toDate) as [to|]; [|discriminate].
  intros H; inversion H; subst; clear H.
  exists from, to. split; [reflexivity|]. split; [reflexivity|].
  cbv zeta.
  pose proof (summary_partition from to memberId attendance Hwf) as Hsum.
  cbv zeta in Hsum. destruct Hsum as (H1 & H2 & H3 & H4).
  split; [intros s; now apply absences_spec|].
  split; [apply occurred_NoDup|].
  split; [now apply absences_NoDup|].
  repeat split; assumption.
Qed.

(** Nothing occurred: the rate is 0. *)
Lemma attendance_rate_of_nothing attended :
  MemberAbsenceReport.attendance_rate attended 0 = Some 0%Z.
Proof. reflexivity. Qed.

(** Up to thirty-nine occurred services the reported rate is the
    specified one. *)
Lemma attendance_rate_agrees_below_40 :
  forallb (fun t =>
     forallb (fun a =>
        match MemberAbsenceReport.attendance_rate (Z.of_nat a) (Z.of_nat t) with
        | Some r => Z.eqb r (MemberAbsenceReport.specified_rate (Z.of_nat a) (Z.of_nat t))
        | None => false
        end) (seq 0 (S t))) (seq 0 40) = true.
Proof. vm_compute. reflexivity. Qed.

(** C2, at the failing input.  Forty services occurred and m1 attended
    twenty-three of them: the report counts 40, 23 and 17, which add up,
    and gives the rate 57, while round(100 x 23 / 40) = round(57.5) is 58.
    The quotient 23 / 40 is not a binary64 number, and its product with
    100 is 57.49999999999999. *)
Theorem member_absence_rate_rounds_tie_down :
  exists member absences,
    MemberAbsenceReport.handler Examples.date_in Examples.directory
      Examples.attendance_2024 "m1" "2024-01-01" "2024-12-31"
    = MemberAbsenceReport.Report member
        (MemberAbsenceReport.mkSummary 40 23 17 (Some 57%Z)) absences /\
    List.length absences = 17%nat /\
    MemberAbsenceReport.specified_rate 23 40 = 58%Z.
Proof.
  eexists. eexists. split; [vm_compute; reflexivity|].
  split; reflexivity.
Qed.

(** ** Access-code validation *)

Lemma toUpperCase_length s : String.length (Js.toUpperCase s) = String.length s.
Proof. induction s; simpl; auto. Qed.

Section VerifyStreamCodeFacts.
Import VerifyStreamCode.

Lemma find_code_after_update n id t codes r :
  find_code n codes = Some r ->
  find_code n (map (fun x => if Z.eqb (c_id x) id then record_use t x else x) codes)
  = Some (if Z.eqb (c_id r) id then record_use t r else r).
Proof.
  unfold find_code, select_code.
  induction codes as [|x codes IH]; simpl; [discriminate|].
  assert (Hc : c_code (if Z.eqb (c_id x) id then record_use t x else x) = c_code x)
    by (destruct (Z.eqb (c_id x) id); reflexivity).
  rewrite Hc. destruct (String.eqb (c_code x) n); simpl.
  - intros H; inversion H; subst. reflexivity.
  - exact IH.
Qed.

(** What one request does to the row of its code. *)
Lemma run_call_on_code k codes n r :
  Js.toUpperCase (call_code k) = n ->
  find_code n codes = Some r ->
  let '(resp, codes') := run_call k codes in
  if (statusCode resp =? 200)%Z
  then find_code n codes' = Some (record_use (call_db_now k) r)
  else codes' = codes.
Proof.
  intros Hn Hr. unfold run_call, handler.
  destruct (String.eqb (call_code k) "" || negb (String.length (call_code k) =? 6)%nat);
    [reflexivity|].
  rewrite Hn. unfold find_code in Hr.
  destruct (select_code n codes) as [|a rest] eqn:Hsel; [discriminate|].
  simpl in Hr. inversion Hr; subst a; clear Hr.
  destruct (c_revoked r); [reflexivity|].
  destruct (c_expires_at r <? call_js_now k)%Z; [reflexivity|].
  destruct (ActivePassword.select_active _); [|reflexivity].
  unfold update_usage.
  destruct (existsb _ codes); [reflexivity|]. simpl.
  assert (Hf : find_code n codes = Some r) by (unfold find_code; now rewrite Hsel).
  rewrite (find_code_after_update n (c_id r) (call_db_now k) codes r Hf).
  now rewrite Z.eqb_refl.
Qed.

Lemma run_calls_on_code n : forall ks codes r,
  (forall k, In k ks -> Js.toUpperCase (call_code k) = n) ->
  find_code n codes = Some r ->
  find_code n (snd (run_calls ks codes))
  = Some (after_uses (fst (run_calls ks codes)) r).
Proof.
  induction ks as [|k ks IH]; intros codes r Hks Hr; simpl; auto.
  pose proof (run_call_on_code k codes n r (Hks k (or_introl eq_refl)) Hr) as Hk.
  destruct (run_call k codes) as [resp codes1].
  assert (Hks' : forall k', In k' ks -> Js.toUpperCase (call_code k') = n)
    by (intros; apply Hks; now right).
  destruct (statusCode resp =? 200)%Z.
  - specialize (IH codes1 _ Hks' Hk).
    destruct (run_calls ks codes1) as [times codes2]. simpl in *. exact IH.
  - subst codes1. specialize (IH codes r Hks' Hr).
    destruct (run_calls ks codes) as [times codes2]. simpl in *. exact IH.
Qed.

Lemma last_cons {A} (l : list A) (a d : A) : last (a :: l) d = last l a.
Proof.
  revert a d. induction l as [|b l IH]; intros a d; auto.
  change (last (a :: b :: l) d) with (last (b :: l) d).
  rewrite (IH b d), (IH b a). reflexivity.
Qed.

Lemma after_uses_fields : forall ts r,
  c_use_count (after_uses ts r) = (c_use_count r + Z.of_nat (List.length ts))%Z /\
  c_first_used_at (after_uses ts r)
    = match c_first_used_at r with
      | Some t => Some t
      | None => hd_error ts
      end /\
  c_last_used_at (after_uses ts r)
    = match ts with
      | [] => c_last_used_at r
      | t :: ts' => Some (last ts' t)
      end /\
  c_id (after_uses ts r) = c_id r /\
  c_code (after_uses ts r) = c_code r /\
  c_revoked (after_uses ts r) = c_revoked r /\
  c_expires_at (after_uses ts r) = c_expires_at r.
Proof.
  induction ts as [|t ts IH]; intros r.
  - simpl. rewrite Z.add_0_r. destruct (c_first_used_at r); auto 10.
  - unfold after_uses in *. cbn [fold_left].
    destruct (IH (record_use t r)) as (Hc & Hf & Hl & Hi & Hcode & Hrev & Hexp).
    rewrite Hc, Hf, Hl, Hi, Hcode, Hrev, Hexp. cbn [record_use c_use_count c_first_used_at c_last_used_at c_id c_code c_revoked c_expires_at List.length hd_error].
    repeat split; try lia.
    + destruct (c_first_used_at r); reflexivity.
    + destruct ts as [|t' ts']; [reflexivity|]. now rewrite last_cons.
Qed.

Lemma newest_in l v : ActivePassword.newest l = Some v -> In v l.
Proof.
  revert v. induction l as [|a l IH]; simpl; intros v; [discriminate|].
  destruct (ActivePassword.newest l) as [w|].
  - destruct (v_created_at a <? v_created_at w)%Z; intros H; inversion H; subst; auto.
  - intros H; inversion H; auto.
Qed.

Lemma newest_none l : ActivePassword.newest l = None -> l = [].
Proof.
  destruct l as [|a l]; simpl; auto.
  destruct (ActivePassword.newest l) as [w|]; [|discriminate].
  destruct (v_created_at a <? v_created_at w)%Z; discriminate.
Qed.

(** The statement that reads the active password returns an active row
    of the table, and returns none only when no row is active. *)
Lemma select_active_some l v :
  ActivePassword.select_active l = Some v -> In v l /\ v_active v = true.
Proof.
  unfold ActivePassword.select_active. intros H.
  apply newest_in, filter_In in H. exact H.
Qed.

Lemma select_active_none l :
  ActivePassword.select_active l = None <-> (forall v, In v l -> v_active v = false).
Proof.
  unfold ActivePassword.select_active. split.
  - intros H v Hv. apply newest_none in H.
    destruct (v_active v) eqn:Ha; auto.
    assert (Hin : In v (filter v_active l)) by (apply filter_In; auto).
    rewrite H in Hin. destruct Hin.
  - intros H. assert (Hnil : filter v_active l = []).
    { induction l as [|a l IH]; simpl; auto.
      rewrite (H a (or_introl eq_refl)). apply IH. intros v Hv. apply H. now right. }
    now rewrite Hnil.
Qed.

Lemma select_code_nil n codes :
  select_code n codes = [] <-> (forall r, In r codes -> c_code r <> n).
Proof.
  unfold select_code. split.
  - intros H r Hr Heq.
    assert (Hin : In r (filter (fun r => String.eqb (c_code r) n) codes)).
    { apply filter_In. split; auto. now apply String.eqb_eq. }
    rewrite H in Hin. destruct Hin.
  - intros H. induction codes as [|a l IH]; simpl; auto.
    destruct (String.eqb_spec (c_code a) n) as [Heq|_].
    + exfalso. apply (H a); auto. now left.
    + apply IH. intros r Hr. apply H. now right.
Qed.

Lemma length_six_passes_format code :
  String.length code = 6%nat ->
  String.eqb code "" || negb (String.length code =? 6)%nat = false.
Proof.
  intros H. rewrite H. destruct code; [discriminate|]. reflexivity.
Qed.

Lemma other_length_fails_format code :
  String.length code <> 6%nat ->
  String.eqb code "" || negb (String.length code =? 6)%nat = true.
Proof.
  intros H. apply Nat.eqb_neq in H. rewrite H. apply orb_true_r.
Qed.

(** C4, amended by the format gate.  An input that is not 6 characters
    long is answered 400 before any lookup.  For a 6-character input the
    lookup is by the upper-cased text, so inputs that differ in case only
    are answered alike, and the checks come in the order existence,
    revoked flag, expiry, active password: no row with the code gives 404;
    a revoked row gives 403 "revoked" whatever its expiry; a row that is
    not revoked and whose [expires_at] is before now gives 403 "expired";
    with no active password row the answer is 503; otherwise the answer is
    200 with the credentials of an active password row, or 500 when the
    usage update fails.  Credentials are returned only when the input has
    6 characters, its row is not revoked and not expired and an active
    password row exists.  Every answer but 200 leaves the table as it
    was. *)
Theorem validate_access_code_check_order :
  forall (js_now db_now : timestamp) (vimeo_passwords : list vimeo_row)
         (code : string) (codes : list code_row),
    let out := handler js_now db_now vimeo_passwords code codes in
    let n := Js.toUpperCase code in
    (String.length code <> 6%nat ->
       out = (respond 400 (Denied "Invalid code format" false false), codes)) /\
    (forall code2, Js.toUpperCase code2 = n ->
       handler js_now db_now vimeo_passwords code2 codes = out) /\
    (String.length code = 6%nat ->
       (forall r, In r codes -> c_code r <> n) ->
       out = (respond 404 (Denied "Access code not found" false false), codes)) /\
    (forall r, String.length code = 6%nat -> find_code n codes = Some r ->
       (c_revoked r = true ->
          out = (respond 403 (Denied "This access code has been revoked" true false), codes)) /\
       (c_revoked r = false -> (c_expires_at r < js_now)%Z ->
          out = (respond 403 (Denied "This access code has expired" false true), codes)) /\
       (c_revoked r = false -> (js_now <= c_expires_at r)%Z ->
          (forall v, In v vimeo_passwords -> v_active v = false) ->
          out = (respond 503 (Denied "No active stream configured" false false), codes)) /\
       (c_revoked r = false -> (js_now <= c_expires_at r)%Z ->
          forall v, ActivePassword.select_active vimeo_passwords = Some v ->
          In v vimeo_passwords /\ v_active v = true /\
          match update_usage db_now (c_id r) codes with
          | Some codes' =>
              out = (respond 200
                       (Granted (c_member_name r) (v_video_id v) (v_video_url v)
                          (v_password v) (c_expires_at r)), codes')
          | None =>
              out = (respond 500 (Denied "Failed to verify access code" false false), codes)
          end)) /\
    (forall m vid url pw ex, resp_body (fst out) = Granted m vid url pw ex ->
       String.length code = 6%nat /\
       exists r v,
         find_code n codes = Some r /\ c_revoked r = false /\
         (js_now <= c_expires_at r)%Z /\
         In v vimeo_passwords /\ v_active v = true /\
         m = c_member_name r /\ vid = v_video_id v /\ url = v_video_url v /\
         pw = v_password v) /\
    (statusCode (fst out) <> 200%Z -> snd out = codes).
Proof.
  intros js_now db_now vimeo code codes out n.
  split; [|split; [|split; [|split; [|split]]]].
  - intros Hlen. unfold out, handler. now rewrite other_length_fails_format.
  - intros code2 Hn. unfold out, handler.
    assert (Hl : String.length code2 = String.length code).
    { rewrite <- (toUpperCase_length code2), Hn. apply toUpperCase_length. }
    assert (He : String.eqb code2 "" = String.eqb code "").
    { destruct code2, code; try discriminate; reflexivity. }
    rewrite Hl, He, Hn. reflexivity.
  - intros Hlen Hnone. unfold out, handler.
    rewrite length_six_passes_format by assumption.
    apply select_code_nil in Hnone. fold n. now rewrite Hnone.
  - intros r Hlen Hr. unfold find_code in Hr.
    unfold out, handler. rewrite length_six_passes_format by assumption. fold n.
    destruct (select_code n codes) as [|a rest]; [discriminate|].
    simpl in Hr. inversion Hr; subst a; clear Hr.
    split; [|split; [|split]].
    + intros ->. reflexivity.
    + intros -> Hexp. apply Z.ltb_lt in Hexp. now rewrite Hexp.
    + intros -> Hexp Hnone. apply Z.ltb_ge in Hexp. rewrite Hexp.
      apply select_active_none in Hnone. now rewrite Hnone.
    + intros -> Hexp v Hv. apply Z.ltb_ge in Hexp. rewrite Hexp, Hv.
      destruct (select_active_some _ _ Hv) as [Hin Hact].
      split; [exact Hin|]. split; [exact Hact|].
      destruct (update_usage db_now (c_id r) codes); reflexivity.
  - intros m vid url pw ex. unfold out, handler.
    destruct (String.eqb code "" || negb (String.length code =? 6)%nat) eqn:Hfmt;
      [discriminate|].
    apply orb_false_iff in Hfmt as [_ Hfmt].
    apply negb_false_iff, Nat.eqb_eq in Hfmt. fold n. unfold find_code.
    destruct (select_code n codes) as [|r rest]; [discriminate|].
    destruct (c_revoked r) eqn:Hrev; [discriminate|].
    destruct (c_expires_at r <? js_now)%Z eqn:Hexp; [discriminate|].
    destruct (ActivePassword.select_active vimeo) as [v|] eqn:Hv; [|discriminate].
    destruct (update_usage db_now (c_id r) codes); [|discriminate].
    simpl. intros H; inversion H; subst. split; [exact Hfmt|].
    destruct (select_active_some _ _ Hv) as [Hin Hact].
    exists r, v. apply Z.ltb_ge in Hexp. repeat split; auto.
  - unfold out, handler.
    destruct (String.eqb code "" || negb (String.length code =? 6)%nat); [reflexivity|].
    destruct (select_code _ codes) as [|r rest]; [reflexivity|].
    destruct (c_revoked r); [reflexivity|].
    destruct (c_expires_at r <? js_now)%Z; [reflexivity|].
    destruct (ActivePassword.select_active vimeo); [|reflexivity].
    destruct (update_usage db_now (c_id r) codes); [|reflexivity].
    simpl. intros H. now elim H.
Qed.

(** C5.  Over any sequence of validations of one code, the row of the
    code ends with [use_count] raised by the number of validations that
    were answered 200, so it never decreases; [first_used_at] keeps the
    value it had, and a row never used before takes the time of the first
    validation answered 200; [last_used_at] is the time of the last
    validation answered 200. *)
Theorem validation_usage_tracking :
  forall (n : string) (ks : list call) (codes : list code_row) (r : code_row),
    (forall k, In k ks -> Js.toUpperCase (call_code k) = n) ->
    find_code n codes = Some r ->
    exists r',
      find_code n (snd (run_calls ks codes)) = Some r' /\
      let times := fst (run_calls ks codes) in
      c_use_count r' = (c_use_count r + Z.of_nat (List.length times))%Z /\
      (c_use_count r <= c_use_count r')%Z /\
      c_first_used_at r'
        = match c_first_used_at r with
          | Some t => Some t
          | None => hd_error times
          end /\
      c_last_used_at r'
        = match times with
          | [] => c_last_used_at r
          | t :: later => Some (last later t)
          end.
Proof.
  intros n ks codes r Hks Hr.
  exists (after_uses (fst (run_calls ks codes)) r).
  split; [now apply run_calls_on_code|].
  cbv zeta.
  destruct (after_uses_fields (fst (run_calls ks codes)) r) as (Hc & Hf & Hl & _).
  repeat split; auto. lia.
Qed.

(** C10.  A code of the table that is not revoked and not expired,
    validated while no password row is active: the answer is 503 and the
    table of access codes is the one before the call. *)
Theorem validation_without_stream_changes_nothing :
  forall (js_now db_now : timestamp) (vimeo_passwords : list vimeo_row)
         (code : string) (codes : list code_row) (r : code_row),
    Forall (fun x => String.length (c_code x) = 6%nat) codes ->
    find_code (Js.toUpperCase code) codes = Some r ->
    c_revoked r = false ->
    (js_now <= c_expires_at r)%Z ->
    (forall v, In v vimeo_passwords -> v_active v = false) ->
    handler js_now db_now vimeo_passwords code codes
    = (respond 503 (Denied "No active stream configured" false false), codes).
Proof.
  intros js_now db_now vimeo code codes r Hwf Hr Hrev Hexp Hnone.
  assert (Hlen : String.length code = 6%nat).
  { unfold find_code in Hr.
    destruct (select_code (Js.toUpperCase code) codes) as [|a rest] eqn:Hsel;
      [discriminate|].
    simpl in Hr. inversion Hr; subst a.
    assert (Hin : In r (select_code (Js.toUpperCase code) codes))
      by (rewrite Hsel; now left).
    apply filter_In in Hin as [Hin Hc]. apply String.eqb_eq in Hc.
    rewrite Forall_forall in Hwf. specialize (Hwf r Hin).
    rewrite Hc, toUpperCase_length in Hwf. exact Hwf. }
  unfold handler. rewrite length_six_passes_format by assumption.
  unfold find_code in Hr.
  destruct (select_code (Js.toUpperCase code) codes) as [|a rest]; [discriminate|].
  simpl in Hr. inversion Hr; subst a. rewrite Hrev.
  apply Z.ltb_ge in Hexp. rewrite Hexp.
  apply select_active_none in Hnone. now rewrite Hnone.
Qed.

(** A validation leaves every code of the table as it was, so codes of
    6 characters stay so. *)
Lemma validation_keeps_code_length js_now db_now vimeo_passwords code codes :
  Forall (fun x => String.length (c_code x) = 6%nat) codes ->
  Forall (fun x => String.length (c_code x) = 6%nat)
         (snd (handler js_now db_now vimeo_passwords code codes)).
Proof.
  intros Hwf. unfold handler.
  destruct (String.eqb code "" || negb (String.length code =? 6)%nat); [exact Hwf|].
  destruct (select_code _ codes) as [|r rest]; [exact Hwf|].
  destruct (c_revoked r); [exact Hwf|].
  destruct (c_expires_at r <? js_now)%Z; [exact Hwf|].
  destruct (ActivePassword.select_active vimeo_passwords); [|exact Hwf].
  unfold update_usage. destruct (existsb _ codes); [exact Hwf|]. simpl.
  apply Forall_map. eapply Forall_impl; [|exact Hwf].
  intros x Hx. now destruct (Z.eqb (c_id x) (c_id r)).
Qed.

End VerifyStreamCodeFacts.

(** An input of three characters that matches no row is answered 400,
    not 404. *)
Lemma short_code_is_not_answered_not_found :
  ~ (forall (js_now db_now : Schema.timestamp) (vimeo_passwords : list vimeo_row)
            (code : string) (codes : list code_row),
        (forall r, In r codes -> c_code r <> Js.toUpperCase code) ->
        VerifyStreamCode.statusCode
          (fst (VerifyStreamCode.handler js_now db_now vimeo_passwords code codes))
        = 404%Z).
Proof.
  intros H.
  specialize (H 0%Z 0%Z Examples.live "abc" Examples.issued_codes).
  assert (Hno : forall r, In r Examples.issued_codes -> c_code r <> Js.toUpperCase "abc").
  { intros r [<-|[]]. discriminate. }
  specialize (H Hno). vm_compute in H. discriminate H.
Qed.

(** The example code, typed in lower case while the stream is live: the
    checks pass in order and the credentials are those of the active row. *)
Lemma validate_access_code_check_order_witness :
  VerifyStreamCode.handler 2000%Z 2001%Z Examples.live "k7m2qx" Examples.issued_codes
  = (VerifyStreamCode.respond 200
       (VerifyStreamCode.Granted "Ann Lee" "987654"
          (Some "https://vimeo.com/event/987654") "Hq7kPm2x" 100000%Z),
     [VerifyStreamCode.record_use 2001%Z Examples.fresh_code]).
Proof.
  pose proof (validate_access_code_check_order 2000%Z 2001%Z Examples.live "k7m2qx"
                Examples.issued_codes) as H.
  cbv zeta in H. destruct H as (_ & _ & _ & H & _).
  destruct (H Examples.fresh_code eq_refl eq_refl) as (_ & _ & _ & Hok).
  assert (Hexp : (2000 <= c_expires_at Examples.fresh_code)%Z) by (vm_compute; discriminate).
  destruct (Hok eq_refl Hexp Examples.live_row eq_refl) as (_ & _ & Hout).
  exact Hout.
Defined.

(** The three validations of the example: the count is 3, the first use
    is the time of the first validation, the last use that of the third. *)
Lemma validation_usage_tracking_witness :
  exists r',
    VerifyStreamCode.find_code "K7M2QX"
      (snd (VerifyStreamCode.run_calls Examples.three_calls Examples.issued_codes))
    = Some r' /\
    c_use_count r' = 3%Z /\
    c_first_used_at r' = Some 2001%Z /\
    c_last_used_at r' = Some 4001%Z.
Proof.
  destruct (validation_usage_tracking "K7M2QX" Examples.three_calls
              Examples.issued_codes Examples.fresh_code) as (r' & Hr & Hfields).
  - intros k [<-|[<-|[<-|[]]]]; reflexivity.
  - reflexivity.
  - cbv zeta in Hfields. destruct Hfields as (Hc & _ & Hf & Hl).
    exists r'. split; [exact Hr|]. split; [exact Hc|]. split; [exact Hf|exact Hl].
Defined.

(** The example code validated while no password is active. *)
Lemma validation_without_stream_changes_nothing_witness :
  VerifyStreamCode.handler 2000%Z 2001%Z Examples.off_air "k7m2qx" Examples.issued_codes
  = (VerifyStreamCode.respond 503
       (VerifyStreamCode.Denied "No active stream configured" false false),
     Examples.issued_codes).
Proof.
  apply (validation_without_stream_changes_nothing 2000%Z 2001%Z Examples.off_air
           "k7m2qx" Examples.issued_codes Examples.fresh_code).
  - repeat constructor.
  - reflexivity.
  - reflexivity.
  - vm_compute. discriminate.
  - intros v [<-|[]]. reflexivity.
Defined.

(** ** Absence check-in and access-code issuance *)

Lemma access_code_alphabet_size : String.length SubmitAbsence.chars = 31%nat.
Proof. reflexivity. Qed.

Lemma access_code_alphabet_distinct :
  NoDup (list_ascii_of_string SubmitAbsence.chars).
Proof.
  apply (NoDup_count_occ' ascii_dec). intros c Hc.
  unfold SubmitAbsence.chars in *. cbn [list_ascii_of_string] in *.
  repeat (destruct Hc as [<-|Hc]; [vm_compute; reflexivity|]). destruct Hc.
Qed.

Lemma access_code_alphabet_unambiguous :
  forall c, In c (list_ascii_of_string SubmitAbsence.confusing) ->
            ~ In c (list_ascii_of_string SubmitAbsence.chars).
Proof.
  intros c Hc Hin. unfold SubmitAbsence.confusing, SubmitAbsence.chars in *. cbn [list_ascii_of_string] in *.
  repeat (destruct Hc as [<-|Hc];
          [repeat (destruct Hin as [Hin|Hin]; [discriminate Hin|]); destruct Hin|]).
  destruct Hc.
Qed.

Lemma get_in s : forall i c, String.get i s = Some c -> In c (list_ascii_of_string s).
Proof.
  induction s as [|a s IH]; intros [|i] c; simpl; try discriminate.
  - intros H; inversion H; now left.
  - intros H; right; eauto.
Qed.

Lemma get_some s : forall i, (i < String.length s)%nat -> exists c, String.get i s = Some c.
Proof.
  induction s as [|a s IH]; intros [|i]; simpl; try lia; eauto.
  intros H. apply IH. lia.
Qed.

Section Issue.
Import SubmitAbsence.
Variable js_now : timestamp.
Variable new_code_id : nat -> uuid.
Variable randomInt : nat -> nat -> nat.
Variable insert_fault : nat -> option pg_error.

Hypothesis randomInt_range : forall k max, (0 < max)%nat -> (randomInt k max < max)%nat.

Lemma draw_chars_shape : forall n k,
  String.length (draw_chars randomInt n k) = n /\
  Forall (fun c => In c (list_ascii_of_string chars))
         (list_ascii_of_string (draw_chars randomInt n k)).
Proof.
  induction n as [|n IH]; intros k; cbn [draw_chars]; [split; constructor|].
  destruct (get_some chars (randomInt k (String.length chars))) as [c Hc].
  { apply randomInt_range. rewrite access_code_alphabet_size. lia. }
  unfold Js.char_at. rewrite Hc. destruct (IH (S k)) as [Hl Hall].
  cbn [String.length list_ascii_of_string].
  split; [now rewrite Hl|]. constructor; auto. eapply get_in; eauto.
Qed.

Variables (member_name phone10 : string) (checkin_id : uuid).

Let gen := generateAccessCode randomInt.
Let ins a codes :=
  attempt js_now new_code_id randomInt insert_fault a member_name phone10 checkin_id codes.
Let clash a codes :=
  collides js_now new_code_id randomInt insert_fault a member_name phone10 checkin_id codes.

Lemma code_loop_spec : forall left attempts codes,
  match code_loop js_now new_code_id randomInt insert_fault left attempts
          member_name phone10 checkin_id codes with
  | Generated accessCode a codes' =>
      (attempts <= a < attempts + left)%nat /\ accessCode = gen a /\
      ins a codes = inr codes' /\
      (forall j, (attempts <= j < a)%nat -> clash j codes)
  | Exhausted a =>
      a = (attempts + left)%nat /\
      (forall j, (attempts <= j < a)%nat -> clash j codes)
  | Thrown e a =>
      (attempts <= a < attempts + left)%nat /\
      ins a codes = inl e /\ sqlstate e <> "23505" /\
      (forall j, (attempts <= j < a)%nat -> clash j codes)
  end.
Proof.
  induction left as [|left IH]; intros attempts codes; simpl.
  - split; [lia|]. intros j Hj. lia.
  - fold (gen attempts). fold (ins attempts codes).
    destruct (ins attempts codes) as [e|codes'] eqn:Hins.
    + destruct (String.eqb (sqlstate e) "23505") eqn:Hst.
      * specialize (IH (S attempts) codes).
        assert (Hcol : clash attempts codes).
        { exists e. split; auto. now apply String.eqb_eq. }
        assert (Hext : forall a, (forall j, (S attempts <= j < a)%nat -> clash j codes) ->
                        forall j, (attempts <= j < a)%nat -> clash j codes).
        { intros a H j Hj. destruct (Nat.eq_dec j attempts) as [->|]; auto. apply H. lia. }
        destruct (code_loop _ _ _ _ left (S attempts) _ _ _ codes) as [c a cs|a|e' a].
        -- destruct IH as (Ha & Hc & Hi & Hall).
           split; [lia|]. split; [exact Hc|]. split; [exact Hi|]. now apply Hext.
        -- destruct IH as (Ha & Hall). split; [lia|]. now apply Hext.
        -- destruct IH as (Ha & Hi & Hne & Hall).
           split; [lia|]. split; [exact Hi|]. split; [exact Hne|]. now apply Hext.
      * split; [lia|]. split; auto. split; [now apply String.eqb_neq|].
        intros j Hj. lia.
    + split; [lia|]. repeat split; auto. intros j Hj. lia.
Qed.


Lemma attempt_accepted a codes codes' :
  ins a codes = inr codes' ->
  codes' = codes ++ [mkCode (new_code_id a) (gen a) member_name phone10 checkin_id
                       (js_now + 24 * 3600 * 1000)%Z None None 0%Z false] /\
  (forall r, In r codes -> c_code r <> gen a).
Proof.
  unfold ins, attempt, insert_code. fold gen.
  destruct (insert_fault a); [discriminate|].
  destruct (100 <? String.length member_name)%nat; [discriminate|].
  destruct (existsb (fun r => String.eqb (c_code r) (gen a)) codes) eqn:Hex; [discriminate|].
  intros H; inversion H; subst. split; auto.
  intros r Hr Heq.
  assert (Ht : existsb (fun r => String.eqb (c_code r) (gen a)) codes = true).
  { apply existsb_exists. exists r. split; auto. now apply String.eqb_eq. }
  congruence.
Qed.

(** The row the loop adds holds a code of 6 characters. *)
Lemma issued_code_has_six_characters codes accessCode a codes' :
  Forall (fun x => String.length (c_code x) = 6%nat) codes ->
  code_loop js_now new_code_id randomInt insert_fault 10 0
    member_name phone10 checkin_id codes = Generated accessCode a codes' ->
  Forall (fun x => String.length (c_code x) = 6%nat) codes'.
Proof.
  intros Hwf Hrun.
  pose proof (code_loop_spec 10 0 codes) as H. rewrite Hrun in H.
  destruct H as (_ & Hc & Hi & _). apply attempt_accepted in Hi as [-> _].
  apply Forall_app. split; [exact Hwf|]. constructor; [|constructor].
  simpl. unfold gen, generateAccessCode. apply draw_chars_shape.
Qed.

End Issue.

Lemma draw_chars_ext (f g : nat -> nat -> nat) : forall n k,
  (forall i, (i < n)%nat ->
     f (k + i)%nat (String.length SubmitAbsence.chars)
     = g (k + i)%nat (String.length SubmitAbsence.chars)) ->
  SubmitAbsence.draw_chars f n k = SubmitAbsence.draw_chars g n k.
Proof.
  induction n as [|n IH]; intros k H; cbn [SubmitAbsence.draw_chars]; auto.
  pose proof (H 0%nat ltac:(lia)) as H0. rewrite Nat.add_0_r in H0.
  rewrite H0, (IH (S k)); auto.
  intros i Hi. replace (S k + i)%nat with (k + S i)%nat by lia. apply H. lia.
Qed.

Section IssueClaim.
Import SubmitAbsence.
Variables js_now db_now : timestamp.
Variable new_code_id : nat -> uuid.
Variable twilio_configured : bool.
Variable randomInt : nat -> nat -> nat.
Variable insert_fault : nat -> option pg_error.
Variable twilio_send : string -> string -> option string.
Hypothesis randomInt_range : forall k max, (0 < max)%nat -> (randomInt k max < max)%nat.

(** C6, amended in the size of the alphabet.  The alphabet has 31
    distinct symbols and none of 0, O, I, 1, L.  A generated code has 6
    characters of the alphabet and is made of six draws of its own.  The
    loop ends in one of three ways: a code was inserted at attempt [a]
    below 10, after [a] attempts that each ended in a unique violation,
    the code is the one drawn for attempt [a], no row held it, and its
    row is added with an expiry 24 hours ahead; or ten attempts each
    ended in a unique violation, which the handler reports as "Unable to
    generate access code"; or an attempt ended in another error, which is
    thrown at that attempt with no attempt after it. *)
Theorem access_code_issuance :
  (String.length chars = 31%nat /\
   NoDup (list_ascii_of_string chars) /\
   (forall c, In c (list_ascii_of_string confusing) ->
              ~ In c (list_ascii_of_string chars))) /\
  (forall a,
     String.length (generateAccessCode randomInt a) = 6%nat /\
     Forall (fun c => In c (list_ascii_of_string chars))
            (list_ascii_of_string (generateAccessCode randomInt a)) /\
     (forall other : nat -> nat -> nat,
        (forall i, (i < 6)%nat ->
           other (6 * a + i)%nat (String.length chars)
           = randomInt (6 * a + i)%nat (String.length chars)) ->
        generateAccessCode other a = generateAccessCode randomInt a)) /\
  (forall (member_name phone10 : string) (checkin_id : uuid) (codes : list code_row),
     match code_loop js_now new_code_id randomInt insert_fault 10 0
             member_name phone10 checkin_id codes with
     | Generated accessCode a codes' =>
         (a < 10)%nat /\ accessCode = generateAccessCode randomInt a /\
         codes' = codes ++ [mkCode (new_code_id a) accessCode member_name phone10
                              checkin_id (js_now + 24 * 3600 * 1000)%Z None None 0%Z false] /\
         (forall r, In r codes -> c_code r <> accessCode) /\
         (forall j, (j < a)%nat ->
            collides js_now new_code_id randomInt insert_fault j
              member_name phone10 checkin_id codes)
     | Exhausted a =>
         a = 10%nat /\
         (forall j, (j < 10)%nat ->
            collides js_now new_code_id randomInt insert_fault j
              member_name phone10 checkin_id codes)
     | Thrown e a =>
         (a < 10)%nat /\
         attempt js_now new_code_id randomInt insert_fault a
           member_name phone10 checkin_id codes = inl e /\
         sqlstate e <> "23505" /\
         (forall j, (j < a)%nat ->
            collides js_now new_code_id randomInt insert_fault j
              member_name phone10 checkin_id codes)
     end) /\
  (forall (req : request) (checkin : checkin_row) (s : db) (v : vimeo_row) (a : nat),
     twilio_configured = true ->
     ActivePassword.select_active (vimeo_passwords s) = Some v ->
     code_loop js_now new_code_id randomInt insert_fault 10 0
       (Js.trim (name req)) (k_phone checkin) (k_id checkin) (stream_access_codes s)
     = Exhausted a ->
     send_link js_now db_now new_code_id twilio_configured randomInt insert_fault
       twilio_send req checkin s
     = (false, Some "Unable to generate access code", s)).
Proof.
  split; [|split; [|split]].
  - split; [reflexivity|]. split; [apply access_code_alphabet_distinct|].
    apply access_code_alphabet_unambiguous.
  - intros a. unfold generateAccessCode.
    destruct (draw_chars_shape randomInt randomInt_range 6 (6 * a)) as [Hl Hall].
    split; [exact Hl|]. split; [exact Hall|].
    intros other Hsame. now apply draw_chars_ext.
  - intros member_name phone10 checkin_id codes.
    pose proof (code_loop_spec js_now new_code_id randomInt insert_fault
                  member_name phone10 checkin_id 10 0 codes) as H.
    destruct (code_loop js_now new_code_id randomInt insert_fault 10 0
                member_name phone10 checkin_id codes) as [c a cs|a|e a].
    + destruct H as (Ha & Hc & Hi & Hall). subst c.
      apply attempt_accepted in Hi as [Hcs Hfresh].
      split; [lia|]. split; [reflexivity|]. split; [exact Hcs|]. split; [exact Hfresh|].
      intros j Hj. apply Hall. lia.
    + destruct H as (Ha & Hall). split; [lia|]. intros j Hj. apply Hall. lia.
    + destruct H as (Ha & Hi & Hne & Hall).
      split; [lia|]. split; [exact Hi|]. split; [exact Hne|].
      intros j Hj. apply Hall. lia.
  - intros req checkin s v a Htw Hv Hloop.
    unfold send_link. now rewrite Hv, Htw, Hloop.
Qed.

End IssueClaim.

(** The alphabet of the access codes has 31 symbols, not 32. *)
Lemma access_code_alphabet_is_not_32 :
  String.length SubmitAbsence.chars <> 32%nat.
Proof. rewrite access_code_alphabet_size. discriminate. Qed.

Lemma sample_randomInt_range :
  forall k max, (0 < max)%nat -> (Examples.sample_randomInt k max < max)%nat.
Proof.
  intros k max Hmax. unfold Examples.sample_randomInt.
  apply Nat.mod_upper_bound. lia.
Qed.

(** The example: the code of the first attempt is taken, the second
    attempt inserts its code. *)
Lemma access_code_issuance_witness :
  exists codes',
    SubmitAbsence.code_loop 5000%Z Examples.code_ids Examples.sample_randomInt
      Examples.no_fault 10 0 "Cy Doe" "5551234567" 12%Z Examples.taken
    = SubmitAbsence.Generated
        (SubmitAbsence.generateAccessCode Examples.sample_randomInt 1) 1 codes' /\
    String.length (SubmitAbsence.generateAccessCode Examples.sample_randomInt 1) = 6%nat /\
    List.length codes' = 2%nat.
Proof.
  destruct (access_code_issuance 5000%Z 0%Z Examples.code_ids true
              Examples.sample_randomInt Examples.no_fault Examples.twilio_accepts
              sample_randomInt_range) as (_ & Hshape & Hloop & _).
  specialize (Hloop "Cy Doe" "5551234567" 12%Z Examples.taken).
  destruct (SubmitAbsence.code_loop 5000%Z Examples.code_ids Examples.sample_randomInt
              Examples.no_fault 10 0 "Cy Doe" "5551234567" 12%Z Examples.taken)
    as [c a cs|a|e a] eqn:Hrun.
  - exists cs. vm_compute in Hrun. inversion Hrun; subst.
    split; [reflexivity|]. split; [apply Hshape|reflexivity].
  - vm_compute in Hrun. discriminate.
  - vm_compute in Hrun. discriminate.
Defined.

Section Absence.
Import SubmitAbsence.
Variable date_in : string -> option pg_date.
Variable today : string.
Variables js_now db_now : timestamp.
Variable new_checkin_id : uuid.
Variable new_code_id : nat -> uuid.
Variable twilio_configured : bool.
Variable randomInt : nat -> nat -> nat.
Variable insert_fault : nat -> option pg_error.
Variable twilio_send : string -> string -> option string.

Let run := handler date_in today js_now db_now new_checkin_id new_code_id
             twilio_configured randomInt insert_fault twilio_send.

Lemma select_members_nil digits ms :
  select_members digits ms = [] <->
  (forall m p, In m ms -> m_phone m = Some p -> last10Digits p <> digits).
Proof.
  unfold select_members. split.
  - intros H m p Hm Hp Heq.
    assert (Hin : In m (filter (fun m => match m_phone m with
                                         | Some p => String.eqb (last10Digits p) digits
                                         | None => false end) ms)).
    { apply filter_In. split; auto. rewrite Hp. now apply String.eqb_eq. }
    rewrite H in Hin. destruct Hin.
  - intros H. induction ms as [|a l IH]; simpl; auto.
    destruct (m_phone a) as [p|] eqn:Hp.
    + destruct (String.eqb_spec (last10Digits p) digits) as [Heq|_].
      * exfalso. apply (H a p); auto. now left.
      * apply IH. intros m q Hm. apply H. now right.
    + apply IH. intros m q Hm. apply H. now right.
Qed.

Lemma select_members_cons digits ms m rest :
  select_members digits ms = m :: rest ->
  exists p, In m ms /\ m_phone m = Some p /\ last10Digits p = digits.
Proof.
  intros H.
  assert (Hin : In m (select_members digits ms)) by (rewrite H; now left).
  unfold select_members in Hin. apply filter_In in Hin as [Hin Hp].
  destruct (m_phone m) as [p|]; [|discriminate].
  exists p. apply String.eqb_eq in Hp. auto.
Qed.

Lemma valid_reason_spec r :
  existsb (String.eqb r) validReasons = true <-> In r validReasons.
Proof.
  rewrite existsb_exists. split.
  - intros [x [Hx Heq]]. apply String.eqb_eq in Heq. now subst.
  - intros H. exists r. split; auto. apply String.eqb_refl.
Qed.

(** C9, amended by the field validation.  A request with a blank name,
    a blank phone or a reason outside the four kinds is answered 400 and
    writes nothing.  A request that passes this validation and whose
    phone, reduced to its last 10 digits, is the reduced phone of no
    member is answered 403 with [notMember: true] and writes nothing.
    Whenever the table of check-ins changes, some member's reduced phone
    is the reduced phone of the request. *)
Theorem absence_requires_member :
  forall (req : request) (s : db),
    let out := run req s in
    (Js.is_blank (name req) = true \/ Js.is_blank (phone req) = true \/
     ~ In (reason req) validReasons ->
       status_of (fst out) = 400%Z /\ snd out = s) /\
    (Js.is_blank (name req) = false -> Js.is_blank (phone req) = false ->
     In (reason req) validReasons ->
     (forall m p, In m (members s) -> m_phone m = Some p ->
                  last10Digits p <> last10Digits (phone req)) ->
       out = (Failure 403 "Phone number not found in member directory. Please contact the church office if you believe this is an error." true, s)) /\
    (absentee_checkins (snd out) <> absentee_checkins s ->
       exists m p, In m (members s) /\ m_phone m = Some p /\
                   last10Digits p = last10Digits (phone req)).
Proof.
  intros req s out. unfold out, run, handler. split; [|split].
  - intros H.
    destruct (Js.is_blank (name req)) eqn:Hn; [split; reflexivity|].
    destruct (Js.is_blank (phone req)) eqn:Hp; [split; reflexivity|].
    destruct (String.eqb (reason req) ""); [split; reflexivity|].
    destruct (existsb (String.eqb (reason req)) validReasons) eqn:Hr;
      [|split; reflexivity].
    apply valid_reason_spec in Hr.
    destruct H as [H|[H|H]]; [discriminate|discriminate|contradiction].
  - intros Hn Hp Hr Hnone. rewrite Hn, Hp.
    assert (Hne : String.eqb (reason req) "" = false).
    { apply String.eqb_neq. intros Heq. rewrite Heq in Hr.
      unfold validReasons in Hr. simpl in Hr.
      repeat (destruct Hr as [Hr|Hr]; [discriminate|]). destruct Hr. }
    rewrite Hne. apply valid_reason_spec in Hr. rewrite Hr. simpl.
    apply select_members_nil in Hnone. now rewrite Hnone.
  - destruct (Js.is_blank (name req)); [intros H; now elim H|].
    destruct (Js.is_blank (phone req)); [intros H; now elim H|].
    destruct (String.eqb (reason req) ""); [intros H; now elim H|].
    destruct (negb (existsb (String.eqb (reason req)) validReasons));
      [intros H; now elim H|].
    destruct (select_members (last10Digits (phone req)) (members s)) as [|m rest] eqn:Hsel;
      [intros H; now elim H|].
    intros _. apply select_members_cons in Hsel as [p Hp]. now exists m, p.
Qed.

End Absence.

(** A request without a name whose phone matches no member is answered
    400, not 403. *)
Lemma nameless_stranger_is_not_answered_403 :
  ~ (forall (req : SubmitAbsence.request) (s : SubmitAbsence.db),
        (forall m p, In m (SubmitAbsence.members s) -> m_phone m = Some p ->
           SubmitAbsence.last10Digits p
           <> SubmitAbsence.last10Digits (SubmitAbsence.phone req)) ->
        SubmitAbsence.status_of
          (fst (SubmitAbsence.handler Examples.date_in "2024-05-05" 5000%Z 5001%Z 12%Z
                  Examples.code_ids true Examples.sample_randomInt Examples.no_fault
                  Examples.twilio_accepts req s))
        = 403%Z).
Proof.
  intros H. specialize (H Examples.nameless Examples.store).
  assert (Hno : forall m p, In m (SubmitAbsence.members Examples.store) ->
                  m_phone m = Some p ->
                  SubmitAbsence.last10Digits p
                  <> SubmitAbsence.last10Digits (SubmitAbsence.phone Examples.nameless)).
  { intros m p [<-|[<-|[]]] Hp; inversion Hp; subst. vm_compute. discriminate. }
  specialize (H Hno). vm_compute in H. discriminate H.
Qed.

(** The scenario of the specification: the phone 555-123-4567 of no
    member, on a request that is otherwise complete. *)
Lemma absence_requires_member_witness :
  SubmitAbsence.handler Examples.date_in "2024-05-05" 5000%Z 5001%Z 12%Z
    Examples.code_ids true Examples.sample_randomInt Examples.no_fault
    Examples.twilio_accepts Examples.stranger Examples.store
  = (SubmitAbsence.Failure 403 "Phone number not found in member directory. Please contact the church office if you believe this is an error." true,
     Examples.store).
Proof.
  pose proof (absence_requires_member Examples.date_in "2024-05-05" 5000%Z 5001%Z 12%Z
                Examples.code_ids true Examples.sample_randomInt Examples.no_fault
                Examples.twilio_accepts Examples.stranger Examples.store) as H.
  cbv zeta in H. destruct H as (_ & H & _). apply H.
  - reflexivity.
  - reflexivity.
  - left. reflexivity.
  - intros m p [<-|[<-|[]]] Hp; inversion Hp; subst. vm_compute. discriminate.
Defined.

(** ** Livestream password rotation *)

Lemma password_alphabet_size : String.length PasswordRotation.chars = 55%nat.
Proof. reflexivity. Qed.

Lemma password_alphabet_distinct :
  NoDup (list_ascii_of_string PasswordRotation.chars).
Proof.
  apply (NoDup_count_occ' ascii_dec). intros c Hc.
  unfold PasswordRotation.chars in *. cbn [list_ascii_of_string] in *.
  repeat (destruct Hc as [<-|Hc]; [vm_compute; reflexivity|]). destruct Hc.
Qed.

Lemma password_alphabet_alphanumeric :
  forallb PasswordRotation.alphanumeric
    (list_ascii_of_string PasswordRotation.chars) = true.
Proof. vm_compute. reflexivity. Qed.

Section PasswordFacts.
Import PasswordRotation.
Variable randomBytes : nat -> nat.

Lemma password_from_shape : forall n i,
  String.length (password_from randomBytes n i) = n /\
  (forall j, (j < n)%nat ->
     String.get j (password_from randomBytes n i)
     = String.get (randomBytes (i + j) mod String.length chars) chars) /\
  Forall (fun c => In c (list_ascii_of_string chars))
         (list_ascii_of_string (password_from randomBytes n i)).
Proof.
  induction n as [|n IH]; intros i; cbn [password_from].
  - split; [reflexivity|]. split; [intros j Hj; lia|constructor].
  - destruct (get_some chars (randomBytes i mod String.length chars)) as [c Hc].
    { apply Nat.mod_upper_bound. rewrite password_alphabet_size. discriminate. }
    unfold Js.char_at. rewrite Hc.
    destruct (IH (S i)) as (Hl & Hget & Hall).
    cbn [String.length list_ascii_of_string]. split; [now rewrite Hl|]. split.
    + intros [|j] Hj; cbn [String.get].
      * now rewrite Nat.add_0_r.
      * rewrite Hget by lia. now replace (S i + j)%nat with (i + S j)%nat by lia.
    + constructor; auto. eapply get_in; eauto.
Qed.

Lemma deactivate_all_inactive l : filter v_active (deactivate_all l) = [].
Proof.
  induction l as [|v l IH]; simpl; auto.
  destruct (v_active v) eqn:Ha; simpl; [exact IH|]. now rewrite Ha.
Qed.

Lemma insert_password_shape id now vid pw url rt l l' :
  insert_password id now vid pw url rt l = Some l' ->
  l' = l ++ [mkVimeo id vid pw url true rt now].
Proof.
  unfold insert_password.
  destruct (_ || _ || _); [discriminate|]. intros H; now inversion H.
Qed.

End PasswordFacts.

Section RotationClaims.
Import PasswordRotation.
Variable randomBytes : nat -> nat.
Variable VIMEO_VIDEO_ID : string.
Variable new_id : uuid.
Variable db_now : timestamp.



(** C8, amended in the size of the alphabet.  The alphabet has 55
    distinct symbols, each a letter or a digit.  A generated password has
    exactly 8 characters; character [j] is the symbol at index
    [randomBytes j mod 55], so each is drawn by a byte of its own.  A
    manual rotation that is given no password, and every scheduled
    rotation, stores the generated password. *)
Theorem generated_password_shape :
  (String.length chars = 55%nat /\
   NoDup (list_ascii_of_string chars) /\
   forallb alphanumeric (list_ascii_of_string chars) = true) /\
  (String.length (generatePassword randomBytes 8) = 8%nat /\
   (forall j, (j < 8)%nat ->
      String.get j (generatePassword randomBytes 8)
      = String.get (randomBytes j mod 55) chars) /\
   Forall (fun c => In c (list_ascii_of_string chars))
          (list_ascii_of_string (generatePassword randomBytes 8))) /\
  (forall (token : bool) (push : string -> string -> option string)
          (req : request) (l l' : list vimeo_row) (u : bool) (e : option string),
     password req = "" ->
     manual_rotation randomBytes VIMEO_VIDEO_ID token push new_id db_now req l
     = (Rotated u e, l') ->
     exists new, l' = deactivate_all l ++ [new] /\
                 v_password new = generatePassword randomBytes 8) /\
  (forall (token : bool) (push : string -> string -> option string)
          (sch sch' : list schedule_row) (l l' : list vimeo_row)
          (u : bool) (e : option string),
     scheduled_rotation randomBytes VIMEO_VIDEO_ID token push new_id db_now sch l
     = (Rotated u e, sch', l') ->
     exists new, l' = deactivate_all l ++ [new] /\
                 v_password new = generatePassword randomBytes 8).
Proof.
  split; [|split; [|split]].
  - split; [reflexivity|]. split; [apply password_alphabet_distinct|].
    apply password_alphabet_alphanumeric.
  - unfold generatePassword.
    destruct (password_from_shape randomBytes 8 0) as (Hl & Hget & Hall).
    split; [exact Hl|]. split; [|exact Hall].
    intros j Hj. rewrite (Hget j Hj), password_alphabet_size. reflexivity.
  - intros token push req l l' u e Hpw. unfold manual_rotation. rewrite Hpw.
    destruct (String.eqb (if String.eqb (videoId req) "" then VIMEO_VIDEO_ID else videoId req) "");
      [discriminate|].
    rewrite String.eqb_refl.
    destruct (push_manual token push _ _) as [u0 e0].
    destruct (insert_password _ _ _ _ _ _ _) as [l2|] eqn:Hins; [|discriminate].
    intros H; inversion H; subst; clear H.
    apply insert_password_shape in Hins. eexists. split; [exact Hins|reflexivity].
  - intros token push sch sch' l l' u e. unfold scheduled_rotation.
    destruct (filter s_enabled sch); [discriminate|].
    destruct (String.eqb _ ""); [discriminate|].
    destruct (insert_password _ _ _ _ _ _ _) as [l2|] eqn:Hins; [|discriminate].
    intros H; inversion H; subst; clear H.
    apply insert_password_shape in Hins. eexists. split; [exact Hins|reflexivity].
Qed.

End RotationClaims.

(** The alphabet of the passwords has 55 symbols, not 58. *)
Lemma password_alphabet_is_not_58 :
  String.length PasswordRotation.chars <> 58%nat.
Proof. rewrite password_alphabet_size. discriminate. Qed.


(** The manual rotation of the example stores a password of 8
    characters that the generator made. *)
Lemma generated_password_shape_witness :
  exists new,
    Examples.after_manual = PasswordRotation.deactivate_all Examples.live ++ [new] /\
    v_password new = PasswordRotation.generatePassword Examples.sample_bytes 8 /\
    String.length (v_password new) = 8%nat.
Proof.
  destruct (generated_password_shape Examples.sample_bytes "987654" 2%Z 20%Z)
    as (_ & (Hlen & _) & Hmanual & _).
  destruct (Hmanual true Examples.provider_down Examples.rotate_now Examples.live
              Examples.after_manual false
              (Some "Vimeo API error: 503 - unavailable"))
    as (new & Hl & Hpw).
  - reflexivity.
  - vm_compute. reflexivity.
  - exists new. split; [exact Hl|]. split; [exact Hpw|]. now rewrite Hpw.
Defined.

(* ================================================================== *)
(** * Part II, continued: further properties of the handlers *)
(* ================================================================== *)

(** ** More on the attendance recorder *)

Section RecorderAnswers.
Import RecordAttendance.
Variable date_in : string -> option pg_date.
Variable fails : statement -> bool.
Variable members : list string.
Variable now : timestamp.








(** X3.  During a call other sessions read the table before the call
    after every statement but a successful COMMIT, and the table after
    the call from then on: the snapshots of the call, newest first, are
    copies of the old table, under the new table when the answer is 200.
    No transaction stays open. *)
Theorem recorder_shows_old_then_new :
  forall (req : request) (c c' : client) (resp : response),
    idle c ->
    handler date_in fails members now req c = (resp, c') ->
    exists olds,
      Forall (eq (committed c)) olds /\
      visible_log c'
      = (if (statusCode resp =? 200)%Z then committed c' :: olds else olds)
        ++ visible_log c /\
      (statusCode resp <> 200%Z -> committed c' = committed c) /\
      open_txn c' = None.
Proof.
  intros req c c' resp Hidle. unfold handler.
  destruct (attendeeIds req) as [ids|].
  2:{ intros H; inversion H; subst. exists []. repeat split; auto. }
  destruct (String.eqb (date req) "" || String.eqb (serviceType req) "").
  { intros H; inversion H; subst. exists []. repeat split; auto. }
  destruct (transaction _ _ _ _ _ _ _ c) as [[e|[ins del]] c1] eqn:Ht;
    intros H; inversion H; subst; clear H.
  - apply transaction_aborts in Ht as (Hc & new & Hlog & Hall); auto.
    exists (committed c :: new). simpl. rewrite Hc, Hlog. repeat split; auto.
  - apply transaction_commits in Ht as (d & _ & _ & Hopen & _ & _ & _ & mid & Hlog & Hall);
      auto.
    exists mid. simpl. rewrite Hlog. repeat split; auto.
    intros Hne. now elim Hne.
Qed.

End RecorderAnswers.



(** The snapshots of the resubmission of the example: the new table
    above three copies of the recorded one. *)
Lemma recorder_shows_old_then_new_witness :
  exists olds,
    Forall (eq Examples.recorded) olds /\
    RecordAttendance.visible_log
      (snd (RecordAttendance.handler Examples.date_in Examples.no_failure
              Examples.member_ids 2000%Z Examples.resubmission Examples.pooled_client))
    = (RecordAttendance.committed
         (snd (RecordAttendance.handler Examples.date_in Examples.no_failure
                 Examples.member_ids 2000%Z Examples.resubmission
                 Examples.pooled_client)) :: olds) ++ [].
Proof.
  destruct (recorder_shows_old_then_new Examples.date_in Examples.no_failure
              Examples.member_ids 2000%Z Examples.resubmission Examples.pooled_client
              (snd (RecordAttendance.handler Examples.date_in Examples.no_failure
                      Examples.member_ids 2000%Z Examples.resubmission
                      Examples.pooled_client))
              (fst (RecordAttendance.handler Examples.date_in Examples.no_failure
                      Examples.member_ids 2000%Z Examples.resubmission
                      Examples.pooled_client)))
    as (olds & Hall & Hlog & _).
  - reflexivity.
  - vm_compute. reflexivity.
  - exists olds. split; [exact Hall|exact Hlog].
Defined.

(** ** More on the absence engine *)

Section ReportFacts.
Import MemberAbsenceReport.
Variable date_in : string -> option pg_date.


End ReportFacts.

Lemma attendance_rate_table_120 :
  forallb (fun t =>
     forallb (fun a =>
        match MemberAbsenceReport.attendance_rate (Z.of_nat a) (Z.of_nat t) with
        | Some r =>
            if (0 <? t)%nat && (40 * a =? 23 * t)%nat then Z.eqb r 57
            else Z.eqb r (MemberAbsenceReport.specified_rate (Z.of_nat a) (Z.of_nat t))
        | None => false
        end) (seq 0 (S t))) (seq 0 121) = true.
Proof. vm_compute. reflexivity. Qed.

(** X5.  For up to 120 occurred services the reported rate is the
    percentage rounded to the nearest integer, a tie going up, with one
    exception: when the member attended 23 of every 40 services the rate
    is 57 where the percentage is 57.5. *)
Theorem attendance_rate_up_to_120_services :
  forall attended occurred : nat,
    (occurred <= 120)%nat -> (attended <= occurred)%nat ->
    MemberAbsenceReport.attendance_rate (Z.of_nat attended) (Z.of_nat occurred)
    = Some (if (0 <? occurred)%nat && (40 * attended =? 23 * occurred)%nat
            then 57%Z
            else MemberAbsenceReport.specified_rate
                   (Z.of_nat attended) (Z.of_nat occurred)).
Proof.
  intros a t Ht Ha.
  pose proof attendance_rate_table_120 as H.
  rewrite forallb_forall in H. specialize (H t).
  assert (Hin : In t (seq 0 121)) by (apply in_seq; lia).
  specialize (H Hin). rewrite forallb_forall in H. specialize (H a).
  assert (Hin' : In a (seq 0 (S t))) by (apply in_seq; lia).
  specialize (H Hin').
  destruct (MemberAbsenceReport.attendance_rate (Z.of_nat a) (Z.of_nat t)) as [r|];
    [|discriminate].
  destruct ((0 <? t)%nat && (40 * a =? 23 * t)%nat);
    apply Z.eqb_eq in H; now subst.
Qed.

(** Seven of eight services is 87.5 percent, reported as 88. *)
Lemma attendance_rate_up_to_120_services_witness :
  MemberAbsenceReport.attendance_rate 7 8 = Some 88%Z.
Proof.
  exact (attendance_rate_up_to_120_services 7 8 ltac:(lia) ltac:(lia)).
Defined.

Section RecordThenReport.
Variable date_in : string -> option pg_date.
Variable fails : RecordAttendance.statement -> bool.
Variable member_ids : list string.
Variable now : timestamp.


End RecordThenReport.



(** ** More on access codes *)

Section ValidationFrame.
Import VerifyStreamCode.

(** X7.  A validation keeps the number and order of the rows; of each
    row it keeps the id, the code, the member name, the phone, the
    check-in, the expiry and the revoked flag; and it changes a row only
    when the answer is 200 and the row has the id of the row found for the
    code, by one usage update. *)
Theorem validation_touches_usage_columns_only :
  forall (js_now db_now : timestamp) (vimeo_passwords : list vimeo_row)
         (code : string) (codes : list code_row),
    let out := handler js_now db_now vimeo_passwords code codes in
    Forall2
      (fun r r' =>
         c_id r' = c_id r /\ c_code r' = c_code r /\
         c_member_name r' = c_member_name r /\ c_phone r' = c_phone r /\
         c_absentee_checkin_id r' = c_absentee_checkin_id r /\
         c_expires_at r' = c_expires_at r /\ c_revoked r' = c_revoked r /\
         (r' = r \/
          (statusCode (fst out) = 200%Z /\
           (exists found, find_code (Js.toUpperCase code) codes = Some found
                          /\ c_id r = c_id found) /\
           r' = record_use db_now r)))
      codes (snd out).
Proof.
  intros js_now db_now vimeo code codes out.
  assert (Hsame : forall (R : code_row -> code_row -> Prop),
            (forall r, R r r) -> Forall2 R codes codes).
  { intros R HR. clear - HR. induction codes; constructor; auto. }
  specialize (Hsame
    (fun r r' =>
       c_id r' = c_id r /\ c_code r' = c_code r /\
       c_member_name r' = c_member_name r /\ c_phone r' = c_phone r /\
       c_absentee_checkin_id r' = c_absentee_checkin_id r /\
       c_expires_at r' = c_expires_at r /\ c_revoked r' = c_revoked r /\
       (r' = r \/
        (statusCode (fst out) = 200%Z /\
         (exists found, find_code (Js.toUpperCase code) codes = Some found
                        /\ c_id r = c_id found) /\
         r' = record_use db_now r)))).
  cbv beta in Hsame. specialize (Hsame ltac:(intros; auto 10)).
  revert Hsame. unfold out, handler.
  destruct (String.eqb code "" || negb (String.length code =? 6)%nat); [auto|].
  unfold find_code.
  destruct (select_code (Js.toUpperCase code) codes) as [|found rest] eqn:Hsel; [auto|].
  destruct (c_revoked found); [auto|].
  destruct (c_expires_at found <? js_now)%Z; [auto|].
  destruct (ActivePassword.select_active vimeo); [|auto].
  unfold update_usage. destruct (existsb _ codes); [auto|].
  intros _. simpl.
  clear Hsel out. induction codes as [|r l IH]; simpl; constructor; auto.
  destruct (Z.eqb (c_id r) (c_id found)) eqn:Hid.
  - apply Z.eqb_eq in Hid. repeat split; auto. right. repeat split; auto.
    exists found. auto.
  - repeat split; auto.
Qed.

End ValidationFrame.

Lemma access_code_symbols_are_upper_case :
  forall c, In c (list_ascii_of_string SubmitAbsence.chars) -> Js.upper_char c = c.
Proof.
  apply Forall_forall.
  unfold SubmitAbsence.chars. cbn [list_ascii_of_string].
  repeat constructor.
Qed.

Lemma toUpperCase_fixes s :
  Forall (fun c => Js.upper_char c = c) (list_ascii_of_string s) ->
  Js.toUpperCase s = s.
Proof.
  induction s as [|c s IH]; cbn [list_ascii_of_string Js.toUpperCase]; auto.
  intros H. inversion H; subst. f_equal; auto.
Qed.

Lemma select_code_app n l1 l2 :
  VerifyStreamCode.select_code n (l1 ++ l2)
  = VerifyStreamCode.select_code n l1 ++ VerifyStreamCode.select_code n l2.
Proof. apply filter_app. Qed.

Lemma update_usage_other_ids db_now id l :
  (forall r, In r l -> c_id r <> id) ->
  existsb (fun r => Z.eqb (c_id r) id
                    && (int4_max <? c_use_count r + 1)%Z) l = false /\
  map (fun r => if Z.eqb (c_id r) id
                then VerifyStreamCode.record_use db_now r else r) l = l.
Proof.
  induction l as [|r l IH]; intros H; simpl; [auto|].
  assert (Hr : Z.eqb (c_id r) id = false).
  { apply Z.eqb_neq. apply H. now left. }
  rewrite Hr. simpl. destruct IH as [IH1 IH2]; [intros; apply H; now right|].
  rewrite IH1, IH2. auto.
Qed.

Section IssueThenValidate.
Import SubmitAbsence.
Variable issued_at : timestamp.
Variable new_code_id : nat -> uuid.
Variable randomInt : nat -> nat -> nat.
Variable insert_fault : nat -> option pg_error.

(** X8.  A code the issuing loop has stored opens the stream for
    24 hours.  When the ids of the rows are distinct and a password is
    active, the code typed in any letter case is answered 200 with the
    member name of the check-in, the active credentials and the expiry
    24 hours after the issue, up to and including that instant, and the
    new row then shows one use; from the next millisecond on the answer is
    403, expired, and the table stays as it is.  The code drawn is its
    own upper-case form. *)
Theorem issued_code_validates_until_expiry :
  forall (member_name phone10 : string) (checkin_id : uuid)
         (codes codes' : list code_row) (accessCode : string) (a : nat)
         (typed : string) (js_now db_now : timestamp)
         (vimeo_passwords : list vimeo_row) (v : vimeo_row),
    (forall k max, (0 < max)%nat -> (randomInt k max < max)%nat) ->
    code_loop issued_at new_code_id randomInt insert_fault 10 0
      member_name phone10 checkin_id codes = Generated accessCode a codes' ->
    (forall r, In r codes -> c_id r <> new_code_id a) ->
    Js.toUpperCase typed = accessCode ->
    ActivePassword.select_active vimeo_passwords = Some v ->
    let expiry := (issued_at + 24 * 3600 * 1000)%Z in
    Js.toUpperCase accessCode = accessCode /\
    ((js_now <= expiry)%Z ->
     VerifyStreamCode.handler js_now db_now vimeo_passwords typed codes'
     = (VerifyStreamCode.respond 200
          (VerifyStreamCode.Granted member_name (v_video_id v) (v_video_url v)
             (v_password v) expiry),
        codes ++ [mkCode (new_code_id a) accessCode member_name phone10 checkin_id
                    expiry (Some db_now) (Some db_now) 1%Z false])) /\
    ((expiry < js_now)%Z ->
     VerifyStreamCode.handler js_now db_now vimeo_passwords typed codes'
     = (VerifyStreamCode.respond 403
          (VerifyStreamCode.Denied "This access code has expired" false true),
        codes')).
Proof.
  intros member_name phone10 checkin_id codes codes' accessCode a typed js_now db_now
         vimeo v Hrange Hrun Hids Htyped Hactive expiry.
  pose proof (code_loop_spec issued_at new_code_id randomInt insert_fault
                member_name phone10 checkin_id 10 0 codes) as Hspec.
  rewrite Hrun in Hspec. destruct Hspec as (_ & Hcode & Hins & _).
  apply attempt_accepted in Hins as [Hcodes' Hfresh].
  rewrite <- Hcode in Hcodes', Hfresh.
  destruct (draw_chars_shape randomInt Hrange 6 (6 * a)) as [Hlen Hsyms].
  fold (generateAccessCode randomInt a) in Hlen, Hsyms. rewrite <- Hcode in Hlen, Hsyms.
  assert (Hup : Js.toUpperCase accessCode = accessCode).
  { apply toUpperCase_fixes. eapply Forall_impl; [|exact Hsyms].
    apply access_code_symbols_are_upper_case. }
  split; [exact Hup|].
  assert (Hfmt : String.eqb typed "" || negb (String.length typed =? 6)%nat = false).
  { apply length_six_passes_format.
    now rewrite <- (toUpperCase_length typed), Htyped. }
  assert (Hsel : VerifyStreamCode.select_code accessCode codes'
                 = [mkCode (new_code_id a) accessCode member_name phone10 checkin_id
                      expiry None None 0%Z false]).
  { rewrite Hcodes', select_code_app.
    apply (select_code_nil accessCode codes) in Hfresh. rewrite Hfresh.
    unfold VerifyStreamCode.select_code. simpl. now rewrite String.eqb_refl. }
  unfold VerifyStreamCode.handler. rewrite Hfmt, Htyped, Hsel.
  cbn [c_revoked c_expires_at c_id c_member_name]. split.
  - intros Hle. apply Z.ltb_ge in Hle. rewrite Hle, Hactive.
    unfold VerifyStreamCode.update_usage.
    destruct (update_usage_other_ids db_now (new_code_id a) codes Hids) as [He Hm].
    rewrite Hcodes', existsb_app, He, map_app, Hm. simpl.
    rewrite Z.eqb_refl. reflexivity.
  - intros Hlt. apply Z.ltb_lt in Hlt. now rewrite Hlt.
Qed.

End IssueThenValidate.

(** The second attempt of the example loop stores RY7ENV at time 1000; typed
    in lower case at the last instant of its 24 hours it opens the
    stream. *)
Lemma issued_code_validates_until_expiry_witness :
  VerifyStreamCode.handler 86401000%Z 86401005%Z Examples.live "ry7env"
    (Examples.taken
     ++ [mkCode 101%Z "RY7ENV" "Ann Lee" "5550102000" 11%Z 86401000%Z None None 0%Z false])
  = (VerifyStreamCode.respond 200
       (VerifyStreamCode.Granted "Ann Lee" "987654"
          (Some "https://vimeo.com/event/987654") "Hq7kPm2x" 86401000%Z),
     Examples.taken
     ++ [mkCode 101%Z "RY7ENV" "Ann Lee" "5550102000" 11%Z 86401000%Z
           (Some 86401005%Z) (Some 86401005%Z) 1%Z false]).
Proof.
  destruct (issued_code_validates_until_expiry 1000%Z Examples.code_ids
              Examples.sample_randomInt Examples.no_fault
              "Ann Lee" "5550102000" 11%Z Examples.taken
              (Examples.taken
               ++ [mkCode 101%Z "RY7ENV" "Ann Lee" "5550102000" 11%Z 86401000%Z
                     None None 0%Z false])
              "RY7ENV" 1%nat "ry7env" 86401000%Z 86401005%Z Examples.live
              Examples.live_row)
    as (_ & Hopen & _).
  - exact sample_randomInt_range.
  - vm_compute. reflexivity.
  - intros r [<-|[]]. vm_compute. discriminate.
  - reflexivity.
  - reflexivity.
  - apply Hopen. vm_compute. discriminate.
Defined.

(** ** More on password rotation *)

Lemma select_active_after_insert l new :
  v_active new = true ->
  ActivePassword.select_active (PasswordRotation.deactivate_all l ++ [new]) = Some new.
Proof.
  intros Hact. unfold ActivePassword.select_active.
  rewrite filter_app, deactivate_all_inactive. simpl. now rewrite Hact.
Qed.


Lemma deactivate_all_length l :
  List.length (PasswordRotation.deactivate_all l) = List.length l.
Proof. apply length_map. Qed.

Lemma insert_password_refused id now vid pw url rt l :
  PasswordRotation.insert_password id now vid pw url rt l = None <->
  (100 < String.length vid \/ 100 < String.length pw \/ 20 < String.length rt)%nat.
Proof.
  unfold PasswordRotation.insert_password.
  destruct (Nat.ltb_spec 100 (String.length vid));
  destruct (Nat.ltb_spec 100 (String.length pw));
  destruct (Nat.ltb_spec 20 (String.length rt)); simpl;
  split; intros Hx; auto; try discriminate; lia.
Qed.

Lemma granted_reads_active js_now db_now l code codes m vid url pw ex :
  VerifyStreamCode.resp_body (fst (VerifyStreamCode.handler js_now db_now l code codes))
  = VerifyStreamCode.Granted m vid url pw ex ->
  exists v, ActivePassword.select_active l = Some v /\
            vid = v_video_id v /\ url = v_video_url v /\ pw = v_password v.
Proof.
  unfold VerifyStreamCode.handler.
  destruct (String.eqb code "" || negb (String.length code =? 6)%nat); [discriminate|].
  destruct (VerifyStreamCode.select_code _ codes) as [|r rest]; [discriminate|].
  destruct (c_revoked r); [discriminate|].
  destruct (c_expires_at r <? js_now)%Z; [discriminate|].
  destruct (ActivePassword.select_active l) as [v|]; [|discriminate].
  destruct (VerifyStreamCode.update_usage db_now (c_id r) codes); [|discriminate].
  simpl. intros H; inversion H; subst. exists v. auto.
Qed.

Section RotationEffects.
Import PasswordRotation.
Variable randomBytes : nat -> nat.
Variable VIMEO_VIDEO_ID : string.
Variable VIMEO_ACCESS_TOKEN : bool.
Variable updateVimeoPassword : string -> string -> option string.
Variable new_id : uuid.
Variable db_now : timestamp.

Let manual := manual_rotation randomBytes VIMEO_VIDEO_ID VIMEO_ACCESS_TOKEN
                updateVimeoPassword new_id db_now.
Let scheduled := scheduled_rotation randomBytes VIMEO_VIDEO_ID VIMEO_ACCESS_TOKEN
                   updateVimeoPassword new_id db_now.

(** The three ways the POST branch ends. *)
Lemma manual_rotation_cases req l :
  let vid := if String.eqb (videoId req) "" then VIMEO_VIDEO_ID else videoId req in
  let pw := if String.eqb (password req) "" then generatePassword randomBytes 8
            else password req in
  let rt := if String.eqb (rotationType req) "" then "manual" else rotationType req in
  (vid = "" /\ status_of (fst (manual req l)) = 400%Z /\ snd (manual req l) = l) \/
  (vid <> "" /\
   (100 < String.length vid \/ 100 < String.length pw \/ 20 < String.length rt)%nat /\
   status_of (fst (manual req l)) = 500%Z /\ snd (manual req l) = deactivate_all l) \/
  (vid <> "" /\
   (String.length vid <= 100 /\ String.length pw <= 100 /\ String.length rt <= 20)%nat /\
   exists u e url,
     manual req l
     = (Rotated u e, deactivate_all l ++ [mkVimeo new_id vid pw url true rt db_now])).
Proof.
  intros vid pw rt. unfold manual, manual_rotation. fold vid pw rt.
  destruct (String.eqb vid "") eqn:Hv.
  - left. apply String.eqb_eq in Hv. auto.
  - right. apply String.eqb_neq in Hv.
    destruct (push_manual VIMEO_ACCESS_TOKEN updateVimeoPassword vid pw) as [u e].
    match goal with |- context [insert_password ?i ?n ?a ?b ?c ?d ?t] =>
      destruct (insert_password i n a b c d t) as [l2|] eqn:Hins;
      [pose proof (insert_password_shape _ _ _ _ _ _ _ _ Hins) as Hl;
       assert (Hok : ~ (100 < String.length vid \/ 100 < String.length pw
                        \/ 20 < String.length rt)%nat)
         by (intros Hbad; apply (insert_password_refused i n a b c d t) in Hbad; congruence)
      |apply insert_password_refused in Hins]
    end.
    + right. split; [exact Hv|]. split; [lia|].
      eexists. eexists. eexists. rewrite Hl. reflexivity.
    + left. auto.
Qed.

(** The four ways the scheduled job ends. *)
Lemma scheduled_rotation_cases sch l :
  let current := ActivePassword.select_active l in
  let vid := match current with Some v => v_video_id v | None => VIMEO_VIDEO_ID end in
  let url := match current with Some v => v_video_url v | None => None end in
  let pw := generatePassword randomBytes 8 in
  (filter s_enabled sch = [] /\ scheduled sch l = (Disabled, sch, l)) \/
  (filter s_enabled sch <> [] /\ vid = "" /\
   scheduled sch l = (Failure 400 "No video ID configured", sch, l)) \/
  (filter s_enabled sch <> [] /\ vid <> "" /\ (100 < String.length vid)%nat /\
   scheduled sch l = (Failure 500 "Failed to rotate password", sch, deactivate_all l)) \/
  (filter s_enabled sch <> [] /\ vid <> "" /\ (String.length vid <= 100)%nat /\
   exists u,
     (u = true <-> VIMEO_ACCESS_TOKEN = true /\ updateVimeoPassword vid pw = None) /\
     scheduled sch l
     = (Rotated u None, touch_schedule db_now sch,
        deactivate_all l ++ [mkVimeo new_id vid pw url true "scheduled" db_now])).
Proof.
  intros current vid url pw. unfold scheduled, scheduled_rotation.
  fold current. fold vid url pw.
  destruct (filter s_enabled sch) as [|s0 ss] eqn:Hen; [left; auto|right].
  assert (Hne : s0 :: ss <> []) by discriminate.
  destruct (String.eqb vid "") eqn:Hv.
  - left. apply String.eqb_eq in Hv. auto.
  - right. apply String.eqb_neq in Hv.
    assert (Hpw : String.length pw = 8%nat) by apply password_from_shape.
    match goal with |- context [insert_password ?i ?n ?a ?b ?c ?d ?t] =>
      destruct (insert_password i n a b c d t) as [l2|] eqn:Hins;
      [pose proof (insert_password_shape _ _ _ _ _ _ _ _ Hins) as Hl;
       assert (Hok : ~ (100 < String.length vid \/ 100 < String.length pw
                        \/ 20 < String.length "scheduled")%nat)
         by (intros Hbad; apply (insert_password_refused i n a b c d t) in Hbad; congruence)
      |apply insert_password_refused in Hins]
    end.
    + right. split; [exact Hne|]. split; [exact Hv|]. split; [lia|].
      eexists. split; [|rewrite Hl; reflexivity].
      destruct VIMEO_ACCESS_TOKEN; [|split; [discriminate|intros [H _]; discriminate]].
      destruct (updateVimeoPassword vid pw); split; auto; try discriminate.
      intros [_ H]; discriminate.
    + left. split; [exact Hne|]. split; [exact Hv|]. split; [|reflexivity].
      simpl in Hins. lia.
Qed.

(** X9.  After a rotation that ran to its end, manual or scheduled, the
    password read for the viewers is the row the rotation inserted, and
    every validation answered with credentials carries the password,
    video id and URL of that row, whatever the creation times of the
    older rows. *)
Theorem rotated_password_reaches_viewers :
  forall (req : request) (sch sch' : list schedule_row) (l l' : list vimeo_row)
         (u : bool) (e : option string),
    manual req l = (Rotated u e, l') \/ scheduled sch l = (Rotated u e, sch', l') ->
    exists new,
      l' = deactivate_all l ++ [new] /\
      ActivePassword.select_active l' = Some new /\
      forall (js_now t : timestamp) (code : string) (codes : list code_row)
             (m vid : string) (url : option string) (pw : string) (ex : timestamp),
        VerifyStreamCode.resp_body
          (fst (VerifyStreamCode.handler js_now t l' code codes))
        = VerifyStreamCode.Granted m vid url pw ex ->
        vid = v_video_id new /\ url = v_video_url new /\ pw = v_password new.
Proof.
  intros req sch sch' l l' u e Hrun.
  assert (Hnew : exists new, l' = deactivate_all l ++ [new] /\ v_active new = true).
  { destruct Hrun as [Hrun|Hrun].
    - destruct (manual_rotation_cases req l)
        as [(_ & Hs & _)|[(_ & _ & Hs & _)|(_ & _ & u0 & e0 & url & Heq)]];
        try (rewrite Hrun in Hs; discriminate Hs).
      rewrite Hrun in Heq. inversion Heq; subst. eexists. split; reflexivity.
    - destruct (scheduled_rotation_cases sch l)
        as [(_ & Heq)|[(_ & _ & Heq)|[(_ & _ & _ & Heq)|(_ & _ & _ & u0 & _ & Heq)]]];
        rewrite Hrun in Heq; try discriminate Heq.
      inversion Heq; subst. eexists. split; reflexivity. }
  destruct Hnew as (new & Hl & Hact). exists new. split; [exact Hl|].
  assert (Hsel : ActivePassword.select_active l' = Some new).
  { rewrite Hl. now apply select_active_after_insert. }
  split; [exact Hsel|].
  intros js_now t code codes m vid url pw ex Hg.
  apply granted_reads_active in Hg as (v & Hv & -> & -> & ->).
  rewrite Hsel in Hv. inversion Hv; subst. auto.
Qed.


(** X11.  The scheduled job changes nothing when no schedule row is
    enabled.  When it rotates, the new row takes the video id and the URL
    of the row that was active, or the video id of the environment and no
    URL when none was; its rotation type is "scheduled"; [vimeoUpdated] is
    true exactly when a token is configured and the provider accepted the
    password; and [last_run] is set on the enabled schedule rows and on
    no other.  A job that ends in 400 or 500 leaves the schedule as it
    was. *)
Theorem scheduled_rotation_follows_current_stream :
  forall (sch : list schedule_row) (l : list vimeo_row),
    let current := ActivePassword.select_active l in
    let vid := match current with Some v => v_video_id v | None => VIMEO_VIDEO_ID end in
    let url := match current with Some v => v_video_url v | None => None end in
    let resp := fst (fst (scheduled sch l)) in
    let sch' := snd (fst (scheduled sch l)) in
    let l' := snd (scheduled sch l) in
    ((forall s, In s sch -> s_enabled s = false) ->
     resp = Disabled /\ sch' = sch /\ l' = l) /\
    (forall u e,
       resp = Rotated u e ->
       e = None /\
       (u = true <-> VIMEO_ACCESS_TOKEN = true /\
                     updateVimeoPassword vid (generatePassword randomBytes 8) = None) /\
       l' = deactivate_all l
            ++ [mkVimeo new_id vid (generatePassword randomBytes 8) url true
                  "scheduled" db_now] /\
       Forall2 (fun s s' =>
                  s_enabled s' = s_enabled s /\
                  s_last_run s' = if s_enabled s then Some db_now else s_last_run s)
               sch sch') /\
    ((forall u e, resp <> Rotated u e) -> sch' = sch).
Proof.
  intros sch l current vid url resp sch' l'.
  assert (Hoff : (forall s, In s sch -> s_enabled s = false) -> filter s_enabled sch = []).
  { clear. induction sch as [|s t IH]; simpl; auto. intros H.
    rewrite (H s (or_introl eq_refl)). apply IH. intros; apply H; now right. }
  assert (Htouch : Forall2 (fun s s' =>
                     s_enabled s' = s_enabled s /\
                     s_last_run s' = if s_enabled s then Some db_now else s_last_run s)
                     sch (touch_schedule db_now sch)).
  { clear. induction sch as [|s t IH]; simpl; constructor; auto.
    destruct (s_enabled s) eqn:Hs; simpl; rewrite ?Hs; auto. }
  unfold resp, sch', l'.
  destruct (scheduled_rotation_cases sch l)
    as [(Hen & Heq)|[(Hen & Hv & Heq)|[(Hen & Hv & Hlen & Heq)|(Hen & Hv & Hlen & u0 & Hu & Heq)]]];
    rewrite Heq; simpl.
  - split; [auto|]. split; [intros u e H; discriminate|auto].
  - split; [intros H; apply Hoff in H; contradiction|].
    split; [intros u e H; discriminate|auto].
  - split; [intros H; apply Hoff in H; contradiction|].
    split; [intros u e H; discriminate|auto].
  - split; [intros H; apply Hoff in H; contradiction|].
    split.
    + intros u e H. inversion H; subst. fold current. fold vid url. auto.
    + intros H. exfalso. apply (H u0 None). reflexivity.
Qed.

End RotationEffects.

(** The manual rotation of the example: the row it inserted is the one
    read for the viewers. *)
Lemma rotated_password_reaches_viewers_witness :
  exists new,
    Examples.after_manual = PasswordRotation.deactivate_all Examples.live ++ [new] /\
    ActivePassword.select_active Examples.after_manual = Some new.
Proof.
  destruct (rotated_password_reaches_viewers Examples.sample_bytes "987654" true
              Examples.provider_down 2%Z 20%Z Examples.rotate_now [] []
              Examples.live Examples.after_manual false
              (Some "Vimeo API error: 503 - unavailable"))
    as (new & Hl & Hsel & _).
  - left. reflexivity.
  - exists new. split; [exact Hl|exact Hsel].
Defined.


(** The scheduled rotation of the example, after the manual one: the new
    row keeps the video and the URL of the row the manual rotation left
    active. *)
Lemma scheduled_rotation_follows_current_stream_witness :
  snd (PasswordRotation.scheduled_rotation Examples.sample_bytes "" true
         Examples.provider_up 3%Z 30%Z Examples.weekly Examples.after_manual)
  = PasswordRotation.deactivate_all Examples.after_manual
    ++ [mkVimeo 3%Z "987654" (PasswordRotation.generatePassword Examples.sample_bytes 8)
          (Some "https://vimeo.com/event/987654") true "scheduled" 30%Z].
Proof.
  destruct (scheduled_rotation_follows_current_stream Examples.sample_bytes "" true
              Examples.provider_up 3%Z 30%Z Examples.weekly Examples.after_manual)
    as (_ & Hrot & _).
  destruct (Hrot true None eq_refl) as (_ & _ & Hl & _). exact Hl.
Defined.

(** X12.  The byte of a position selects the symbol by its remainder
    modulo 55, and 256 is no multiple of 55: of the 256 values of the
    byte, five select each of the first 36 symbols of the alphabet and
    four select each of the other 19. *)
Theorem generated_password_symbol_weights :
  forall (i : nat) (c : ascii),
    String.get i PasswordRotation.chars = Some c ->
    List.length
      (filter (fun b => String.eqb (PasswordRotation.generatePassword (fun _ => b) 1)
                                   (String c ""))
              (seq 0 256))
    = if (i <? 36)%nat then 5%nat else 4%nat.
Proof.
  intros i c Hget.
  assert (Hi : (i < 55)%nat).
  { destruct (Nat.lt_ge_cases i 55) as [H|H]; [exact H|].
    exfalso. revert Hget. unfold PasswordRotation.chars.
    do 55 (destruct i as [|i]; [lia|]). simpl. discriminate. }
  do 55 (destruct i as [|i];
         [vm_compute in Hget; inversion Hget; subst c; vm_compute; reflexivity|]).
  lia.
Qed.

(** The symbol K, at index 9, is selected by the bytes 9, 64, 119, 174 and
    229. *)
Lemma generated_password_symbol_weights_witness :
  List.length
    (filter (fun b => String.eqb (PasswordRotation.generatePassword (fun _ => b) 1) "K")
            (seq 0 256))
  = 5%nat.
Proof.
  apply (generated_password_symbol_weights 9 "K"%char). reflexivity.
Defined.

(** ** More on the absence check-in *)

Lemma strip_non_digits_digits s :
  Forall (fun c => Js.is_digit c = true)
         (list_ascii_of_string (Js.strip_non_digits s)).
Proof.
  induction s as [|c s IH]; simpl; [constructor|].
  destruct (Js.is_digit c) eqn:Hc; simpl; auto.
Qed.

Lemma strip_non_digits_fixes s :
  Forall (fun c => Js.is_digit c = true) (list_ascii_of_string s) ->
  Js.strip_non_digits s = s.
Proof.
  induction s as [|c s IH]; simpl; auto.
  intros H. inversion H as [|? ? Hc Hs]; subst. rewrite Hc. f_equal. auto.
Qed.

Lemma strip_non_digits_app s t :
  Js.strip_non_digits (s ++ t)%string
  = (Js.strip_non_digits s ++ Js.strip_non_digits t)%string.
Proof.
  induction s as [|c s IH]; simpl; auto.
  destruct (Js.is_digit c); simpl; now rewrite IH.
Qed.

Lemma substring_all s : substring 0 (String.length s) s = s.
Proof. induction s as [|c s IH]; simpl; auto. now rewrite IH. Qed.

Lemma substring_skip pre : forall n s,
  substring (String.length pre) n (pre ++ s)%string = substring 0 n s.
Proof. induction pre as [|c pre IH]; intros n s; simpl; auto. Qed.

Lemma string_length_app s t :
  String.length (s ++ t)%string = (String.length s + String.length t)%nat.
Proof. induction s as [|c s IH]; simpl; auto. Qed.

Lemma slice_last_suffix n pre d :
  String.length d = n -> Js.slice_last n (pre ++ d)%string = d.
Proof.
  intros Hn. unfold Js.slice_last. rewrite string_length_app, Hn.
  replace (String.length pre + n - n)%nat with (String.length pre) by lia.
  rewrite substring_skip, <- Hn. apply substring_all.
Qed.

Lemma slice_last_short n s :
  (String.length s <= n)%nat -> Js.slice_last n s = s.
Proof.
  intros Hn. unfold Js.slice_last.
  replace (String.length s - n)%nat with 0%nat by lia.
  revert n Hn. induction s as [|c s IH]; intros [|n] Hn; simpl in *; auto; try lia.
  f_equal. apply IH. lia.
Qed.

Lemma string_split_at k : forall s,
  (k <= String.length s)%nat ->
  exists pre d, s = (pre ++ d)%string /\ String.length pre = k.
Proof.
  induction k as [|k IH]; intros s Hk.
  - exists ""%string, s. auto.
  - destruct s as [|c s]; simpl in Hk; [lia|].
    destruct (IH s ltac:(lia)) as (pre & d & -> & Hl).
    exists (String c pre), d. simpl. auto.
Qed.

Lemma list_ascii_app s t :
  list_ascii_of_string (s ++ t)%string
  = list_ascii_of_string s ++ list_ascii_of_string t.
Proof. induction s as [|c s IH]; simpl; auto. now rewrite IH. Qed.

Lemma formatPhone_eq phone :
  SubmitAbsence.formatPhone phone
  = ((if (String.length (Js.strip_non_digits phone) =? 10)%nat then "+1" else "+")
     ++ Js.strip_non_digits phone)%string.
Proof.
  pose proof (strip_non_digits_digits phone) as Hd.
  unfold SubmitAbsence.formatPhone.
  set (cleaned := Js.strip_non_digits phone) in *.
  assert (Hplus : String.prefix "+" cleaned = false).
  { destruct cleaned as [|c s]; [reflexivity|]. cbn [String.prefix].
    inversion Hd as [|? ? Hc _]; subst.
    destruct (ascii_dec "+" c) as [<-|Hne]; [discriminate Hc|reflexivity]. }
  destruct (String.length cleaned =? 10)%nat; [reflexivity|].
  rewrite Hplus. simpl.
  destruct ((String.length cleaned =? 11)%nat && String.prefix "1" cleaned);
    reflexivity.
Qed.

(** X13.  For a phone that is not empty, the number handed to the SMS
    provider is always a plus sign followed by the digits of the phone,
    with a 1 between them when there are exactly ten digits: the stripped
    text holds digits only, so the last branch of [formatPhone], which
    returns it unchanged, is never taken. *)
Theorem formatPhone_is_plus_and_digits :
  forall phone : string,
    phone <> "" ->
    let cleaned := Js.strip_non_digits phone in
    SubmitAbsence.formatPhone phone
    = ((if (String.length cleaned =? 10)%nat then "+1" else "+") ++ cleaned)%string /\
    Forall (fun c => Js.is_digit c = true) (list_ascii_of_string cleaned) /\
    SubmitAbsence.formatPhone phone <> cleaned.
Proof.
  intros phone _ cleaned.
  assert (Hd : Forall (fun c => Js.is_digit c = true) (list_ascii_of_string cleaned))
    by apply strip_non_digits_digits.
  pose proof (formatPhone_eq phone) as Heq. fold cleaned in Heq.
  split; [exact Heq|]. split; [exact Hd|].
  rewrite Heq. intros Hbad.
  apply (f_equal String.length) in Hbad. rewrite string_length_app in Hbad.
  destruct (String.length cleaned =? 10)%nat; simpl in Hbad; lia.
Qed.

Lemma last10Digits_cases phone :
  let cleaned := Js.strip_non_digits phone in
  (String.length cleaned <= 10)%nat /\ SubmitAbsence.last10Digits phone = cleaned
  \/ exists pre last, cleaned = (pre ++ last)%string
                      /\ String.length last = 10%nat
                      /\ SubmitAbsence.last10Digits phone = last.
Proof.
  intros cleaned. unfold SubmitAbsence.last10Digits. fold cleaned.
  destruct (Nat.le_gt_cases (String.length cleaned) 10) as [Hle|Hgt].
  - left. split; [exact Hle|now apply slice_last_short].
  - right. destruct (string_split_at (String.length cleaned - 10) cleaned ltac:(lia))
      as (pre & last & Heq & Hl).
    exists pre, last. split; [exact Heq|].
    assert (Hlast : String.length last = 10%nat).
    { rewrite Heq, string_length_app in Hl, Hgt. lia. }
    split; [exact Hlast|]. rewrite Heq. now apply slice_last_suffix.
Qed.

Lemma last10Digits_digits phone :
  (String.length (SubmitAbsence.last10Digits phone) <= 10)%nat /\
  Forall (fun c => Js.is_digit c = true)
         (list_ascii_of_string (SubmitAbsence.last10Digits phone)).
Proof.
  pose proof (strip_non_digits_digits phone) as Hd.
  destruct (last10Digits_cases phone) as [[Hle ->]|(pre & last & Heq & Hl & ->)]; [auto|].
  split; [lia|]. rewrite Heq, list_ascii_app in Hd. apply Forall_app in Hd. tauto.
Qed.

Lemma last10Digits_idem phone :
  SubmitAbsence.last10Digits (SubmitAbsence.last10Digits phone)
  = SubmitAbsence.last10Digits phone.
Proof.
  destruct (last10Digits_digits phone) as [Hlen Hdig].
  unfold SubmitAbsence.last10Digits at 1.
  rewrite (strip_non_digits_fixes _ Hdig). now apply slice_last_short.
Qed.

(** X14.  The ten digits by which a phone is matched and stored: they
    are digits, at most ten; they are the last ten digits of the phone
    when it has at least ten, whatever stands before them and between
    them, and all its digits when it has fewer; and taking them again
    changes nothing. *)
Theorem last_ten_digits_ignore_format_and_prefix :
  forall phone : string,
    let d := SubmitAbsence.last10Digits phone in
    (String.length d <= 10)%nat /\
    Forall (fun c => Js.is_digit c = true) (list_ascii_of_string d) /\
    SubmitAbsence.last10Digits d = d /\
    ((String.length (Js.strip_non_digits phone) <= 10)%nat ->
     d = Js.strip_non_digits phone) /\
    (forall pre last : string,
       Js.strip_non_digits phone = (pre ++ last)%string ->
       String.length last = 10%nat -> d = last).
Proof.
  intros phone d. unfold d.
  destruct (last10Digits_digits phone) as [Hlen Hdig].
  split; [exact Hlen|]. split; [exact Hdig|].
  split; [apply last10Digits_idem|].
  unfold SubmitAbsence.last10Digits. split.
  - intros Hle. now apply slice_last_short.
  - intros pre last Heq Hl. rewrite Heq. now apply slice_last_suffix.
Qed.

(** A phone of ten digits with punctuation. *)
Lemma formatPhone_is_plus_and_digits_witness :
  SubmitAbsence.formatPhone "(555) 010-2000" = "+15550102000".
Proof.
  destruct (formatPhone_is_plus_and_digits "(555) 010-2000") as (Heq & _).
  - discriminate.
  - rewrite Heq. reflexivity.
Defined.

(** A phone with country code and punctuation. *)
Lemma last_ten_digits_ignore_format_and_prefix_witness :
  SubmitAbsence.last10Digits "+1 (555) 010-2000" = "5550102000".
Proof.
  destruct (last_ten_digits_ignore_format_and_prefix "+1 (555) 010-2000")
    as (_ & _ & _ & _ & Hlast).
  apply (Hlast "1"%string "5550102000"%string); reflexivity.
Defined.

Section CheckinEffects.
Import SubmitAbsence.
Variable date_in : string -> option pg_date.
Variable today : string.
Variables js_now db_now : timestamp.
Variable new_checkin_id : uuid.
Variable new_code_id : nat -> uuid.
Variable twilio_configured : bool.
Variable randomInt : nat -> nat -> nat.
Variable insert_fault : nat -> option pg_error.
Variable twilio_send : string -> string -> option string.

Let run := handler date_in today js_now db_now new_checkin_id new_code_id
             twilio_configured randomInt insert_fault twilio_send.
Let send := send_link js_now db_now new_code_id twilio_configured randomInt
              insert_fault twilio_send.

Lemma mark_sent_other id l :
  (forall k, In k l -> k_id k <> id) -> mark_sent db_now id l = l.
Proof.
  induction l as [|k l IH]; intros H; simpl; auto.
  assert (Hk : Z.eqb (k_id k) id = false).
  { apply Z.eqb_neq. apply H. now left. }
  rewrite Hk, IH; auto. intros; apply H; now right.
Qed.

(** What the SMS step does to the store. *)
Lemma send_link_effects req checkin s sent err s' :
  send req checkin s = (sent, err, s') ->
  members s' = members s /\ vimeo_passwords s' = vimeo_passwords s /\
  (if sent
   then absentee_checkins s' = mark_sent db_now (k_id checkin) (absentee_checkins s)
        /\ twilio_configured = true
        /\ ActivePassword.select_active (vimeo_passwords s) <> None
   else absentee_checkins s' = absentee_checkins s /\ exists msg, err = Some msg) /\
  (stream_access_codes s' = stream_access_codes s /\ sent = false \/
   exists code a,
     stream_access_codes s'
     = stream_access_codes s
       ++ [mkCode (new_code_id a) code (Js.trim (name req)) (k_phone checkin)
             (k_id checkin) (js_now + 24 * 3600 * 1000)%Z None None 0%Z false] /\
     (sent = true <-> twilio_send (formatPhone (phone req)) code = None)) /\
  (twilio_configured = false \/ ActivePassword.select_active (vimeo_passwords s) = None ->
   s' = s).
Proof.
  unfold send, send_link.
  destruct (ActivePassword.select_active (vimeo_passwords s)) as [v|] eqn:Hv;
    destruct twilio_configured eqn:Htw.
  2,3,4: intros H; inversion H; subst; repeat split; eauto.
  pose proof (code_loop_spec js_now new_code_id randomInt insert_fault
                (Js.trim (name req)) (k_phone checkin) (k_id checkin) 10 0
                (stream_access_codes s)) as Hspec.
  destruct (code_loop _ _ _ _ 10 0 _ _ _ _) as [code a codes'|a|e a].
  - destruct Hspec as (_ & Hcode & Hins & _).
    apply attempt_accepted in Hins as [Hcodes' _]. rewrite <- Hcode in Hcodes'.
    destruct (twilio_send (formatPhone (phone req)) code) as [msg|] eqn:Hsms;
      intros H; inversion H; subst; simpl.
    + split; [reflexivity|]. split; [reflexivity|]. split; [eauto|].
      split; [|intros [Hx|Hx]; discriminate].
      right. eexists. exists a. split; [reflexivity|]. rewrite Hsms.
      split; discriminate.
    + split; [reflexivity|]. split; [reflexivity|].
      split; [repeat split; discriminate|].
      split; [|intros [Hx|Hx]; discriminate].
      right. eexists. exists a. split; [reflexivity|]. rewrite Hsms. tauto.
  - intros H; inversion H; subst. repeat split; eauto.
  - intros H; inversion H; subst. repeat split; eauto.
Qed.

(** A check-in that was answered 200 is in the table, marked as sent
    when the SMS was. *)
Lemma recorded_checkin_is_stored req s k sent err s' :
  run req s = (Recorded k sent err, s') ->
  k_phone k = last10Digits (phone req) /\
  k_reason k = reason req /\ In (reason req) validReasons /\
  k_livestream_sent k = false /\ k_livestream_sent_at k = None /\
  In (mkCheckin (k_id k) (k_name k) (k_phone k) (k_reason k) (k_prayer_request k)
        (k_service_date k) sent (if sent then Some db_now else None) (k_created_at k))
     (absentee_checkins s').
Proof.
  unfold run, handler.
  destruct (Js.is_blank (name req)); [discriminate|].
  destruct (Js.is_blank (phone req)); [discriminate|].
  destruct (String.eqb (reason req) ""); [discriminate|].
  destruct (existsb (String.eqb (reason req)) validReasons) eqn:Hr; [|discriminate].
  apply valid_reason_spec in Hr. cbn [negb].
  destruct (select_members _ (members s)) as [|member rest]; [discriminate|].
  destruct (date_in _) as [d|]; [|discriminate].
  destruct (255 <? String.length (Js.trim (name req)))%nat; [discriminate|].
  fold send.
  match goal with |- context [send req ?k0 ?s1] =>
    destruct (send req k0 s1) as [[sent0 err0] s2] eqn:Hsend;
    apply send_link_effects in Hsend as (_ & _ & Habs & _)
  end.
  intros H; inversion H; subst; clear H. cbn [k_reason k_livestream_sent
    k_livestream_sent_at k_id k_name k_phone k_prayer_request k_service_date k_created_at].
  split; [reflexivity|].
  split; [reflexivity|]. split; [exact Hr|]. split; [reflexivity|]. split; [reflexivity|].
  cbn [absentee_checkins k_id] in Habs. destruct sent.
  - destruct Habs as (-> & _). unfold mark_sent.
    apply in_map_iff. eexists. split; [|apply in_or_app; right; now left].
    cbn. now rewrite Z.eqb_refl.
  - destruct Habs as (-> & _). apply in_or_app. right. now left.
Qed.

(** X15.  A check-in that passes the checks is stored whatever becomes
    of the SMS.  When the name and the phone are not blank, the reason is
    one of the four, a member has the same last ten digits, the date text
    is a date and the trimmed name has at most 255 characters, the answer
    is 200 and the check-in table is the old one followed by one row with
    the trimmed name, the ten digits, the reason and the date; the row is
    marked as sent exactly when [smsSent] is true, and [smsError] is null
    exactly then.  The members and the passwords stay as they are, at most
    one access code is added, it is bound to this check-in and expires 24
    hours later, and one is added whenever the SMS was sent. *)
Theorem checkin_is_stored_whatever_the_sms :
  forall (req : request) (s : db) (m : member_row) (p : string) (d : pg_date),
    Js.is_blank (name req) = false ->
    Js.is_blank (phone req) = false ->
    In (reason req) validReasons ->
    In m (members s) -> m_phone m = Some p ->
    last10Digits p = last10Digits (phone req) ->
    date_in (if String.eqb (serviceDate req) "" then today else serviceDate req) = Some d ->
    (String.length (Js.trim (name req)) <= 255)%nat ->
    (forall k, In k (absentee_checkins s) -> k_id k <> new_checkin_id) ->
    let prayer := Js.trim (prayerRequest req) in
    let stored sent :=
      mkCheckin new_checkin_id (Js.trim (name req)) (last10Digits (phone req))
        (reason req) (if String.eqb prayer "" then None else Some prayer) d
        sent (if sent then Some db_now else None) db_now in
    exists sent err s',
      run req s = (Recorded (stored false) sent err, s') /\
      (if sent then err = None else exists msg, err = Some msg) /\
      members s' = members s /\ vimeo_passwords s' = vimeo_passwords s /\
      absentee_checkins s' = absentee_checkins s ++ [stored sent] /\
      (stream_access_codes s' = stream_access_codes s /\ sent = false \/
       exists code a,
         stream_access_codes s'
         = stream_access_codes s
           ++ [mkCode (new_code_id a) code (Js.trim (name req))
                 (last10Digits (phone req)) new_checkin_id
                 (js_now + 24 * 3600 * 1000)%Z None None 0%Z false] /\
         (sent = true <-> twilio_send (formatPhone (phone req)) code = None)) /\
      (twilio_configured = false
       \/ ActivePassword.select_active (vimeo_passwords s) = None ->
       sent = false /\ stream_access_codes s' = stream_access_codes s).
Proof.
  intros req s m p d Hname Hphone Hreason Hm Hp Hdigits Hdate Hlen Hfresh prayer stored.
  assert (Hr1 : String.eqb (reason req) "" = false).
  { apply String.eqb_neq. intros Heq. rewrite Heq in Hreason.
    simpl in Hreason. repeat (destruct Hreason as [Hreason|Hreason]; [discriminate|]).
    exact Hreason. }
  apply valid_reason_spec in Hreason.
  assert (Hsel : select_members (last10Digits (phone req)) (members s) <> []).
  { intros Hnil. rewrite select_members_nil in Hnil. exact (Hnil m p Hm Hp Hdigits). }
  unfold run, handler. rewrite Hname, Hphone, Hr1, Hreason. cbn [negb].
  destruct (select_members _ (members s)) as [|member rest]; [congruence|].
  rewrite Hdate. apply Nat.ltb_ge in Hlen. rewrite Hlen.
  fold prayer. fold send.
  match goal with |- context [send req ?k ?s1] =>
    destruct (send req k s1) as [[sent err] s2] eqn:Hsend;
    apply send_link_effects in Hsend as (Hmem & Hvim & Habs & Hcodes & Hoff)
  end.
  cbn [members vimeo_passwords absentee_checkins stream_access_codes k_id k_phone] in *.
  exists sent, (if sent then None else err), s2.
  split; [reflexivity|].
  assert (Hmark : mark_sent db_now new_checkin_id (absentee_checkins s ++ [stored false])
                  = absentee_checkins s ++ [stored true]).
  { pose proof (mark_sent_other _ _ Hfresh) as Hold. unfold mark_sent in *.
    rewrite map_app, Hold. simpl. now rewrite Z.eqb_refl. }
  destruct sent.
  - destruct Habs as (Habs & Htw & Hact).
    split; [reflexivity|]. split; [exact Hmem|]. split; [exact Hvim|].
    split; [now rewrite Habs|]. split; [exact Hcodes|].
    intros [Hx|Hx]; [congruence|contradiction].
  - destruct Habs as (Habs & msg & ->).
    split; [eauto|]. split; [exact Hmem|]. split; [exact Hvim|].
    split; [exact Habs|]. split; [exact Hcodes|].
    intros Hx. apply Hoff in Hx. subst s2. auto.
Qed.

(** X16.  The check-in table takes a name of up to 255 characters, the
    code table one of up to 100.  With SMS configured, a password active
    and no failure from outside, a check-in whose trimmed name has 101 to
    255 characters is answered 200 and stored, but the first code INSERT
    is refused for the length, the loop gives up at once, no code is
    stored, no SMS is attempted and [smsError] is the message of the
    database. *)
Theorem long_name_is_recorded_without_code :
  forall (req : request) (s : db) (m : member_row) (p : string) (d : pg_date)
         (v : vimeo_row),
    Js.is_blank (name req) = false ->
    Js.is_blank (phone req) = false ->
    In (reason req) validReasons ->
    In m (members s) -> m_phone m = Some p ->
    last10Digits p = last10Digits (phone req) ->
    date_in (if String.eqb (serviceDate req) "" then today else serviceDate req) = Some d ->
    (100 < String.length (Js.trim (name req)) <= 255)%nat ->
    twilio_configured = true ->
    ActivePassword.select_active (vimeo_passwords s) = Some v ->
    insert_fault 0%nat = None ->
    let prayer := Js.trim (prayerRequest req) in
    let checkin :=
      mkCheckin new_checkin_id (Js.trim (name req)) (last10Digits (phone req))
        (reason req) (if String.eqb prayer "" then None else Some prayer) d
        false None db_now in
    run req s
    = (Recorded checkin false (Some (message value_too_long)),
       mkDb (members s) (absentee_checkins s ++ [checkin]) (vimeo_passwords s)
         (stream_access_codes s)).
Proof.
  intros req s m p d v Hname Hphone Hreason Hm Hp Hdigits Hdate [Hlong Hlen] Htw Hv Hfault
         prayer checkin.
  assert (Hr1 : String.eqb (reason req) "" = false).
  { apply String.eqb_neq. intros Heq. rewrite Heq in Hreason.
    simpl in Hreason. repeat (destruct Hreason as [Hreason|Hreason]; [discriminate|]).
    exact Hreason. }
  apply valid_reason_spec in Hreason.
  assert (Hsel : select_members (last10Digits (phone req)) (members s) <> []).
  { intros Hnil. rewrite select_members_nil in Hnil. exact (Hnil m p Hm Hp Hdigits). }
  unfold run, handler. rewrite Hname, Hphone, Hr1, Hreason. cbn [negb].
  destruct (select_members _ (members s)) as [|member rest]; [congruence|].
  rewrite Hdate. apply Nat.ltb_ge in Hlen. rewrite Hlen.
  fold prayer. fold checkin.
  unfold send_link. cbn [vimeo_passwords stream_access_codes k_phone k_id].
  rewrite Hv, Htw.
  cbn [code_loop]. unfold attempt, insert_code. rewrite Hfault.
  apply Nat.ltb_lt in Hlong. rewrite Hlong. reflexivity.
Qed.

(** X17.  A phone without any digit passes the presence check when it
    holds a character that is no white space; it is then matched by its
    digits, which are none, so it finds a member whose stored phone holds
    no digit either.  The answer is then not 400 and not 403, and the
    number that would be handed to the SMS provider is a lone plus
    sign. *)
Theorem phone_without_digits_matches_member_without_digits :
  forall (req : request) (s : db) (m : member_row) (p : string),
    Js.is_blank (name req) = false ->
    Js.is_blank (phone req) = false ->
    In (reason req) validReasons ->
    Js.strip_non_digits (phone req) = "" ->
    In m (members s) -> m_phone m = Some p -> Js.strip_non_digits p = "" ->
    (status_of (fst (run req s)) = 200%Z \/ status_of (fst (run req s)) = 500%Z) /\
    formatPhone (phone req) = "+".
Proof.
  intros req s m p Hname Hphone Hreason Hnone Hm Hp Hpnone.
  assert (Hr1 : String.eqb (reason req) "" = false).
  { apply String.eqb_neq. intros Heq. rewrite Heq in Hreason.
    simpl in Hreason. repeat (destruct Hreason as [Hreason|Hreason]; [discriminate|]).
    exact Hreason. }
  apply valid_reason_spec in Hreason.
  assert (Hdigits : last10Digits p = last10Digits (phone req)).
  { unfold last10Digits. now rewrite Hnone, Hpnone. }
  assert (Hsel : select_members (last10Digits (phone req)) (members s) <> []).
  { intros Hnil. rewrite select_members_nil in Hnil. exact (Hnil m p Hm Hp Hdigits). }
  split.
  - unfold run, handler. rewrite Hname, Hphone, Hr1, Hreason. cbn [negb].
    destruct (select_members _ (members s)) as [|member rest]; [congruence|].
    destruct (date_in _); [|now right].
    destruct (255 <? String.length (Js.trim (name req)))%nat; [now right|].
    match goal with |- context [send_link ?a ?b ?c ?d ?e ?f ?g ?r ?k ?s1] =>
      destruct (send_link a b c d e f g r k s1) as [[sent err] s2] end.
    now left.
  - unfold formatPhone. rewrite Hnone. reflexivity.
Qed.

End CheckinEffects.

(** Ann Lee checks in with her phone written with a country code: the
    row is stored under the ten digits. *)
Lemma checkin_is_stored_whatever_the_sms_witness :
  exists sent err s',
    SubmitAbsence.handler Examples.date_in "2024-05-05" 5000%Z 5001%Z 21%Z
      Examples.code_ids true Examples.sample_randomInt Examples.no_fault
      Examples.twilio_accepts
      (SubmitAbsence.mkRequest " Ann Lee " "+1 555-010-2000" "sick" "" "2024-05-12")
      Examples.store
    = (SubmitAbsence.Recorded
         (mkCheckin 21%Z "Ann Lee" "5550102000" "sick" None "2024-05-12" false None 5001%Z)
         sent err, s') /\
    SubmitAbsence.absentee_checkins s'
    = [mkCheckin 21%Z "Ann Lee" "5550102000" "sick" None "2024-05-12" sent
         (if sent then Some 5001%Z else None) 5001%Z].
Proof.
  destruct (checkin_is_stored_whatever_the_sms Examples.date_in "2024-05-05" 5000%Z
              5001%Z 21%Z Examples.code_ids true Examples.sample_randomInt
              Examples.no_fault Examples.twilio_accepts
              (SubmitAbsence.mkRequest " Ann Lee " "+1 555-010-2000" "sick" "" "2024-05-12")
              Examples.store
              (mkMember "m1" "Ann" "Lee" (Some "(555) 010-2000")) "(555) 010-2000"
              "2024-05-12")
    as (sent & err & s' & Hrun & _ & _ & _ & Habs & _).
  - reflexivity.
  - reflexivity.
  - left. reflexivity.
  - left. reflexivity.
  - reflexivity.
  - reflexivity.
  - reflexivity.
  - vm_compute. lia.
  - intros k [].
  - exists sent, err, s'. split; [exact Hrun|exact Habs].
Defined.

(** A name of 104 characters. *)
Lemma long_name_is_recorded_without_code_witness :
  let long :=
    "Ann Lee of the household at the far end of the long valley road beyond the old mill and the stone bridge" in
  SubmitAbsence.stream_access_codes
    (snd (SubmitAbsence.handler Examples.date_in "2024-05-05" 5000%Z 5001%Z 21%Z
            Examples.code_ids true Examples.sample_randomInt Examples.no_fault
            Examples.twilio_accepts
            (SubmitAbsence.mkRequest long "555-010-2000" "sick" "" "")
            Examples.store))
  = Examples.issued_codes.
Proof.
  intros long.
  rewrite (long_name_is_recorded_without_code Examples.date_in "2024-05-05" 5000%Z
             5001%Z 21%Z Examples.code_ids true Examples.sample_randomInt
             Examples.no_fault Examples.twilio_accepts
             (SubmitAbsence.mkRequest long "555-010-2000" "sick" "" "")
             Examples.store
             (mkMember "m1" "Ann" "Lee" (Some "(555) 010-2000")) "(555) 010-2000"
             "2024-05-05" Examples.live_row).
  - reflexivity.
  - reflexivity.
  - reflexivity.
  - left. reflexivity.
  - left. reflexivity.
  - reflexivity.
  - reflexivity.
  - reflexivity.
  - vm_compute. lia.
  - reflexivity.
  - reflexivity.
  - reflexivity.
Defined.

(** The phone "n/a" against a directory in which Bo Ray's phone is a
    dash. *)
Lemma phone_without_digits_matches_member_without_digits_witness :
  SubmitAbsence.status_of
    (fst (SubmitAbsence.handler Examples.date_in "2024-05-05" 5000%Z 5001%Z 21%Z
            Examples.code_ids true Examples.sample_randomInt Examples.no_fault
            Examples.twilio_accepts
            (SubmitAbsence.mkRequest "Cy Doe" "n/a" "other" "" "")
            (SubmitAbsence.mkDb [mkMember "m2" "Bo" "Ray" (Some "-")] [] Examples.live [])))
  <> 403%Z.
Proof.
  destruct (phone_without_digits_matches_member_without_digits Examples.date_in
              "2024-05-05" 5000%Z 5001%Z 21%Z Examples.code_ids true
              Examples.sample_randomInt Examples.no_fault Examples.twilio_accepts
              (SubmitAbsence.mkRequest "Cy Doe" "n/a" "other" "" "")
              (SubmitAbsence.mkDb [mkMember "m2" "Bo" "Ray" (Some "-")] [] Examples.live [])
              (mkMember "m2" "Bo" "Ray" (Some "-")) "-")
    as [[H|H] _]; try reflexivity;
    try (right; right; right; left; reflexivity); try (left; reflexivity);
    rewrite H; discriminate.
Defined.

(** ** Sign-in and first-admin setup *)

Lemma lower_char_idem c : Auth.lower_char (Auth.lower_char c) = Auth.lower_char c.
Proof. destruct c as [[] [] [] [] [] [] [] []]; reflexivity. Qed.

Lemma toLowerCase_idem s : Auth.toLowerCase (Auth.toLowerCase s) = Auth.toLowerCase s.
Proof.
  induction s as [|c s IH]; simpl; auto. now rewrite lower_char_idem, IH.
Qed.

Lemma toLowerCase_length s : String.length (Auth.toLowerCase s) = String.length s.
Proof. induction s as [|c s IH]; simpl; auto. Qed.

Lemma nonempty_by_length s n : (S n <= String.length s)%nat -> String.eqb s "" = false.
Proof. destruct s; simpl; [lia|reflexivity]. Qed.

Lemma select_user_in name users u rest :
  Auth.select_user name users = u :: rest -> In u users /\ Auth.u_username u = name.
Proof.
  intros H.
  assert (Hin : In u (Auth.select_user name users)) by (rewrite H; now left).
  unfold Auth.select_user in Hin. apply filter_In in Hin as [Hin Hn].
  apply String.eqb_eq in Hn. auto.
Qed.

Lemma select_user_nil name users :
  (forall u, In u users -> Auth.u_username u <> name) ->
  Auth.select_user name users = [].
Proof.
  induction users as [|u l IH]; intros H; simpl; auto.
  assert (Hu : String.eqb (Auth.u_username u) name = false).
  { apply String.eqb_neq. apply H. now left. }
  rewrite Hu. apply IH. intros; apply H; now right.
Qed.

Section AuthFacts.
Import Auth.
Variable APP_PASSWORD : string.
Variable bcrypt_hash : string -> string.
Variable bcrypt_compare : string -> string -> bool.
Variable new_id : uuid.
Variable db_now : timestamp.

Let run := handler APP_PASSWORD bcrypt_hash bcrypt_compare new_id db_now.

(** X18.  Setup, then sign-in.  On an empty user table a setup request
    that carries the bootstrap password, a username of 3 to 50 characters
    and a new password of at least 6 is answered 201 and stores one admin
    under the lower-cased username.  When the comparison accepts a
    password against its own hash, a sign-in with the username in any
    letter case and the new password is then answered with that user, and
    a sign-in with a password the comparison refuses is answered 401. *)
Theorem first_admin_setup_then_login :
  forall (req : request) (typed : string),
    action req = "setup" ->
    APP_PASSWORD <> "" -> password req = APP_PASSWORD ->
    (3 <= String.length (username req) <= 50)%nat ->
    (6 <= String.length (newPassword req))%nat ->
    let display := if String.eqb (displayName req) "" then username req
                   else displayName req in
    (String.length display <= 100)%nat ->
    (String.length (bcrypt_hash (newPassword req)) <= 255)%nat ->
    bcrypt_compare (newPassword req) (bcrypt_hash (newPassword req)) = true ->
    toLowerCase typed = toLowerCase (username req) ->
    let info := mkInfo new_id (toLowerCase (username req)) (Some display) true in
    let stored := [mkUser new_id (toLowerCase (username req))
                     (bcrypt_hash (newPassword req)) (Some display) true db_now] in
    run req [] = (Created info, stored) /\
    run (mkRequest "login" typed (newPassword req) "" "") stored
    = (LoggedIn info, stored) /\
    (forall wrong,
       wrong <> "" ->
       bcrypt_compare wrong (bcrypt_hash (newPassword req)) = false ->
       run (mkRequest "login" typed wrong "" "") stored = (Rejected, stored)).
Proof.
  intros req typed Hact Henv Hpw [Hu3 Hu50] Hnew display Hdisp Hhash Hcmp Htyped info stored.
  assert (Htyped_ne : String.eqb typed "" = false).
  { apply (nonempty_by_length typed 2).
    rewrite <- (toLowerCase_length typed), Htyped, toLowerCase_length. exact Hu3. }
  assert (Hsel : select_user (toLowerCase typed) stored = stored).
  { unfold stored, select_user. simpl. now rewrite Htyped, String.eqb_refl. }
  split; [|split].
  - unfold run, handler. rewrite Hact. cbn [String.eqb Ascii.eqb Bool.eqb List.length].
    change (0 <? 0)%nat with false. cbv iota.
    apply String.eqb_neq in Henv. rewrite Henv, Hpw, String.eqb_refl. cbn [negb].
    rewrite (nonempty_by_length (username req) 2 Hu3).
    rewrite (nonempty_by_length (newPassword req) 5 Hnew).
    assert (H3 : (String.length (username req) <? 3)%nat = false) by (apply Nat.ltb_ge; lia).
    assert (H6 : (String.length (newPassword req) <? 6)%nat = false) by (apply Nat.ltb_ge; lia).
    rewrite H3, H6. cbn [orb]. fold display.
    unfold insert_user. rewrite toLowerCase_length.
    assert (H50 : (50 <? String.length (username req))%nat = false) by (apply Nat.ltb_ge; lia).
    assert (H255 : (255 <? String.length (bcrypt_hash (newPassword req)))%nat = false)
      by (apply Nat.ltb_ge; lia).
    assert (H100 : (100 <? String.length display)%nat = false) by (apply Nat.ltb_ge; lia).
    rewrite H50, H255, H100. reflexivity.
  - unfold run, handler. cbn [action username password].
    cbn [String.eqb Ascii.eqb Bool.eqb]. unfold stored at 1. cbn [List.length].
    change (0 <? 1)%nat with true. cbn [negb].
    rewrite Htyped_ne, (nonempty_by_length (newPassword req) 5 Hnew). cbn [orb].
    rewrite Hsel. unfold stored at 1. cbn [u_password_hash]. rewrite Hcmp. reflexivity.
  - intros wrong Hne Hno. unfold run, handler. cbn [action username password].
    cbn [String.eqb Ascii.eqb Bool.eqb]. unfold stored at 1. cbn [List.length].
    change (0 <? 1)%nat with true. cbn [negb].
    apply String.eqb_neq in Hne. rewrite Htyped_ne, Hne. cbn [orb].
    rewrite Hsel. unfold stored at 1. cbn [u_password_hash]. rewrite Hno. reflexivity.
Qed.


(** X20.  A sign-in on a table that has users, with a username and a
    password, has two answers only: the user whose stored name is the
    lower-cased username and whose hash the comparison accepts, or 401.
    The 401 is the same answer whether no such user exists or the
    password is refused, and a row whose stored name is not in lower case
    is never signed in. *)
Theorem login_rejection_is_uniform :
  forall (req : request) (users : list user_row),
    action req = "login" -> users <> [] ->
    username req <> "" -> password req <> "" ->
    let out := run req users in
    snd out = users /\
    (fst out = Rejected \/
     exists u, fst out = LoggedIn (info_of u) /\ In u users /\
               u_username u = toLowerCase (username req) /\
               toLowerCase (u_username u) = u_username u /\
               bcrypt_compare (password req) (u_password_hash u) = true) /\
    ((forall u, In u users -> u_username u = toLowerCase (username req) ->
                bcrypt_compare (password req) (u_password_hash u) = false) ->
     fst out = Rejected).
Proof.
  intros req users Hact Hne Hu Hp out. unfold out, run, handler.
  rewrite Hact. cbn [String.eqb Ascii.eqb Bool.eqb].
  assert (Hhas : (0 <? List.length users)%nat = true).
  { destruct users; [congruence|reflexivity]. }
  rewrite Hhas. cbn [negb].
  apply String.eqb_neq in Hu, Hp. rewrite Hu, Hp. cbn [orb].
  destruct (select_user (toLowerCase (username req)) users) as [|u rest] eqn:Hsel.
  - simpl. auto.
  - apply select_user_in in Hsel as [Hin Hname].
    destruct (bcrypt_compare (password req) (u_password_hash u)) eqn:Hcmp; simpl.
    + split; [reflexivity|]. split.
      * right. exists u. repeat split; auto. rewrite Hname. apply toLowerCase_idem.
      * intros Hall. rewrite (Hall u Hin Hname) in Hcmp. discriminate.
    + auto.
Qed.

End AuthFacts.

(** The first setup of the example and the sign-in that follows it, with
    the username typed in upper case. *)
Lemma first_admin_setup_then_login_witness :
  let info := Auth.mkInfo 1%Z "pastor" (Some "Pastor") true in
  let stored := [Auth.mkUser 1%Z "pastor" "$2a$10$open-sesame" (Some "Pastor") true 50%Z] in
  Auth.handler "bootstrap-secret" AuthExamples.sample_hash AuthExamples.sample_compare
    1%Z 50%Z AuthExamples.first_setup []
  = (Auth.Created info, stored) /\
  Auth.handler "bootstrap-secret" AuthExamples.sample_hash AuthExamples.sample_compare
    1%Z 50%Z (Auth.mkRequest "login" "PASTOR" "open-sesame" "" "") stored
  = (Auth.LoggedIn info, stored).
Proof.
  intros info stored.
  destruct (first_admin_setup_then_login "bootstrap-secret" AuthExamples.sample_hash
              AuthExamples.sample_compare 1%Z 50%Z AuthExamples.first_setup "PASTOR")
    as (Hsetup & Hlogin & _).
  - reflexivity.
  - discriminate.
  - reflexivity.
  - vm_compute. lia.
  - vm_compute. lia.
  - vm_compute. lia.
  - vm_compute. lia.
  - reflexivity.
  - reflexivity.
  - split; [exact Hsetup|exact Hlogin].
Defined.


(** A sign-in under a name no user has. *)
Lemma login_rejection_is_uniform_witness :
  let stored := [Auth.mkUser 1%Z "pastor" "$2a$10$open-sesame" (Some "Pastor") true 50%Z] in
  fst (Auth.handler "bootstrap-secret" AuthExamples.sample_hash
         AuthExamples.sample_compare 2%Z 60%Z
         (Auth.mkRequest "login" "deacon" "open-sesame" "" "") stored)
  = Auth.Rejected.
Proof.
  intros stored.
  destruct (login_rejection_is_uniform "bootstrap-secret" AuthExamples.sample_hash
              AuthExamples.sample_compare 2%Z 60%Z
              (Auth.mkRequest "login" "deacon" "open-sesame" "" "") stored)
    as (_ & _ & Hrej).
  - reflexivity.
  - discriminate.
  - discriminate.
  - discriminate.
  - apply Hrej. intros u [<-|[]] Hname. discriminate Hname.
Defined.

(** ** The absentee dashboard *)

Section DashboardFacts.
Import AbsenteeDashboard.

Lemma key_not_inherited row :
  existsb (String.eqb (reason_key row)) inherited = false -> ~ In (k_reason row) inherited.
Proof.
  intros Hex Hin.
  assert (Hk : reason_key row = k_reason row).
  { unfold reason_key. destruct (String.eqb_spec (k_reason row) "") as [He|He]; [|reflexivity].
    rewrite He in Hin. simpl in Hin.
    repeat (destruct Hin as [Hin|Hin]; [discriminate|]). destruct Hin. }
  assert (Ht : existsb (String.eqb (reason_key row)) inherited = true).
  { apply existsb_exists. exists (k_reason row). split; [exact Hin|].
    now apply String.eqb_eq. }
  congruence.
Qed.

Lemma group_rows_groups : forall rows g g',
  group_rows g rows = Some g' ->
  sick g' = sick g ++ filter (fun r => String.eqb (reason_key r) "sick") rows /\
  vacation g' = vacation g ++ filter (fun r => String.eqb (reason_key r) "vacation") rows /\
  business g' = business g ++ filter (fun r => String.eqb (reason_key r) "business") rows /\
  other g' = other g ++ filter (fun r => negb (String.eqb (reason_key r) "sick" || String.eqb (reason_key r) "vacation" || String.eqb (reason_key r) "business")) rows /\
  Forall (fun r => ~ In (k_reason r) inherited) rows.
Proof.
  induction rows as [|row rows IH]; intros g g' H; simpl in H.
  - inversion H; subst. rewrite !app_nil_r. repeat split; auto.
  - destruct (group_row g row) as [g1|] eqn:Hrow; [|discriminate].
    apply IH in H as (Hs & Hv & Hb & Ho & Hall).
    unfold group_row in Hrow. cbv zeta in Hrow.
    cbn [filter].
    destruct (String.eqb (reason_key row) "sick") eqn:K1.
    { inversion Hrow; subst g1; cbn [sick vacation business other orb negb] in *.
      rewrite Hs, Hv, Hb, Ho, <- app_assoc.
      apply String.eqb_eq in K1. rewrite K1. cbn [String.eqb Ascii.eqb Bool.eqb].
      repeat split; auto. constructor; auto.
      apply key_not_inherited. rewrite K1. reflexivity. }
    destruct (String.eqb (reason_key row) "vacation") eqn:K2.
    { inversion Hrow; subst g1; cbn [sick vacation business other orb negb] in *.
      rewrite Hs, Hv, Hb, Ho, <- app_assoc.
      apply String.eqb_eq in K2. rewrite K2. cbn [String.eqb Ascii.eqb Bool.eqb].
      repeat split; auto. constructor; auto.
      apply key_not_inherited. rewrite K2. reflexivity. }
    destruct (String.eqb (reason_key row) "business") eqn:K3.
    { inversion Hrow; subst g1; cbn [sick vacation business other orb negb] in *.
      rewrite Hs, Hv, Hb, Ho, <- app_assoc.
      apply String.eqb_eq in K3.
      repeat split; auto. constructor; auto.
      apply key_not_inherited. rewrite K3. reflexivity. }
    cbn [orb negb].
    destruct (String.eqb (reason_key row) "other") eqn:K4.
    { inversion Hrow; subst g1; cbn [sick vacation business other] in *.
      rewrite Hs, Hv, Hb, Ho, <- app_assoc.
      repeat split; auto. constructor; auto.
      apply String.eqb_eq in K4.
      apply key_not_inherited. rewrite K4. reflexivity. }
    destruct (existsb (String.eqb (reason_key row)) inherited) eqn:K5; [discriminate|].
    inversion Hrow; subst g1; cbn [sick vacation business other] in *.
    rewrite Hs, Hv, Hb, Ho, <- app_assoc. repeat split; auto.
    constructor; auto. now apply key_not_inherited.
Qed.

Lemma group_rows_fails : forall rows g,
  group_rows g rows = None <-> exists r, In r rows /\ In (k_reason r) inherited.
Proof.
  induction rows as [|row rows IH]; intros g; simpl.
  - split; [discriminate|intros (r & [] & _)].
  - destruct (group_row g row) as [g1|] eqn:Hrow.
    + rewrite IH. split.
      * intros (r & Hr & Hin). exists r. auto.
      * intros (r & [<-|Hr] & Hin); [|exists r; auto].
        exfalso.
        assert (Hsome : group_rows g [row] = Some g1) by (simpl; now rewrite Hrow).
        apply group_rows_groups in Hsome as (_ & _ & _ & _ & Hall).
        inversion Hall; subst. contradiction.
    + split; [intros _|reflexivity]. exists row. split; [now left|].
      unfold group_row in Hrow.
      repeat match type of Hrow with
             | (if ?c then Some _ else _) = None => destruct c eqn:?; [discriminate|]
             end.
      destruct (existsb _ inherited) eqn:Hex; [|discriminate].
      apply existsb_exists in Hex as (x & Hx & Heq). apply String.eqb_eq in Heq.
      unfold reason_key in Heq.
      destruct (String.eqb_spec (k_reason row) "") as [He|He]; [|now rewrite Heq].
      subst x. simpl in Hx. repeat (destruct Hx as [Hx|Hx]; [discriminate|]). destruct Hx.
Qed.

Lemma filter_length_le {A} (f : A -> bool) l :
  (List.length (filter f l) <= List.length l)%nat.
Proof.
  induction l as [|a l IH]; simpl; auto. destruct (f a); simpl; lia.
Qed.

Lemma select_checkins_in from to reason checkins r :
  In r (select_checkins from to reason checkins) <->
  In r checkins /\
  MemberAbsenceReport.in_range from to (k_service_date r) = true /\
  (reason = "" \/ reason = "all" \/ k_reason r = reason).
Proof.
  unfold select_checkins. split.
  - intros H. apply (Permutation_in _ (sort_by_perm _ _)) in H.
    apply filter_In in H as [Hin Hc]. apply andb_true_iff in Hc as [Hr Hf].
    split; [exact Hin|]. split; [exact Hr|].
    destruct (String.eqb_spec reason "") as [->|_]; [now left|].
    destruct (String.eqb_spec reason "all") as [->|_]; [now right; left|].
    simpl in Hf. apply String.eqb_eq in Hf. auto.
  - intros (Hin & Hr & Hf).
    apply (Permutation_in _ (Permutation_sym (sort_by_perm _ _))).
    apply filter_In. split; [exact Hin|]. rewrite Hr. simpl.
    destruct (String.eqb_spec reason "") as [_|N1]; [reflexivity|].
    destruct (String.eqb_spec reason "all") as [_|N2]; [reflexivity|].
    simpl. destruct Hf as [H|[H|H]]; try contradiction. now apply String.eqb_eq.
Qed.

Variable date_in : string -> option pg_date.
Variables startOfWeek endOfWeek : string.

Let run := handler date_in startOfWeek endOfWeek.

(** What a 200 answer holds. *)
Lemma dashboard_groups_partition_checkins_aux :
  forall (req : request) (checkins : list checkin_row)
         (from to : string) (s : summary) (g : groups) (rows : list checkin_row),
    run req checkins = Report from to s g rows ->
    exists f t,
      date_in from = Some f /\ date_in to = Some t /\
      (forall r, In r rows <->
                 In r checkins /\
                 MemberAbsenceReport.in_range f t (k_service_date r) = true /\
                 (reason req = "" \/ reason req = "all" \/ k_reason r = reason req)) /\
      sick g = filter (fun r => String.eqb (k_reason r) "sick") rows /\
      vacation g = filter (fun r => String.eqb (k_reason r) "vacation") rows /\
      business g = filter (fun r => String.eqb (k_reason r) "business") rows /\
      other g = filter (fun r => negb (String.eqb (k_reason r) "sick"
                                       || String.eqb (k_reason r) "vacation"
                                       || String.eqb (k_reason r) "business")) rows.
Proof.
  intros req checkins from to s g rows. unfold run, handler.
  destruct (date_in (if String.eqb (fromDate req) "" then startOfWeek else fromDate req))
    as [f|] eqn:Hf; [|discriminate].
  destruct (date_in (if String.eqb (toDate req) "" then endOfWeek else toDate req))
    as [t|] eqn:Ht; [|discriminate].
  destruct (group_rows no_groups (select_checkins f t (reason req) checkins))
    as [g0|] eqn:Hg; [|discriminate].
  intros H; inversion H; subst; clear H.
  apply group_rows_groups in Hg as (Hs & Hv & Hb & Ho & _).
  cbn [sick vacation business other no_groups app] in Hs, Hv, Hb, Ho.
  assert (Hsame : forall (p q : checkin_row -> bool) l,
            (forall r, p r = q r) -> filter p l = filter q l).
  { intros p q l Hpq. apply filter_ext. exact Hpq. }
  assert (Hk : forall r x, x <> "" -> x <> "other" ->
                 String.eqb (reason_key r) x = String.eqb (k_reason r) x).
  { intros r x Hx Hx'. unfold reason_key.
    destruct (String.eqb_spec (k_reason r) "") as [He|He]; [|reflexivity].
    rewrite He. apply not_eq_sym in Hx, Hx'.
    apply String.eqb_neq in Hx, Hx'. now rewrite Hx, Hx'. }
  exists f, t. split; [exact Hf|]. split; [exact Ht|].
  split; [intros r; apply select_checkins_in|].
  split; [rewrite Hs; apply Hsame; intros r; apply Hk; discriminate|].
  split; [rewrite Hv; apply Hsame; intros r; apply Hk; discriminate|].
  split; [rewrite Hb; apply Hsame; intros r; apply Hk; discriminate|].
  rewrite Ho; apply Hsame; intros r; rewrite !Hk by discriminate; reflexivity.
Qed.

Lemma four_way_count_by_reason (rows : list checkin_row) :
  (List.length (filter (fun r => String.eqb (k_reason r) "sick") rows)
   + List.length (filter (fun r => String.eqb (k_reason r) "vacation") rows)
   + List.length (filter (fun r => String.eqb (k_reason r) "business") rows)
   + List.length (filter (fun r => negb (String.eqb (k_reason r) "sick"
                                         || String.eqb (k_reason r) "vacation"
                                         || String.eqb (k_reason r) "business")) rows)
   = List.length rows)%nat.
Proof.
  induction rows as [|r rows IH]; simpl; auto.
  destruct (String.eqb_spec (k_reason r) "sick") as [K1|K1].
  - rewrite K1. simpl. lia.
  - destruct (String.eqb_spec (k_reason r) "vacation") as [K2|K2].
    + rewrite K2. simpl. lia.
    + destruct (String.eqb (k_reason r) "business"); simpl; lia.
Qed.

(** X21.  A dashboard that is answered 200 accounts for every check-in
    of the period once.  The list holds the rows of the table whose
    service date is in the range and whose reason is the one asked for,
    if one is; the groups sick, vacation and business are the rows of the
    list with that reason, in the order of the list, and the group other
    holds all the rest, an empty reason included; the four counts add up
    to the total, and the counts of prayer requests and of livestream
    links do not exceed it. *)
Theorem dashboard_groups_partition_checkins :
  forall (req : request) (checkins : list checkin_row)
         (from to : string) (s : summary) (g : groups) (rows : list checkin_row),
    run req checkins = Report from to s g rows ->
    from = (if String.eqb (fromDate req) "" then startOfWeek else fromDate req) /\
    to = (if String.eqb (toDate req) "" then endOfWeek else toDate req) /\
    (exists f t,
       date_in from = Some f /\ date_in to = Some t /\
       forall r, In r rows <->
                 In r checkins /\
                 MemberAbsenceReport.in_range f t (k_service_date r) = true /\
                 (reason req = "" \/ reason req = "all" \/ k_reason r = reason req)) /\
    sick g = filter (fun r => String.eqb (k_reason r) "sick") rows /\
    vacation g = filter (fun r => String.eqb (k_reason r) "vacation") rows /\
    business g = filter (fun r => String.eqb (k_reason r) "business") rows /\
    other g = filter (fun r => negb (String.eqb (k_reason r) "sick"
                                     || String.eqb (k_reason r) "vacation"
                                     || String.eqb (k_reason r) "business")) rows /\
    total s = List.length rows /\
    (n_sick s + n_vacation s + n_business s + n_other s = total s)%nat /\
    (prayerRequests s <= total s)%nat /\ (livestreamSent s <= total s)%nat.
Proof.
  intros req checkins from to s g rows Hrun.
  assert (Hshape : from = (if String.eqb (fromDate req) "" then startOfWeek
                           else fromDate req) /\
                   to = (if String.eqb (toDate req) "" then endOfWeek else toDate req) /\
                   s = summarize rows g).
  { revert Hrun. unfold run, handler.
    destruct (date_in (if String.eqb (fromDate req) "" then startOfWeek
                       else fromDate req)); [|discriminate].
    destruct (date_in (if String.eqb (toDate req) "" then endOfWeek else toDate req));
      [|discriminate].
    destruct (group_rows _ _); [|discriminate].
    intros H; inversion H; subst. auto. }
  destruct Hshape as (Hfrom & Hto & Hsum).
  pose proof (dashboard_groups_partition_checkins_aux _ _ _ _ _ _ _ Hrun)
    as (f & t & Hf & Ht & Hrows & Hs & Hv & Hb & Ho).
  split; [exact Hfrom|]. split; [exact Hto|].
  split; [exists f, t; auto|].
  split; [exact Hs|]. split; [exact Hv|]. split; [exact Hb|]. split; [exact Ho|].
  rewrite Hsum.
  cbn [total n_sick n_vacation n_business n_other prayerRequests livestreamSent
       summarize].
  split; [reflexivity|].
  split; [rewrite Hs, Hv, Hb, Ho; apply four_way_count_by_reason|].
  split; apply filter_length_le.
Qed.

(** X22.  The dashboard is answered 500 in these cases and no other: a
    bound of the period is no date, or a check-in of the period, among
    those with the reason asked for if one is, has a reason that is the
    name of a property every JavaScript object inherits, such as
    "constructor": the grouping then finds a value under that name and
    fails when it calls [push] on it. *)
Theorem dashboard_fails_on_inherited_reason :
  forall (req : request) (checkins : list checkin_row),
    let from := if String.eqb (fromDate req) "" then startOfWeek else fromDate req in
    let to := if String.eqb (toDate req) "" then endOfWeek else toDate req in
    status_of (run req checkins) = 500%Z <->
    (date_in from = None \/ date_in to = None \/
     exists f t r,
       date_in from = Some f /\ date_in to = Some t /\ In r checkins /\
       MemberAbsenceReport.in_range f t (k_service_date r) = true /\
       (reason req = "" \/ reason req = "all" \/ k_reason r = reason req) /\
       In (k_reason r) inherited).
Proof.
  intros req checkins from to. unfold run, handler. fold from to.
  destruct (date_in from) as [f|] eqn:Hf; [|split; auto].
  destruct (date_in to) as [t|] eqn:Ht; [|split; auto].
  destruct (group_rows no_groups (select_checkins f t (reason req) checkins))
    as [g|] eqn:Hg.
  - split; [discriminate|].
    intros [H|[H|(f' & t' & r & Hf' & Ht' & Hin & Hr & Hq & Hbad)]]; try discriminate.
    inversion Hf'; inversion Ht'; subst f' t'. exfalso.
    assert (Hnone : group_rows no_groups (select_checkins f t (reason req) checkins) = None).
    { apply group_rows_fails. exists r. split; [|exact Hbad].
      apply select_checkins_in. auto. }
    congruence.
  - split; [intros _|reflexivity]. right. right.
    apply group_rows_fails in Hg as (r & Hr & Hbad).
    apply select_checkins_in in Hr as (Hin & Hrange & Hq).
    exists f, t, r. auto 10.
Qed.

End DashboardFacts.

(** X23.  A check-in that was answered 200 shows on the dashboard.  For
    every period that holds its service date, and with no reason asked
    for or its own, a dashboard that is answered 200 lists the row, marked
    as sent exactly when the SMS was, and files it under its reason, which
    is one of the four. *)
Theorem stored_checkin_shows_on_dashboard :
  forall (date_in : string -> option pg_date) (today : string)
         (js_now db_now : timestamp) (new_checkin_id : uuid)
         (new_code_id : nat -> uuid) (twilio_configured : bool)
         (randomInt : nat -> nat -> nat)
         (insert_fault : nat -> option SubmitAbsence.pg_error)
         (twilio_send : string -> string -> option string)
         (req : SubmitAbsence.request) (s s' : SubmitAbsence.db)
         (k : checkin_row) (sent : bool) (err : option string)
         (startOfWeek endOfWeek : string) (q : AbsenteeDashboard.request)
         (from to : string) (sm : AbsenteeDashboard.summary)
         (g : AbsenteeDashboard.groups) (rows : list checkin_row) (f t : pg_date),
    SubmitAbsence.handler date_in today js_now db_now new_checkin_id new_code_id
      twilio_configured randomInt insert_fault twilio_send req s
    = (SubmitAbsence.Recorded k sent err, s') ->
    AbsenteeDashboard.handler date_in startOfWeek endOfWeek q
      (SubmitAbsence.absentee_checkins s')
    = AbsenteeDashboard.Report from to sm g rows ->
    date_in from = Some f -> date_in to = Some t ->
    MemberAbsenceReport.in_range f t (k_service_date k) = true ->
    AbsenteeDashboard.reason q = "" \/ AbsenteeDashboard.reason q = "all"
    \/ AbsenteeDashboard.reason q = k_reason k ->
    let shown :=
      mkCheckin (k_id k) (k_name k) (k_phone k) (k_reason k) (k_prayer_request k)
        (k_service_date k) sent (if sent then Some db_now else None) (k_created_at k) in
    In shown rows /\
    In (k_reason k) SubmitAbsence.validReasons /\
    (k_reason k = "sick" -> In shown (AbsenteeDashboard.sick g)) /\
    (k_reason k = "vacation" -> In shown (AbsenteeDashboard.vacation g)) /\
    (k_reason k = "business" -> In shown (AbsenteeDashboard.business g)) /\
    (k_reason k = "other" -> In shown (AbsenteeDashboard.other g)).
Proof.
  intros date_in today js_now db_now new_checkin_id new_code_id twilio_configured
         randomInt insert_fault twilio_send req s s' k sent err startOfWeek endOfWeek
         q from to sm g rows f t Hrec Hdash Hf Ht Hrange Hq shown.
  apply recorded_checkin_is_stored in Hrec as (_ & Hreason & Hvalid & _ & _ & Hin).
  fold shown in Hin.
  pose proof (dashboard_groups_partition_checkins_aux date_in startOfWeek endOfWeek
                q _ from to sm g rows Hdash) as Haux.
  destruct Haux as (f' & t' & Hf' & Ht' & Hrows & Hs & Hv & Hb & Ho).
  rewrite Hf in Hf'. rewrite Ht in Ht'. inversion Hf'; inversion Ht'; subst f' t'.
  assert (Hshown : In shown rows).
  { apply Hrows. split; [exact Hin|]. split; [exact Hrange|].
    cbn [k_reason shown]. destruct Hq as [H|[H|H]]; auto. }
  split; [exact Hshown|]. split; [now rewrite Hreason|].
  repeat split; intros Hk.
  - rewrite Hs. apply filter_In. split; [exact Hshown|]. cbn. now rewrite Hk.
  - rewrite Hv. apply filter_In. split; [exact Hshown|]. cbn. now rewrite Hk.
  - rewrite Hb. apply filter_In. split; [exact Hshown|]. cbn. now rewrite Hk.
  - rewrite Ho. apply filter_In. split; [exact Hshown|]. cbn. now rewrite Hk.
Qed.

(** The week of the example: three check-ins, one in each of sick,
    vacation and other. *)
Lemma dashboard_groups_partition_checkins_witness :
  match AbsenteeDashboard.handler Examples.date_in "2024-05-05" "2024-05-11"
          DashboardExamples.this_week DashboardExamples.week with
  | AbsenteeDashboard.Report _ _ s _ rows =>
      AbsenteeDashboard.total s = List.length rows /\
      (AbsenteeDashboard.n_sick s + AbsenteeDashboard.n_vacation s
       + AbsenteeDashboard.n_business s + AbsenteeDashboard.n_other s
       = AbsenteeDashboard.total s)%nat
  | AbsenteeDashboard.Failure _ _ => False
  end.
Proof.
  destruct (AbsenteeDashboard.handler Examples.date_in "2024-05-05" "2024-05-11"
              DashboardExamples.this_week DashboardExamples.week)
    as [from to s g rows|c e] eqn:Hrun.
  - destruct (dashboard_groups_partition_checkins Examples.date_in "2024-05-05"
                "2024-05-11" DashboardExamples.this_week DashboardExamples.week
                from to s g rows Hrun)
      as (_ & _ & _ & _ & _ & _ & _ & Htotal & Hcount & _).
    split; [exact Htotal|exact Hcount].
  - vm_compute in Hrun. discriminate Hrun.
Defined.

(** One row of the week has the reason "constructor". *)
Lemma dashboard_fails_on_inherited_reason_witness :
  AbsenteeDashboard.status_of
    (AbsenteeDashboard.handler Examples.date_in "2024-05-05" "2024-05-11"
       DashboardExamples.this_week DashboardExamples.spoiled)
  = 500%Z.
Proof.
  apply (dashboard_fails_on_inherited_reason Examples.date_in "2024-05-05" "2024-05-11"
           DashboardExamples.this_week DashboardExamples.spoiled).
  right. right.
  exists "2024-05-05"%string, "2024-05-11"%string,
         (mkCheckin 4%Z "Di Fox" "5550105000" "constructor" None "2024-05-05"
            false None 950%Z).
  split; [reflexivity|]. split; [reflexivity|].
  split; [right; right; right; left; reflexivity|].
  split; [reflexivity|]. split; [right; left; reflexivity|].
  left. reflexivity.
Defined.

(** Ann Lee's check-in for 2024-05-12, then the dashboard of that
    week. *)
Lemma stored_checkin_shows_on_dashboard_witness :
  match SubmitAbsence.handler Examples.date_in "2024-05-05" 5000%Z 5001%Z 21%Z
          Examples.code_ids true Examples.sample_randomInt Examples.no_fault
          Examples.twilio_accepts
          (SubmitAbsence.mkRequest " Ann Lee " "+1 555-010-2000" "sick" "" "2024-05-12")
          Examples.store with
  | (SubmitAbsence.Recorded k sent _, s') =>
      match AbsenteeDashboard.handler Examples.date_in "2024-05-12" "2024-05-18"
              DashboardExamples.this_week (SubmitAbsence.absentee_checkins s') with
      | AbsenteeDashboard.Report _ _ _ g _ =>
          In (mkCheckin 21%Z "Ann Lee" "5550102000" "sick" None "2024-05-12" sent
                (if sent then Some 5001%Z else None) 5001%Z)
             (AbsenteeDashboard.sick g)
      | AbsenteeDashboard.Failure _ _ => False
      end
  | _ => False
  end.
Proof.
  destruct (SubmitAbsence.handler Examples.date_in "2024-05-05" 5000%Z 5001%Z 21%Z
              Examples.code_ids true Examples.sample_randomInt Examples.no_fault
              Examples.twilio_accepts
              (SubmitAbsence.mkRequest " Ann Lee " "+1 555-010-2000" "sick" ""
                 "2024-05-12")
              Examples.store) as [[c e n|k sent err] s'] eqn:Hrec.
  - vm_compute in Hrec. discriminate Hrec.
  - destruct (AbsenteeDashboard.handler Examples.date_in "2024-05-12" "2024-05-18"
                DashboardExamples.this_week (SubmitAbsence.absentee_checkins s'))
      as [from to sm g rows|c e] eqn:Hdash.
    + assert (Hk : k = mkCheckin 21%Z "Ann Lee" "5550102000" "sick" None "2024-05-12"
                         false None 5001%Z).
      { vm_compute in Hrec. inversion Hrec. reflexivity. }
      assert (Hfrom : from = "2024-05-12"%string /\ to = "2024-05-18"%string).
      { revert Hdash. unfold AbsenteeDashboard.handler. cbn [AbsenteeDashboard.fromDate
          AbsenteeDashboard.toDate DashboardExamples.this_week String.eqb].
        destruct (Examples.date_in "2024-05-12"); [|discriminate].
        destruct (Examples.date_in "2024-05-18"); [|discriminate].
        destruct (AbsenteeDashboard.group_rows _ _); [|discriminate].
        intros H; inversion H. auto. }
      destruct Hfrom as [-> ->].
      destruct (stored_checkin_shows_on_dashboard Examples.date_in "2024-05-05" 5000%Z
                  5001%Z 21%Z Examples.code_ids true Examples.sample_randomInt
                  Examples.no_fault Examples.twilio_accepts
                  (SubmitAbsence.mkRequest " Ann Lee " "+1 555-010-2000" "sick" ""
                     "2024-05-12")
                  Examples.store s' k sent err "2024-05-12" "2024-05-18"
                  DashboardExamples.this_week "2024-05-12" "2024-05-18" sm g rows
                  "2024-05-12" "2024-05-18" Hrec Hdash)
        as (_ & _ & Hsick & _).
      * reflexivity.
      * reflexivity.
      * rewrite Hk. reflexivity.
      * right. left. reflexivity.
      * rewrite Hk in Hsick. apply Hsick. reflexivity.
    + exfalso.
      assert (Hs' : SubmitAbsence.absentee_checkins s'
                    = [mkCheckin 21%Z "Ann Lee" "5550102000" "sick" None "2024-05-12"
                         sent (if sent then Some 5001%Z else None) 5001%Z]).
      { vm_compute in Hrec. inversion Hrec. reflexivity. }
      rewrite Hs' in Hdash. destruct sent; vm_compute in Hdash; discriminate Hdash.
Defined.

(** ** The absence report with the member's check-ins *)

Section DetailFacts.
Import MemberAbsenceDetail.

Lemma select_member_checkins_in digits from to checkins k :
  In k (select_member_checkins digits from to checkins) <->
  String.length digits = 10%nat /\ In k checkins /\
  SubmitAbsence.last10Digits (k_phone k) = digits /\
  MemberAbsenceReport.in_range from to (k_service_date k) = true.
Proof.
  unfold select_member_checkins.
  destruct (Nat.eqb_spec (String.length digits) 10) as [Hten|Hten].
  - split.
    + intros H. apply (Permutation_in _ (sort_by_perm _ _)) in H.
      apply filter_In in H as [Hin Hc]. apply andb_true_iff in Hc as [Hd Hr].
      apply String.eqb_eq in Hd. auto.
    + intros (_ & Hin & Hd & Hr).
      apply (Permutation_in _ (Permutation_sym (sort_by_perm _ _))).
      apply filter_In. split; [exact Hin|]. rewrite Hr.
      apply String.eqb_eq in Hd. now rewrite Hd.
  - split; [intros []|intros (H & _); contradiction].
Qed.

Lemma absenteeByDate_in l d k :
  In k (absenteeByDate l d) <-> In k l /\ k_service_date k = d.
Proof.
  unfold absenteeByDate. rewrite filter_In. split.
  - intros [H1 H2]. apply String.eqb_eq in H2. auto.
  - intros [H1 H2]. split; [exact H1|]. now apply String.eqb_eq.
Qed.


Variable date_in : string -> option pg_date.
Variable members : list member_row.
Variable attendance : list attendance_row.
Variable checkins : list checkin_row.

Let run := handler date_in members attendance checkins.

(** What a produced report is made of. *)
Lemma detail_report_shape memberId fromDate toDate member s d :
  run memberId fromDate toDate = Report member s d ->
  exists from to,
    date_in fromDate = Some from /\ date_in toDate = Some to /\
    let occurred := MemberAbsenceReport.select_services from to attendance in
    let missed :=
      MemberAbsenceReport.find_absences occurred
        (MemberAbsenceReport.select_attended memberId from to attendance) in
    let own := select_member_checkins (member_digits member) from to checkins in
    s = MemberAbsenceReport.summarize occurred missed /\
    absences d = map (detail own) missed /\
    absencesWithSubmission d = List.length (filter has_submission (absences d)) /\
    absencesWithoutSubmission d
    = (List.length missed - List.length (filter has_submission (absences d)))%nat.
Proof.
  unfold run, handler.
  destruct (String.eqb memberId ""); [discriminate|].
  destruct (String.eqb fromDate "" || String.eqb toDate ""); [discriminate|].
  destruct (filter _ members) as [|m rest]; [discriminate|].
  destruct (date_in fromDate) as [from|]; [|discriminate].
  destruct (date_in toDate) as [to|]; [|discriminate].
  intros H; inversion H; subst; clear H.
  exists from, to. cbv zeta.
  cbn [absences absencesWithSubmission absencesWithoutSubmission].
  repeat split; reflexivity.
Qed.


(** X25.  A member whose stored phone has fewer than ten digits, or
    none, never has a submission attached: every absence of the report
    comes without one, whatever the check-in table holds.  The check-in
    handler all the same accepts a check-in under such a phone: with the
    fields in order and the same digits it is never answered 400 or
    403. *)
Theorem short_phone_never_shows_submissions :
  forall (memberId fromDate toDate : string) (member : member_row)
         (s : MemberAbsenceReport.summary) (d : response_detail),
    run memberId fromDate toDate = Report member s d ->
    (String.length (Js.strip_non_digits
                      (match m_phone member with Some p => p | None => "" end))
     < 10)%nat ->
    (absencesWithSubmission d = 0%nat /\
     absencesWithoutSubmission d = List.length (absences d) /\
     Forall (fun a => absenteeSubmission a = None) (absences d)) /\
    (forall (today : string) (js_now db_now : timestamp) (new_checkin_id : uuid)
            (new_code_id : nat -> uuid) (twilio_configured : bool)
            (randomInt : nat -> nat -> nat)
            (insert_fault : nat -> option SubmitAbsence.pg_error)
            (twilio_send : string -> string -> option string)
            (req : SubmitAbsence.request) (store : SubmitAbsence.db) (p : string),
       m_phone member = Some p ->
       In member (SubmitAbsence.members store) ->
       Js.is_blank (SubmitAbsence.name req) = false ->
       Js.is_blank (SubmitAbsence.phone req) = false ->
       In (SubmitAbsence.reason req) SubmitAbsence.validReasons ->
       Js.strip_non_digits (SubmitAbsence.phone req) = Js.strip_non_digits p ->
       let answer :=
         SubmitAbsence.status_of
           (fst (SubmitAbsence.handler date_in today js_now db_now new_checkin_id
                   new_code_id twilio_configured randomInt insert_fault twilio_send
                   req store)) in
       answer = 200%Z \/ answer = 500%Z).
Proof.
  intros memberId fromDate toDate member s d Hrun Hshort. split.
  - apply detail_report_shape in Hrun as (from & to & _ & _ & Hshape).
    cbv zeta in Hshape. destruct Hshape as (_ & Habs & Hwith & Hwithout).
    assert (Hown : select_member_checkins (member_digits member) from to checkins = []).
    { unfold select_member_checkins, member_digits, SubmitAbsence.last10Digits.
      rewrite slice_last_short by lia.
      destruct (Nat.eqb_spec (String.length
                  (Js.strip_non_digits
                     (match m_phone member with Some p => p | None => "" end))) 10);
        [lia|reflexivity]. }
    rewrite Hown in Habs.
    assert (Hnone : Forall (fun a => absenteeSubmission a = None) (absences d)).
    { rewrite Habs. apply Forall_forall. intros a Ha.
      apply in_map_iff in Ha as (sv & <- & _). reflexivity. }
    assert (Hzero : filter has_submission (absences d) = []).
    { clear - Hnone. induction (absences d) as [|a l IH]; [reflexivity|].
      inversion Hnone as [|? ? Ha Hl]; subst. simpl. unfold has_submission at 1.
      rewrite Ha. auto. }
    rewrite Hwith, Hwithout, Hzero, Habs, length_map. simpl.
    rewrite Nat.sub_0_r. rewrite <- Habs. auto.
  - intros today js_now db_now new_checkin_id new_code_id twilio_configured randomInt
           insert_fault twilio_send req store p Hp Hin Hname Hphone Hreason Hsame answer.
    assert (Hr1 : String.eqb (SubmitAbsence.reason req) "" = false).
    { apply String.eqb_neq. intros Heq. rewrite Heq in Hreason.
      simpl in Hreason. repeat (destruct Hreason as [Hreason|Hreason]; [discriminate|]).
      exact Hreason. }
    apply valid_reason_spec in Hreason.
    assert (Hsel : SubmitAbsence.select_members
                     (SubmitAbsence.last10Digits (SubmitAbsence.phone req))
                     (SubmitAbsence.members store) <> []).
    { intros Hnil. rewrite select_members_nil in Hnil.
      apply (Hnil member p Hin Hp). unfold SubmitAbsence.last10Digits. now rewrite Hsame. }
    unfold answer, SubmitAbsence.handler. rewrite Hname, Hphone, Hr1, Hreason. cbn [negb].
    destruct (SubmitAbsence.select_members _ (SubmitAbsence.members store))
      as [|m0 rest]; [congruence|].
    destruct (date_in _); [|now right].
    destruct (255 <? String.length (Js.trim (SubmitAbsence.name req)))%nat; [now right|].
    match goal with |- context [SubmitAbsence.send_link ?a ?b ?c ?d0 ?e ?f ?g ?r ?k ?s1] =>
      destruct (SubmitAbsence.send_link a b c d0 e f g r k s1) as [[sent err] s2] end.
    now left.
Qed.

End DetailFacts.

(** X26.  A check-in explains the absences of its day.  After a check-in
    answered 200 under a phone of ten digits or more, a report on the
    member who has these ten digits lists every absence on the service
    date of the check-in with a submission. *)
Theorem stored_checkin_explains_absence :
  forall (date_in : string -> option pg_date) (today : string)
         (js_now db_now : timestamp) (new_checkin_id : uuid)
         (new_code_id : nat -> uuid) (twilio_configured : bool)
         (randomInt : nat -> nat -> nat)
         (insert_fault : nat -> option SubmitAbsence.pg_error)
         (twilio_send : string -> string -> option string)
         (req : SubmitAbsence.request) (store store' : SubmitAbsence.db)
         (k : checkin_row) (sent : bool) (err : option string)
         (members : list member_row) (attendance : list attendance_row)
         (memberId fromDate toDate : string) (member : member_row)
         (s : MemberAbsenceReport.summary) (d : MemberAbsenceDetail.response_detail),
    SubmitAbsence.handler date_in today js_now db_now new_checkin_id new_code_id
      twilio_configured randomInt insert_fault twilio_send req store
    = (SubmitAbsence.Recorded k sent err, store') ->
    MemberAbsenceDetail.handler date_in members attendance
      (SubmitAbsence.absentee_checkins store') memberId fromDate toDate
    = MemberAbsenceDetail.Report member s d ->
    String.length (k_phone k) = 10%nat ->
    MemberAbsenceDetail.member_digits member = k_phone k ->
    Forall (fun a => MemberAbsenceDetail.date a = k_service_date k ->
                     MemberAbsenceDetail.absenteeSubmission a <> None)
           (MemberAbsenceDetail.absences d).
Proof.
  intros date_in today js_now db_now new_checkin_id new_code_id twilio_configured
         randomInt insert_fault twilio_send req store store' k sent err members
         attendance memberId fromDate toDate member s d Hrec Hrep Hten Hdigits.
  apply recorded_checkin_is_stored in Hrec as (Hphone & _ & _ & _ & _ & Hin).
  apply detail_report_shape in Hrep as (from & to & _ & _ & Hshape).
  cbv zeta in Hshape. destruct Hshape as (_ & Habs & _).
  rewrite Habs. apply Forall_forall. intros a Ha Hdate.
  apply in_map_iff in Ha as (sv & <- & Hsv).
  cbn [MemberAbsenceDetail.detail MemberAbsenceDetail.date
       MemberAbsenceDetail.absenteeSubmission] in *.
  assert (Hrange : MemberAbsenceReport.in_range from to (fst sv) = true).
  { unfold MemberAbsenceReport.find_absences in Hsv.
    apply filter_In in Hsv as [Hocc _].
    apply occurred_spec in Hocc as (r & _ & Hr & <-). exact Hr. }
  match goal with |- match ?l with _ => _ end <> None =>
    destruct l as [|k0 rest] eqn:Hby; [|discriminate] end.
  exfalso.
  match type of Hin with In ?shown _ =>
    assert (Hk : In shown
                   (MemberAbsenceDetail.absenteeByDate
                      (MemberAbsenceDetail.select_member_checkins
                         (MemberAbsenceDetail.member_digits member) from to
                         (SubmitAbsence.absentee_checkins store')) (fst sv)))
  end.
  { apply absenteeByDate_in. cbn [k_service_date]. split; [|now symmetry].
    apply select_member_checkins_in. cbn [k_phone k_service_date].
    rewrite Hdigits. split; [exact Hten|]. split; [exact Hin|].
    split; [rewrite Hphone; apply last10Digits_idem|now rewrite <- Hdate]. }
  rewrite Hby in Hk. destruct Hk.
Qed.


(** Cy Doe, whose phone has seven digits, reported for 2024-03-31; the
    report on Cy Doe shows no submission. *)
Lemma short_phone_never_shows_submissions_witness :
  match MemberAbsenceDetail.handler Examples.date_in DetailExamples.directory
          Examples.attendance_2024 DetailExamples.checkins
          "m3" "2024-03-25" "2024-04-01" with
  | MemberAbsenceDetail.Report _ _ d =>
      MemberAbsenceDetail.absencesWithSubmission d = 0%nat
  | MemberAbsenceDetail.Failure _ _ => False
  end.
Proof.
  destruct (MemberAbsenceDetail.handler Examples.date_in DetailExamples.directory
              Examples.attendance_2024 DetailExamples.checkins
              "m3" "2024-03-25" "2024-04-01") as [member s d|c e] eqn:Hrun.
  - assert (Hm : member = mkMember "m3" "Cy" "Doe" (Some "555-1234")).
    { vm_compute in Hrun. inversion Hrun. reflexivity. }
    destruct (short_phone_never_shows_submissions Examples.date_in
                DetailExamples.directory Examples.attendance_2024 DetailExamples.checkins
                "m3" "2024-03-25" "2024-04-01" member s d Hrun)
      as ((Hzero & _) & _).
    + rewrite Hm. vm_compute. lia.
    + exact Hzero.
  - vm_compute in Hrun. discriminate Hrun.
Defined.

(** Ann Lee checks in for 2024-03-31; the report on her then shows a
    submission on both services she missed that day. *)
Lemma stored_checkin_explains_absence_witness :
  match SubmitAbsence.handler Examples.date_in "2024-03-30" 5000%Z 5001%Z 21%Z
          Examples.code_ids true Examples.sample_randomInt Examples.no_fault
          Examples.twilio_accepts
          (SubmitAbsence.mkRequest "Ann Lee" "555-010-2000" "sick" "" "2024-03-31")
          Examples.store with
  | (SubmitAbsence.Recorded k _ _, store') =>
      match MemberAbsenceDetail.handler Examples.date_in Examples.directory
              Examples.attendance_2024 (SubmitAbsence.absentee_checkins store')
              "m1" "2024-03-25" "2024-04-01" with
      | MemberAbsenceDetail.Report _ _ d =>
          Forall (fun a => MemberAbsenceDetail.date a = "2024-03-31" ->
                           MemberAbsenceDetail.absenteeSubmission a <> None)
                 (MemberAbsenceDetail.absences d)
      | MemberAbsenceDetail.Failure _ _ => False
      end
  | _ => False
  end.
Proof.
  destruct (SubmitAbsence.handler Examples.date_in "2024-03-30" 5000%Z 5001%Z 21%Z
              Examples.code_ids true Examples.sample_randomInt Examples.no_fault
              Examples.twilio_accepts
              (SubmitAbsence.mkRequest "Ann Lee" "555-010-2000" "sick" "" "2024-03-31")
              Examples.store) as [[c e n|k sent err] store'] eqn:Hrec.
  - vm_compute in Hrec. discriminate Hrec.
  - assert (Hk : k = mkCheckin 21%Z "Ann Lee" "5550102000" "sick" None "2024-03-31"
                       false None 5001%Z).
    { vm_compute in Hrec. inversion Hrec. reflexivity. }
    destruct (MemberAbsenceDetail.handler Examples.date_in Examples.directory
                Examples.attendance_2024 (SubmitAbsence.absentee_checkins store')
                "m1" "2024-03-25" "2024-04-01") as [member s d|c e] eqn:Hrep.
    + assert (Hm : member = mkMember "m1" "Ann" "Lee" (Some "(555) 010-2000")).
      { revert Hrep. unfold MemberAbsenceDetail.handler.
        cbn [String.eqb Ascii.eqb Bool.eqb orb filter Examples.directory m_id].
        destruct (Examples.date_in "2024-03-25"); [|discriminate].
        destruct (Examples.date_in "2024-04-01"); [|discriminate].
        intros H; inversion H. reflexivity. }
      pose proof (stored_checkin_explains_absence Examples.date_in "2024-03-30" 5000%Z
                    5001%Z 21%Z Examples.code_ids true Examples.sample_randomInt
                    Examples.no_fault Examples.twilio_accepts
                    (SubmitAbsence.mkRequest "Ann Lee" "555-010-2000" "sick" ""
                       "2024-03-31")
                    Examples.store store' k sent err Examples.directory
                    Examples.attendance_2024 "m1" "2024-03-25" "2024-04-01"
                    member s d Hrec Hrep) as Hall.
      rewrite Hk, Hm in Hall. apply Hall; reflexivity.
    + exfalso. revert Hrep. unfold MemberAbsenceDetail.handler.
      cbn [String.eqb Ascii.eqb Bool.eqb orb filter Examples.directory m_id].
      destruct (Examples.date_in "2024-03-25") eqn:H1; [|discriminate H1].
      destruct (Examples.date_in "2024-04-01") eqn:H2; [|discriminate H2].
      discriminate.
Defined.

(** ** Absences recorded by an administrator *)

Lemma last10Digits_empty phone :
  SubmitAbsence.last10Digits phone = "" <-> Js.strip_non_digits phone = "".
Proof.
  split.
  - intros H.
    destruct (last10Digits_cases phone) as [[_ Heq]|(pre & last & _ & Hl & Heq)].
    + now rewrite <- Heq.
    + rewrite H in Heq. subst last. discriminate Hl.
  - intros H. unfold SubmitAbsence.last10Digits. now rewrite H.
Qed.

Lemma last10Digits_ten phone :
  String.length (SubmitAbsence.last10Digits phone) = 10%nat <->
  (10 <= String.length (Js.strip_non_digits phone))%nat.
Proof.
  destruct (last10Digits_cases phone) as [[Hle Heq]|(pre & last & Hc & Hl & Heq)].
  - rewrite Heq. lia.
  - rewrite Heq, Hc, string_length_app. lia.
Qed.

Lemma formatPhone_reach d :
  Forall (fun c => Js.is_digit c = true) (list_ascii_of_string d) ->
  (String.length d <= 10)%nat ->
  (11 <=? String.length (SubmitAbsence.formatPhone d))%nat
  = (String.length d =? 10)%nat.
Proof.
  intros Hd Hlen. rewrite formatPhone_eq, (strip_non_digits_fixes _ Hd).
  rewrite string_length_app.
  destruct (Nat.eqb_spec (String.length d) 10) as [H|H].
  - rewrite H. reflexivity.
  - apply Nat.leb_gt. simpl. lia.
Qed.

Section ManualFacts.
Import ManualAbsence.
Variable date_in : string -> option pg_date.
Variables js_now db_now : timestamp.
Variable new_checkin_id : uuid.
Variable new_code_id : nat -> uuid.
Variable twilio_configured : bool.
Variable randomInt : nat -> nat -> nat.
Variable insert_fault : nat -> option SubmitAbsence.pg_error.
Variable twilio_send : string -> string -> option string.

Let run := handler date_in js_now db_now new_checkin_id new_code_id
             twilio_configured randomInt insert_fault twilio_send.
Let send := send_link js_now db_now new_code_id twilio_configured randomInt
              insert_fault twilio_send.

Lemma manual_fields_pass req :
  memberName req <> "" -> serviceDate req <> "" ->
  In (reason req) SubmitAbsence.validReasons ->
  String.eqb (memberName req) "" = false /\
  String.eqb (serviceDate req) "" = false /\
  String.eqb (reason req) "" = false /\
  existsb (String.eqb (reason req)) SubmitAbsence.validReasons = true.
Proof.
  intros Hn Hd Hr. apply String.eqb_neq in Hn, Hd.
  split; [exact Hn|]. split; [exact Hd|]. split.
  - apply String.eqb_neq. intros Heq. rewrite Heq in Hr. simpl in Hr.
    repeat (destruct Hr as [Hr|Hr]; [discriminate|]). exact Hr.
  - now apply valid_reason_spec.
Qed.

(** The SMS step sends only to ten digits. *)
Lemma manual_send_link_sent req checkin digits s sent err s' :
  Forall (fun c => Js.is_digit c = true) (list_ascii_of_string digits) ->
  (String.length digits <= 10)%nat ->
  send req checkin digits s = (sent, err, s') ->
  sent = true ->
  String.length digits = 10%nat /\ twilio_configured = true /\
  ActivePassword.select_active (SubmitAbsence.vimeo_passwords s) <> None.
Proof.
  intros Hd Hlen. unfold send, send_link.
  destruct (ActivePassword.select_active (SubmitAbsence.vimeo_passwords s)) as [v|];
    destruct twilio_configured; try (intros H; inversion H; discriminate).
  destruct (SubmitAbsence.code_loop _ _ _ _ 10 0 _ _ _ _) as [code a codes'|a|e a];
    try (intros H; inversion H; discriminate).
  rewrite (formatPhone_reach digits Hd Hlen).
  destruct (Nat.eqb_spec (String.length digits) 10) as [Hten|Hten];
    [|intros H; inversion H; discriminate].
  destruct (twilio_send _ code); intros H; inversion H; subst; try discriminate.
  intros _. repeat split; auto. discriminate.
Qed.

(** X27.  An absence recorded by an administrator needs a phone with a
    digit.  With the name, the date and a valid reason given, a phone
    that holds no digit, or no phone, makes the answer 500 and leaves the
    store as it was, whether a link was asked for or not, because the
    phone column takes no NULL.  A phone with a digit, a date text that is
    a date and a trimmed name of at most 255 characters make the answer
    200; when no link is asked for, the store then gains the one check-in
    row and nothing else. *)
Theorem manual_absence_needs_a_phone_digit :
  forall (req : request) (s : SubmitAbsence.db),
    memberName req <> "" -> serviceDate req <> "" ->
    In (reason req) SubmitAbsence.validReasons ->
    (Js.strip_non_digits (memberPhone req) = "" ->
     run req s = (Failure 500 "Failed to record absence", s)) /\
    (forall d,
       Js.strip_non_digits (memberPhone req) <> "" ->
       date_in (serviceDate req) = Some d ->
       (String.length (Js.trim (memberName req)) <= 255)%nat ->
       let checkin :=
         mkCheckin new_checkin_id (Js.trim (memberName req))
           (SubmitAbsence.last10Digits (memberPhone req)) (reason req)
           (if String.eqb (prayerRequest req) "" then None
            else Some (prayerRequest req))
           d false None db_now in
       (exists sent err, fst (run req s) = Recorded checkin sent err) /\
       (sendLink req = false ->
        run req s
        = (Recorded checkin false None,
           SubmitAbsence.mkDb (SubmitAbsence.members s)
             (SubmitAbsence.absentee_checkins s ++ [checkin])
             (SubmitAbsence.vimeo_passwords s)
             (SubmitAbsence.stream_access_codes s)))).
Proof.
  intros req s Hn Hd Hr.
  destruct (manual_fields_pass req Hn Hd Hr) as (E1 & E2 & E3 & E4).
  split.
  - intros Hnone. apply last10Digits_empty in Hnone.
    unfold run, handler. rewrite E1, E2, E3, E4, Hnone. reflexivity.
  - intros d Hsome Hdate Hlen checkin.
    assert (E5 : String.eqb (SubmitAbsence.last10Digits (memberPhone req)) "" = false).
    { apply String.eqb_neq. intros H. apply last10Digits_empty in H. contradiction. }
    apply Nat.ltb_ge in Hlen.
    unfold run, handler. rewrite E1, E2, E3, E4, E5, Hdate, Hlen. cbn [negb].
    fold checkin. fold send. split.
    + destruct (sendLink req); [|exists false, None; reflexivity].
      match goal with |- context [send req ?k ?p ?s1] =>
        destruct (send req k p s1) as [[sent err] s2] end.
      exists sent, (if sent then None else err). reflexivity.
    + intros Hoff. rewrite Hoff. reflexivity.
Qed.

(** X28.  The link of a manual absence goes to ten digits only.  An
    answer with [smsSent] true needs a link asked for, SMS configured, an
    active password and a phone with at least ten digits.  With fewer
    digits, when the code loop stores a code, the code stays in the table
    with its 24 hours, no SMS is attempted and the answer is 200 with
    [smsError] "Invalid phone number format". *)
Theorem manual_link_needs_ten_digits :
  forall (req : request) (s : SubmitAbsence.db),
    (forall k err s',
       run req s = (Recorded k true err, s') ->
       sendLink req = true /\ twilio_configured = true /\
       ActivePassword.select_active (SubmitAbsence.vimeo_passwords s) <> None /\
       (10 <= String.length (Js.strip_non_digits (memberPhone req)))%nat) /\
    (forall d v code a codes',
       memberName req <> "" -> serviceDate req <> "" ->
       In (reason req) SubmitAbsence.validReasons ->
       date_in (serviceDate req) = Some d ->
       (String.length (Js.trim (memberName req)) <= 255)%nat ->
       sendLink req = true -> twilio_configured = true ->
       ActivePassword.select_active (SubmitAbsence.vimeo_passwords s) = Some v ->
       (0 < String.length (Js.strip_non_digits (memberPhone req)) < 10)%nat ->
       SubmitAbsence.code_loop js_now new_code_id randomInt insert_fault 10 0
         (Js.trim (memberName req)) (SubmitAbsence.last10Digits (memberPhone req))
         new_checkin_id (SubmitAbsence.stream_access_codes s)
       = SubmitAbsence.Generated code a codes' ->
       let checkin :=
         mkCheckin new_checkin_id (Js.trim (memberName req))
           (SubmitAbsence.last10Digits (memberPhone req)) (reason req)
           (if String.eqb (prayerRequest req) "" then None
            else Some (prayerRequest req))
           d false None db_now in
       run req s
       = (Recorded checkin false (Some "Invalid phone number format"),
          SubmitAbsence.mkDb (SubmitAbsence.members s)
            (SubmitAbsence.absentee_checkins s ++ [checkin])
            (SubmitAbsence.vimeo_passwords s) codes') /\
       codes' = SubmitAbsence.stream_access_codes s
                ++ [mkCode (new_code_id a) code (Js.trim (memberName req))
                      (SubmitAbsence.last10Digits (memberPhone req)) new_checkin_id
                      (js_now + 24 * 3600 * 1000)%Z None None 0%Z false]).
Proof.
  intros req s. split.
  - intros k err s'. unfold run, handler.
    destruct (String.eqb (memberName req) ""); [discriminate|].
    destruct (String.eqb (serviceDate req) ""); [discriminate|].
    destruct (String.eqb (reason req) ""); [discriminate|].
    destruct (negb _); [discriminate|].
    destruct (String.eqb (SubmitAbsence.last10Digits (memberPhone req)) "");
      [discriminate|].
    destruct (date_in (serviceDate req)) as [d|]; [|discriminate].
    destruct (255 <? _)%nat; [discriminate|].
    destruct (sendLink req); [|discriminate]. fold send.
    match goal with |- context [send req ?k0 ?p ?s1] =>
      destruct (send req k0 p s1) as [[sent e0] s2] eqn:Hsend end.
    intros H; inversion H; subst sent.
    destruct (last10Digits_digits (memberPhone req)) as [Hlen Hdig].
    destruct (manual_send_link_sent _ _ _ _ _ _ _ Hdig Hlen Hsend eq_refl)
      as (Hten & Htw & Hact).
    split; [reflexivity|]. split; [exact Htw|]. split; [exact Hact|].
    now apply last10Digits_ten.
  - intros d v code a codes' Hn Hd Hr Hdate Hlen Hlink Htw Hact [Hpos Hshort] Hloop
           checkin.
    destruct (manual_fields_pass req Hn Hd Hr) as (E1 & E2 & E3 & E4).
    assert (E5 : String.eqb (SubmitAbsence.last10Digits (memberPhone req)) "" = false).
    { apply String.eqb_neq. intros H. apply last10Digits_empty in H.
      rewrite H in Hpos. simpl in Hpos. lia. }
    destruct (last10Digits_digits (memberPhone req)) as [Hlen10 Hdig].
    assert (Hnot : (String.length (SubmitAbsence.last10Digits (memberPhone req)) =? 10)%nat
                   = false).
    { apply Nat.eqb_neq. intros H. apply last10Digits_ten in H. lia. }
    pose proof (code_loop_spec js_now new_code_id randomInt insert_fault
                  (Js.trim (memberName req))
                  (SubmitAbsence.last10Digits (memberPhone req)) new_checkin_id
                  10 0 (SubmitAbsence.stream_access_codes s)) as Hspec.
    rewrite Hloop in Hspec. destruct Hspec as (_ & Hcode & Hins & _).
    apply attempt_accepted in Hins as [Hcodes' _]. rewrite <- Hcode in Hcodes'.
    split; [|exact Hcodes'].
    apply Nat.ltb_ge in Hlen.
    unfold run, handler. rewrite E1, E2, E3, E4, E5, Hdate, Hlen, Hlink. cbn [negb].
    fold checkin. unfold send_link.
    cbn [SubmitAbsence.vimeo_passwords SubmitAbsence.stream_access_codes k_id checkin].
    rewrite Hact, Htw, Hloop.
    rewrite (formatPhone_reach _ Hdig Hlen10), Hnot. reflexivity.
Qed.

End ManualFacts.

(** Bo Ray has no phone on file: the absence cannot be recorded. *)
Lemma manual_absence_needs_a_phone_digit_witness :
  ManualAbsence.handler Examples.date_in 5000%Z 5001%Z 21%Z Examples.code_ids true
    Examples.sample_randomInt Examples.no_fault Examples.twilio_accepts
    (ManualAbsence.mkRequest "Bo Ray" "" "vacation" "2024-05-12" "" false)
    Examples.store
  = (ManualAbsence.Failure 500 "Failed to record absence", Examples.store).
Proof.
  destruct (manual_absence_needs_a_phone_digit Examples.date_in 5000%Z 5001%Z 21%Z
              Examples.code_ids true Examples.sample_randomInt Examples.no_fault
              Examples.twilio_accepts
              (ManualAbsence.mkRequest "Bo Ray" "" "vacation" "2024-05-12" "" false)
              Examples.store) as [Hnone _].
  - discriminate.
  - discriminate.
  - right. left. reflexivity.
  - apply Hnone. reflexivity.
Defined.

(** A phone of seven digits with a link asked for: the code DMU3AH is
    stored and no SMS goes out. *)
Lemma manual_link_needs_ten_digits_witness :
  fst (ManualAbsence.handler Examples.date_in 5000%Z 5001%Z 21%Z Examples.code_ids true
         Examples.sample_randomInt Examples.no_fault Examples.twilio_accepts
         (ManualAbsence.mkRequest "Bo Ray" "555-1234" "vacation" "2024-05-12" "" true)
         Examples.store)
  = ManualAbsence.Recorded
      (mkCheckin 21%Z "Bo Ray" "5551234" "vacation" None "2024-05-12" false None 5001%Z)
      false (Some "Invalid phone number format").
Proof.
  destruct (manual_link_needs_ten_digits Examples.date_in 5000%Z 5001%Z 21%Z
              Examples.code_ids true Examples.sample_randomInt Examples.no_fault
              Examples.twilio_accepts
              (ManualAbsence.mkRequest "Bo Ray" "555-1234" "vacation" "2024-05-12" ""
                 true)
              Examples.store) as [_ Hshort].
  destruct (Hshort "2024-05-12"%string Examples.live_row "DMU3AH"%string 0%nat
              (Examples.issued_codes
               ++ [mkCode 100%Z "DMU3AH" "Bo Ray" "5551234" 21%Z 86405000%Z
                     None None 0%Z false])) as [Hrun _].
  - discriminate.
  - discriminate.
  - right. left. reflexivity.
  - reflexivity.
  - vm_compute. lia.
  - reflexivity.
  - reflexivity.
  - reflexivity.
  - vm_compute. lia.
  - vm_compute. reflexivity.
  - rewrite Hrun. reflexivity.
Defined.

(** ** Reading and adjusting the current password *)

Section SettingsFacts.
Import VimeoSettings.

Lemma newest_by_rows l :
  option_map row (newest l) = ActivePassword.newest (map row l).
Proof.
  induction l as [|p l IH]; simpl; auto.
  destruct (newest l) as [q|]; simpl in IH; rewrite <- IH; simpl; auto.
  destruct (v_created_at (row p) <? v_created_at (row q))%Z; reflexivity.
Qed.

Lemma select_active_by_rows t :
  option_map row (select_active t) = ActivePassword.select_active (map row t).
Proof.
  unfold select_active, ActivePassword.select_active. rewrite newest_by_rows.
  f_equal. induction t as [|p t IH]; simpl; auto.
  destruct (v_active (row p)); simpl; now rewrite IH.
Qed.








(** X29.  The GET branch shows the password the viewers get.  It says
    that no password is configured exactly when no row is active, and then
    no validation is answered 200.  Otherwise the video id and the
    password it shows are those of every validation answered with
    credentials; the URL it shows is never empty: it is the stored URL
    when there is one, and the address of the video on vimeo.com when the
    stored URL is NULL or empty, in which case the viewers get the stored
    value as it is. *)
Theorem current_password_is_what_viewers_get :
  forall t : list password_row,
    (get t = NoPassword <-> ActivePassword.select_active (map row t) = None) /\
    (get t = NoPassword ->
     forall (js_now db_now : timestamp) (code : string) (codes : list code_row),
       VerifyStreamCode.statusCode
         (fst (VerifyStreamCode.handler js_now db_now (map row t) code codes))
       <> 200%Z) /\
    (forall vid pw url rt created expiry,
       get t = Current vid pw url rt created expiry ->
       url <> "" /\
       forall (js_now db_now : timestamp) (code : string) (codes : list code_row)
              (m vid' : string) (url' : option string) (pw' : string) (ex : timestamp),
         VerifyStreamCode.resp_body
           (fst (VerifyStreamCode.handler js_now db_now (map row t) code codes))
         = VerifyStreamCode.Granted m vid' url' pw' ex ->
         vid' = vid /\ pw' = pw /\
         (url' = Some url \/
          ((url' = None \/ url' = Some "") /\
           url = ("https://vimeo.com/" ++ vid)%string))).
Proof.
  intros t. pose proof (select_active_by_rows t) as Hrows. unfold get.
  destruct (select_active t) as [current|] eqn:Hsel; simpl in Hrows.
  - split; [split; [discriminate|intros H; rewrite H in Hrows; discriminate]|].
    split; [discriminate|].
    intros vid pw url rt created expiry H. inversion H; subst; clear H. split.
    + unfold shown_url. destruct (v_video_url (row current)) as [u|];
        [destruct (String.eqb_spec u "") as [He|He]; [discriminate|exact He]
        |discriminate].
    + intros js_now db_now code codes m vid' url' pw' ex Hg.
      apply granted_reads_active in Hg as (v & Hv & -> & -> & ->).
      rewrite <- Hrows in Hv. inversion Hv; subst v.
      split; [reflexivity|]. split; [reflexivity|].
      unfold shown_url. destruct (v_video_url (row current)) as [u|]; [|right; auto].
      destruct (String.eqb_spec u "") as [He|He]; [subst u; right; auto|now left].
  - split; [split; auto|]. split.
    + intros _ js_now db_now code codes Hok.
      destruct (VerifyStreamCode.handler js_now db_now (map row t) code codes)
        as [[st body] cs] eqn:Hrun.
      simpl in Hok. subst st.
      revert Hrun. unfold VerifyStreamCode.handler. rewrite <- Hrows.
      destruct (String.eqb code "" || negb (String.length code =? 6)%nat); [discriminate|].
      destruct (VerifyStreamCode.select_code _ codes) as [|r rest]; [discriminate|].
      destruct (c_revoked r); [discriminate|].
      destruct (c_expires_at r <? js_now)%Z; discriminate.
    + intros vid pw url rt created expiry H. discriminate H.
Qed.

Variable timestamp_in : string -> option timestamp.


End SettingsFacts.

(** With the one row of the table deactivated, GET reports no password
    and the example code is not admitted. *)
Lemma current_password_is_what_viewers_get_witness :
  VerifyStreamCode.statusCode
    (fst (VerifyStreamCode.handler 2000%Z 2001%Z
            (map VimeoSettings.row (firstn 1 SettingsExamples.table))
            "k7m2qx" Examples.issued_codes))
  <> 200%Z.
Proof.
  destruct (current_password_is_what_viewers_get (firstn 1 SettingsExamples.table))
    as (_ & Hno & _).
  apply Hno. reflexivity.
Defined.

